(** * Fludo: the local, rule-based scene editor of [app/agent.py]

    A shallow embedding of the deterministic text-to-scene engine
    ([run_local] and the helpers it calls) together with the properties
    the design document states about it.

    Conventions of the embedding.
    - A Python [str] is a [string]; its characters are the bytes of the
      UTF-8 encoding.  [lower], [split] and the regular-expression classes
      are the ASCII ones, which is what Python computes on ASCII text.
    - A Python [float] is a primitive binary64 [float]; arithmetic is the
      IEEE-754 arithmetic of the kernel, bit for bit that of CPython.
    - A [dict] with a fixed set of optional keys is a record of [option]
      fields ([None]: the key is absent); the [params] dict, whose keys
      vary, is an insertion-ordered association list.
    - Code that may raise returns a [result]. *)

From Stdlib Require Import ZArith List String Ascii Bool Lia PeanoNat FinFun.
From Stdlib Require Import Sorted Permutation.
From Stdlib Require Import Floats Uint63 DecimalString DecimalNat.
Import ListNotations.

Set Warnings "-inexact-float".

Local Open Scope string_scope.
Local Open Scope list_scope.

(** ** Python built-ins on strings *)

Module Py.

(** [sub in s] on strings. *)
Fixpoint contains (s sub : string) : bool :=
  String.prefix sub s ||
  match s with
  | EmptyString => false
  | String _ s' => contains s' sub
  end.

(** [any(k in s for k in ks)] *)
Definition contains_any (s : string) (ks : list string) : bool :=
  existsb (contains s) ks.

(** [x in l] for a collection of strings. *)
Definition mem (x : string) (l : list string) : bool :=
  existsb (String.eqb x) l.

(** [str(n)] for a non-negative [int]. *)
Definition str_of_nat (n : nat) : string :=
  NilEmpty.string_of_uint (Nat.to_uint n).

Definition lower_ascii (c : ascii) : ascii :=
  let n := nat_of_ascii c in
  if (65 <=? n)%nat && (n <=? 90)%nat then ascii_of_nat (n + 32) else c.

(** [s.lower()] *)
Fixpoint lower (s : string) : string :=
  match s with
  | EmptyString => EmptyString
  | String c s' => String (lower_ascii c) (lower s')
  end.

(** [c.isspace()]: tab, LF, VT, FF, CR, the four separators 0x1c-0x1f
    and the space. *)
Definition is_space (c : ascii) : bool :=
  let n := nat_of_ascii c in
  ((9 <=? n)%nat && (n <=? 13)%nat) || ((28 <=? n)%nat && (n <=? 32)%nat).

(** [s.split()]: the maximal runs of non-space characters. *)
Fixpoint split_words (cur : string) (s : string) : list string :=
  match s with
  | EmptyString => match cur with EmptyString => [] | _ => [cur] end
  | String c s' =>
      if is_space c
      then match cur with
           | EmptyString => split_words EmptyString s'
           | _ => cur :: split_words EmptyString s'
           end
      else split_words (cur ++ String c EmptyString) s'
  end.

Definition split (s : string) : list string := split_words EmptyString s.

(** [" ".join(ws)] *)
Fixpoint join_space (ws : list string) : string :=
  match ws with
  | [] => EmptyString
  | [w] => w
  | w :: rest => w ++ " " ++ join_space rest
  end.

End Py.

(** ** Scene data model *)

(** A value of the [params] dict: a number or a string. *)
Inductive pval : Type :=
| PNum (x : float)
| PStr (s : string).

Definition params_t : Type := list (string * pval).

Record transform_t : Type := mkTransform {
  position : option (list float);
  rotation : option (list float);
  scale : option (list float)
}.

Record object : Type := mkObject {
  obj_id : option string;
  obj_type : option string;
  obj_params : option params_t;
  obj_transform : option transform_t
}.

(** The scene dict; [objects = None] is a dict without the key. *)
Record spec_t : Type := mkSpec {
  objects : option (list object)
}.

(** [d.get(key, default)] on the optional fields. *)
Definition get {A : Type} (field : option A) (default : A) : A :=
  match field with
  | Some v => v
  | None => default
  end.

Definition spec_objects (spec : option spec_t) : list object :=
  match spec with
  | Some s => get (objects s) []
  | None => []
  end.

(** ** Id generation ([_generate_id]) *)

(** The set [existing] built by the first loop of [_generate_id]. *)
Definition existing_ids (spec : option spec_t) : list string :=
  filter (fun obj_id => negb (String.eqb obj_id ""))
         (map (fun obj => get (obj_id obj) "") (spec_objects spec)).

Definition candidate_id (base : string) (index : nat) : string :=
  base ++ Py.str_of_nat index.

(** The [while candidate in existing] loop.  It leaves after at most
    [length existing] rounds (lemma [next_free_fuel_enough] below), which
    is the fuel [_generate_id] gives it. *)
Fixpoint next_free (fuel : nat) (base : string) (existing : list string)
                   (index : nat) : string :=
  match fuel with
  | O => candidate_id base index
  | S fuel' =>
      if Py.mem (candidate_id base index) existing
      then next_free fuel' base existing (S index)
      else candidate_id base index
  end.

Definition _generate_id (base : string) (spec : option spec_t) : string :=
  let existing := existing_ids spec in
  next_free (List.length existing) base existing 1.

(** An add with a generated id, as [_build_new_object] followed by
    [spec["objects"].append(new_obj)] does it: the id is generated against
    the scene before the insertion. *)
Definition set_id (new_id : string) (obj : object) : object :=
  mkObject (Some new_id) (obj_type obj) (obj_params obj) (obj_transform obj).

Definition append_with_id (base : string) (spec : spec_t) (obj : object)
  : spec_t :=
  mkSpec (Some (get (objects spec) []
                ++ [set_id (_generate_id base (Some spec)) obj])).

Definition empty_spec : spec_t := mkSpec (Some []).

Definition spec_ids (spec : spec_t) : list string :=
  map (fun obj => get (obj_id obj) "") (get (objects spec) []).

(** Removal of the objects carrying a given id. *)
Definition remove_id (gone : string) (spec : spec_t) : spec_t :=
  mkSpec (Some (filter (fun obj => negb (String.eqb (get (obj_id obj) "") gone))
                       (get (objects spec) []))).

(** [N] successive adds with the same base on the empty scene; [payloads]
    are the objects added, their ids assigned on insertion. *)
Definition adds (base : string) (payloads : list object) : spec_t :=
  fold_left (append_with_id base) payloads empty_spec.

(** ** Transform repair ([_ensure_transform]) *)

(** [[float(v[i]) if i < len(v) else fill for i in range(3)]], applied
    when [len(v) != 3]. *)
Definition pad3 (fill : float) (v : list float) : list float :=
  if Nat.eqb (List.length v) 3 then v
  else map (fun i => nth i v fill) [0; 1; 2].

Definition empty_transform : transform_t := mkTransform None None None.

(** [_ensure_transform] mutates [obj] and returns [obj["transform"]]; the
    embedding returns the object after the call, whose transform is the
    result. *)
Definition _ensure_transform (obj : object) : object :=
  let transform := get (obj_transform obj) empty_transform in
  let position := get (position transform) [0; 0; 0]%float in
  let rotation := get (rotation transform) [0; 0; 0]%float in
  let scale := get (scale transform) [1; 1; 1]%float in
  mkObject (obj_id obj) (obj_type obj) (obj_params obj)
           (Some (mkTransform (Some (pad3 0%float position))
                              (Some (pad3 0%float rotation))
                              (Some (pad3 1%float scale)))).

(** The transform of an object after the repair. *)
Definition transform_of (obj : object) : transform_t :=
  get (obj_transform (_ensure_transform obj)) empty_transform.

Definition position_of (obj : object) : list float :=
  get (position (transform_of obj)) [].
Definition rotation_of (obj : object) : list float :=
  get (rotation (transform_of obj)) [].
Definition scale_of (obj : object) : list float :=
  get (scale (transform_of obj)) [].

(** ** Seeded fallback synthesis ([_seed_from_text], [_rand01],
       [_generic_synthesis]) *)

Definition mask64 : Z := (2 ^ 64 - 1)%Z.

Definition byte_value (ch : ascii) : Z := Z.of_nat (nat_of_ascii ch).

(** The loop of [_seed_from_text] over the UTF-8 bytes of the text. *)
Fixpoint fnv1a (val : Z) (bytes : string) : Z :=
  match bytes with
  | EmptyString => val
  | String ch rest =>
      fnv1a (Z.land (Z.lxor val (byte_value ch) * 1099511628211) mask64) rest
  end.

Definition _seed_from_text (text : string) : Z :=
  let val := fnv1a 1469598103934665603%Z text in
  if (val =? 0)%Z then 1%Z else val.

(** The integer [x & ((1 << 53) - 1)] that [_rand01] divides by [2^53]. *)
Definition rand01_bits (seed : Z) : Z :=
  let x := Z.land seed mask64 in
  let x := Z.lxor x (Z.shiftr x 12) in
  let x := Z.lxor x (Z.land (Z.shiftl x 25) mask64) in
  let x := Z.lxor x (Z.shiftr x 27) in
  let x := Z.land (x * 2685821657736338717) mask64 in
  Z.land x (2 ^ 53 - 1).

(** [float(k)] for an integer [0 <= k < 2^63]; exact below [2^53]. *)
Definition float_of_Z (k : Z) : float := PrimFloat.of_uint63 (Uint63.of_Z k).

Definition _rand01 (seed : Z) : float :=
  (float_of_Z (rand01_bits seed) / 9007199254740992)%float.

(** [int(_rand01(seed) * 3)] in integers.  [_rand01] is [k / 2^53] exactly
    ([k < 2^53]; a division by a power of two does not round), so the
    exact product is [3k / 2^53]; binary64 keeps 53 significant bits of
    [3k], rounding to nearest, ties to even; [int] then truncates. *)
Definition round_half_even (p d : Z) : Z :=
  let q := (p / d)%Z in
  let r := (p mod d)%Z in
  if (2 * r <? d)%Z then q
  else if (d <? 2 * r)%Z then (q + 1)%Z
  else if Z.even q then q else (q + 1)%Z.

Definition round53 (p : Z) : Z :=
  let extra := (Z.log2 p - 52)%Z in
  if (extra <=? 0)%Z then p
  else (2 ^ extra * round_half_even p (2 ^ extra))%Z.

Definition int_of_rand01_times3 (seed : Z) : Z :=
  (round53 (3 * rand01_bits seed) / 2 ^ 53)%Z.

(** [int(x)] on a float, for the comparison of the two readings;
    [None] where Python raises (infinities and NaN). *)
Definition int_of_float (x : float) : option Z :=
  match Prim2SF x with
  | S754_zero _ => Some 0%Z
  | S754_finite s m e =>
      let v := if (0 <=? e)%Z then Z.shiftl (Zpos m) e
               else Z.shiftr (Zpos m) (- e) in
      Some (if s then (- v)%Z else v)
  | _ => None
  end.

Definition math_pi : float := 0x1.921fb54442d18p+1%float.

Definition unit_transform (pos rot : list float) : transform_t :=
  mkTransform (Some pos) (Some rot) (Some [1; 1; 1]%float).

(** The body of the loop of [_generic_synthesis] for one [i]. *)
Definition synth_object (seed : Z) (spec : option spec_t) (i : Z) : object :=
  let rnd (k : Z) := _rand01 (seed + i * k) in
  let shape_pick := rnd 997%Z in
  if (shape_pick <? 0.2)%float then
    let radius := (0.8 + 2.2 * rnd 123%Z)%float in
    mkObject (Some (_generate_id "sph" spec)) (Some "sphere")
      (Some [("radius", PNum radius)])
      (Some (unit_transform
               [(-2.5 + 5.0 * rnd 31%Z); (-2.5 + 5.0 * rnd 37%Z);
                (0.6 + 2.0 * rnd 41%Z)]%float
               [0; 0; 0]%float))
  else if (shape_pick <? 0.55)%float then
    let w := (1.2 + 4.0 * rnd 53%Z)%float in
    let d := (1.0 + 4.0 * rnd 59%Z)%float in
    let h := (0.8 + 3.0 * rnd 61%Z)%float in
    mkObject (Some (_generate_id "box" spec)) (Some "box")
      (Some [("width", PNum w); ("depth", PNum d); ("height", PNum h)])
      (Some (unit_transform
               [(-2.5 + 5.0 * rnd 67%Z); (-2.5 + 5.0 * rnd 71%Z);
                (h / 2.0)]%float
               [0; 0; 0]%float))
  else if (shape_pick <? 0.8)%float then
    let radius := (0.6 + 2.2 * rnd 73%Z)%float in
    let depth := (1.5 + 3.5 * rnd 79%Z)%float in
    mkObject (Some (_generate_id "cyl" spec)) (Some "cylinder")
      (Some [("radius", PNum radius); ("depth", PNum depth)])
      (Some (unit_transform
               [(-2.5 + 5.0 * rnd 83%Z); (-2.5 + 5.0 * rnd 89%Z);
                (depth / 2.0)]%float
               [0; 0; 0]%float))
  else
    let radius := (0.9 + 2.5 * rnd 97%Z)%float in
    let tube := (0.2 + 0.6 * rnd 101%Z)%float in
    mkObject (Some (_generate_id "torus" spec)) (Some "torus")
      (Some [("radius", PNum radius); ("tube", PNum tube)])
      (Some (unit_transform
               [(-2.5 + 5.0 * rnd 103%Z); (-2.5 + 5.0 * rnd 107%Z);
                (0.8 + 2.0 * rnd 109%Z)]%float
               [(math_pi / 2.0 * rnd 113%Z); 0; 0]%float)).

(** [range(n)] *)
Definition range (n : Z) : list Z := map Z.of_nat (seq 0 (Z.to_nat n)).

Definition synth_count (seed : Z) : Z := (3 + int_of_rand01_times3 seed)%Z.

Definition _generic_synthesis (text : string) (spec : option spec_t)
  : list object :=
  let seed := _seed_from_text text in
  let n := synth_count seed in
  map (synth_object seed spec) (range n).

(** The four bands of the shape pick. *)
Definition shape_band (r : float) : string :=
  if (r <? 0.2)%float then "sphere"
  else if (r <? 0.55)%float then "box"
  else if (r <? 0.8)%float then "cylinder"
  else "torus".

(** An object with its id left out: what of a synthesized object does not
    come from [_generate_id]. *)
Definition without_id (obj : object) : object :=
  mkObject None (obj_type obj) (obj_params obj) (obj_transform obj).

(** ** Keyword tables *)

(** The dicts keep their insertion order, as the source lists them. *)
Definition COLOR_KEYWORDS : list (string * string) :=
  [("bright red", "#ff4b5c"); ("red", "#ff4b5c"); ("blue", "#3d7eff");
   ("navy", "#2b4c9a"); ("light blue", "#7ab8ff"); ("green", "#34c759");
   ("lime", "#a8f152"); ("emerald", "#2ecc71"); ("yellow", "#ffd60a");
   ("gold", "#f5c542"); ("orange", "#ff8c42"); ("purple", "#a855f7");
   ("violet", "#8f5bff"); ("pink", "#ff5fa2"); ("magenta", "#ff2d95");
   ("cyan", "#4dd0e1"); ("aqua", "#4dd0e1"); ("turquoise", "#2ad7b6");
   ("white", "#f5f5f5"); ("black", "#111111"); ("gray", "#8e8e93");
   ("grey", "#8e8e93"); ("silver", "#b0b8c5"); ("bronze", "#b07d3c");
   ("copper", "#b87333"); ("teal", "#3cc1b3"); ("brown", "#8b5a2b")].

Definition TYPE_SYNONYMS : list (string * list string) :=
  [("box", ["box"; "cube"; "block"; "rect"; "rectangle"; "rectangular"]);
   ("cylinder", ["cylinder"; "tube"; "pipe"; "column"]);
   ("sphere", ["sphere"; "ball"; "orb"; "globe"]);
   ("plane", ["plane"; "sheet"; "panel"; "floor"; "ground"; "surface"]);
   ("cone", ["cone"; "pyramid"]);
   ("torus", ["torus"; "ring"; "donut"; "doughnut"]);
   ("torusknot", ["torus knot"; "torusknot"; "knot"]);
   ("external_model", ["model"; "import"; "mesh"; "gltf"; "obj"; "asset"]);
   ("assembly", ["assembly"; "mechanism"; "robot hand"; "robotic hand";
                 "gripper"; "end effector"; "bicycle"; "bike"])].

Definition ORDINAL_KEYWORDS : list (string * Z) :=
  [("first", 0); ("1st", 0); ("second", 1); ("2nd", 1); ("third", 2);
   ("3rd", 2); ("fourth", 3); ("4th", 3); ("fifth", 4); ("5th", 4);
   ("last", -1); ("final", -1); ("previous", -1); ("current", -1)]%Z.

Definition ROTATION_AXIS_HINTS : list (string * nat) :=
  [("x", 0); ("x-axis", 0); ("roll", 0); ("y", 1); ("y-axis", 1);
   ("yaw", 1); ("z", 2); ("z-axis", 2); ("pitch", 2)].

Definition ADD_KEYWORDS : list string :=
  ["add"; "include"; "spawn"; "create"; "new"; "another"; "place"; "insert";
   "generate"].
Definition CLONE_KEYWORDS : list string := ["duplicate"; "copy"; "clone"].
Definition REPLACE_KEYWORDS : list string := ["replace"; "swap"; "switch"].
Definition ADD_PHRASES : list string :=
  ["make a"; "make an"; "build a"; "build another"; "create a"; "create an"].

(** [d.get(key)] on an association list. *)
Fixpoint lookup {A : Type} (key : string) (d : list (string * A)) : option A :=
  match d with
  | [] => None
  | (k, v) :: rest => if String.eqb k key then Some v else lookup key rest
  end.

(** ** Stable sorting

    [sorted] and [list.sort] are stable; [reverse=True] keeps the original
    order of equal keys too.  [before a b] says that [a] must come strictly
    before [b]. *)
Section StableSort.
Context {A : Type} (before : A -> A -> bool).

(** [x] stood before every element of the sorted [l] in the input. *)
Fixpoint insert_stable (x : A) (l : list A) : list A :=
  match l with
  | [] => [x]
  | y :: rest =>
      if before y x then y :: insert_stable x rest else x :: y :: rest
  end.

Definition stable_sort (l : list A) : list A :=
  fold_right insert_stable [] l.
End StableSort.

(** ** Lexical helpers *)

Definition _normalize (text : string) : string :=
  Py.join_space (Py.split (Py.lower text)).

Definition is_digit (c : ascii) : bool :=
  let n := nat_of_ascii c in (48 <=? n)%nat && (n <=? 57)%nat.

Definition is_alpha (c : ascii) : bool :=
  let n := nat_of_ascii c in
  ((65 <=? n)%nat && (n <=? 90)%nat) || ((97 <=? n)%nat && (n <=? 122)%nat).

(** The class [\w]. *)
Definition is_word (c : ascii) : bool :=
  is_alpha c || is_digit c || Ascii.eqb c "_".

Definition is_word_opt (c : option ascii) : bool :=
  match c with
  | Some c => is_word c
  | None => false
  end.

(** [\b] between two neighbouring characters ([None]: the text ends). *)
Definition word_boundary (left right : option ascii) : bool :=
  xorb (is_word_opt left) (is_word_opt right).

Definition head_char (s : string) : option ascii :=
  match s with
  | EmptyString => None
  | String c _ => Some c
  end.

Fixpoint last_char (prev : option ascii) (s : string) : option ascii :=
  match s with
  | EmptyString => prev
  | String c rest => last_char (Some c) rest
  end.

Fixpoint drop (n : nat) (s : string) : string :=
  match n, s with
  | O, _ => s
  | S n', String _ rest => drop n' rest
  | S _, EmptyString => EmptyString
  end.

(** Does [\b key \b] match at the head of [s], [prev] being the character
    before it? *)
Definition word_match_here (key : string) (prev : option ascii) (s : string)
  : bool :=
  String.prefix key s
  && word_boundary prev (head_char s)
  && word_boundary (last_char prev key) (head_char (drop (String.length key) s)).

(** [re.compile(r"\b" + re.escape(key) + r"\b").finditer(s)]: the starts of
    the matches, left to right; a match found, the scan resumes at its end
    ([skip] counts the characters still inside the last match). *)
Fixpoint word_matches (key : string) (prev : option ascii) (pos skip : nat)
                      (s : string) : list nat :=
  match s with
  | EmptyString => []
  | String c rest =>
      match skip with
      | S skip' => word_matches key (Some c) (S pos) skip' rest
      | O =>
          if negb (String.eqb key "") && word_match_here key prev s
          then pos :: word_matches key (Some c) (S pos)
                                   (String.length key - 1) rest
          else word_matches key (Some c) (S pos) 0 rest
      end
  end.

(** [COLOR_KEYWORDS.items()] sorted by descending length of the name. *)
Definition colors_longest_first : list (string * string) :=
  stable_sort (fun a b => (String.length (fst b) <? String.length (fst a))%nat)
              COLOR_KEYWORDS.

(** [any(used[i] for i in range(start, end))], the used positions given as
    the spans marked so far. *)
Definition span_used (used : list (nat * nat)) (start stop : nat) : bool :=
  existsb (fun span => (fst span <? stop)%nat && (start <? snd span)%nat) used.

(** The inner loop of [_color_mentions] over the matches of one name. *)
Fixpoint mark_matches (value : string) (len : nat) (starts : list nat)
    (used : list (nat * nat)) (mentions : list (nat * string))
  : list (nat * nat) * list (nat * string) :=
  match starts with
  | [] => (used, mentions)
  | start :: rest =>
      if span_used used start (start + len)
      then mark_matches value len rest used mentions
      else mark_matches value len rest ((start, start + len) :: used)
                        (mentions ++ [(start, value)])
  end.

Definition _color_mentions (text : string) : list (nat * string) :=
  let lowered := Py.lower text in
  let scan :=
    fold_left
      (fun (state : list (nat * nat) * list (nat * string)) kv =>
         mark_matches (snd kv) (String.length (fst kv))
                      (word_matches (fst kv) None 0 0 lowered)
                      (fst state) (snd state))
      colors_longest_first ([], []) in
  stable_sort (fun a b => (fst a <? fst b)%nat) (snd scan).

(** A set of strings, as the list of its members. *)
Definition _colors_in_text (text : string) : list string :=
  map snd (_color_mentions text).

Definition _color_from_text (text : string) : option string :=
  let lowered := Py.lower text in
  option_map snd
    (find (fun kv => Py.contains lowered (fst kv)) colors_longest_first).

Definition _match_type (type_name : string) (text : string) : bool :=
  let synonyms := get (lookup type_name TYPE_SYNONYMS) [type_name] in
  existsb (Py.contains text) synonyms.

(** ** Target resolver ([_find_targets]) *)

(** [str(obj.get("id", "")).lower()] and the like. *)
Definition lowered_id (obj : object) : string := Py.lower (get (obj_id obj) "").
Definition lowered_type (obj : object) : string :=
  Py.lower (get (obj_type obj) "").

(** [str(obj.get("params", {}).get("color", "")).lower()].  The [str] of a
    number is made of digits, a sign, a dot and letters; it is never one of
    the ["#rrggbb"] values the resolver compares it with, and it is not
    empty: the embedding keeps the number apart. *)
Inductive color_field : Type :=
| ColorText (s : string)
| ColorNumber.

Definition lowered_color (obj : object) : color_field :=
  match lookup "color" (get (obj_params obj) []) with
  | Some (PStr s) => ColorText (Py.lower s)
  | Some (PNum _) => ColorNumber
  | None => ColorText ""
  end.

(** [color_order]: each mentioned color with the index of its first
    mention ([setdefault] keeps the first). *)
Fixpoint first_index (color : string) (mentioned : list string) (idx : nat)
  : option nat :=
  match mentioned with
  | [] => None
  | c :: rest =>
      if String.eqb c color then Some idx else first_index color rest (S idx)
  end.

Definition color_order (text : string) (color : string) : option nat :=
  first_index color (map snd (_color_mentions text)) 0.

Definition id_score (obj : object) (lowered : string) : nat :=
  let obj_id := lowered_id obj in
  if negb (String.eqb obj_id "") && Py.contains lowered obj_id then 5 else 0.

Definition type_score (obj : object) (lowered : string) : nat :=
  let obj_type := lowered_type obj in
  if negb (String.eqb obj_type "") && _match_type obj_type lowered
  then 3 else 0.

Definition color_score (obj : object) (text : string) : nat :=
  match lowered_color obj with
  | ColorNumber => 0
  | ColorText obj_color =>
      if String.eqb obj_color "" then 0
      else match color_order text obj_color with
           | Some order_idx => Nat.max 1 (6 - Nat.min order_idx 5)
           | None => if Py.mem obj_color (_colors_in_text text) then 3 else 0
           end
  end.

(** The loop over [ORDINAL_KEYWORDS.items()]: 2 for every keyword found in
    the text whose index is [idx]. *)
Definition ordinal_hits (count : nat) (idx : nat) (lowered : string)
  : list string :=
  map fst
    (filter (fun entry =>
               Py.contains lowered (fst entry)
               && (let target_index :=
                     if (0 <=? snd entry)%Z then snd entry
                     else (Z.of_nat count - 1)%Z in
                   (target_index =? Z.of_nat idx)%Z))
            ORDINAL_KEYWORDS).

Definition ordinal_score (count : nat) (idx : nat) (lowered : string) : nat :=
  2 * List.length (ordinal_hits count idx lowered).

Definition score_of (count : nat) (text : string) (idx : nat) (obj : object)
  : nat :=
  let lowered := Py.lower text in
  id_score obj lowered + type_score obj lowered + color_score obj text
  + ordinal_score count idx lowered.

(** [enumerate(objects)] *)
Definition enumerate {A : Type} (l : list A) : list (nat * A) :=
  combine (seq 0 (List.length l)) l.

(** A target is a reference to an object of the scene: its index in
    [spec["objects"]], here with the object found there. *)
Definition target : Type := (nat * object)%type.

(** The list [matches] of [(score, obj)] after the loop. *)
Definition scored_matches (objs : list object) (text : string)
  : list (nat * target) :=
  filter (fun m => (0 <? fst m)%nat)
         (map (fun io => (score_of (List.length objs) text (fst io) (snd io), io))
              (enumerate objs)).

Definition last_target (objs : list object) : list target :=
  match rev (enumerate objs) with
  | [] => []
  | io :: _ => [io]
  end.

Definition _find_targets (spec : option spec_t) (text : string)
                         (fallback : bool) : list target :=
  let objs := spec_objects spec in
  match objs with
  | [] => []
  | _ =>
      let matches := scored_matches objs text in
      match matches with
      | _ :: _ =>
          map snd (stable_sort (fun a b => (fst b <? fst a)%nat) matches)
      | [] => if fallback then last_target objs else []
      end
  end.

(** The score as the design document words it: the id searched verbatim,
    and 2 when an ordinal word of the text maps to the object's position. *)
Definition documented_score (count : nat) (text : string) (idx : nat)
                            (obj : object) : nat :=
  let lowered := Py.lower text in
  let obj_id := get (obj_id obj) "" in
  (if negb (String.eqb obj_id "") && Py.contains lowered obj_id then 5 else 0)
  + type_score obj lowered
  + color_score obj text
  + (match ordinal_hits count idx lowered with [] => 0 | _ :: _ => 2 end).

(** The resolver run with the documented score in place of the code's. *)
Definition documented_find_targets (objs : list object) (text : string)
  : list target :=
  map snd
    (stable_sort (fun a b => (fst b <? fst a)%nat)
       (filter (fun m : nat * target => (0 <? fst m)%nat)
          (map (fun io => (documented_score (List.length objs) text
                                            (fst io) (snd io), io))
               (enumerate objs)))).

(** ** Removal handler ([_apply_removal]) *)

(** One round of the loop: does the object go? *)
Definition removal_hit (low : string) (obj : object) : bool :=
  let obj_type := get (obj_type obj) "" in
  let obj_id := get (obj_id obj) "" in
  (negb (String.eqb obj_id "") && Py.contains low (Py.lower obj_id))
  || (negb (String.eqb obj_type "") && Py.contains low obj_type).

(** The loop with its [break]: the first object hit is popped;
    [None] when the loop ends with [removed] still false. *)
Fixpoint pop_first_hit (low : string) (objs : list object)
  : option (list object) :=
  match objs with
  | [] => None
  | obj :: rest =>
      if removal_hit low obj then Some rest
      else option_map (cons obj) (pop_first_hit low rest)
  end.

Definition _apply_removal (low : string) (spec : option spec_t)
  : option spec_t :=
  match spec with
  | None => None
  | Some s =>
      if Py.contains_any low ["clear"; "reset"; "start over"]
      then Some (mkSpec (Some []))
      else if Py.contains_any low ["remove"; "delete"; "drop"]
      then
        let objs := get (objects s) [] in
        match objs with
        | [] => spec
        | _ :: _ =>
            Some (mkSpec (Some (match pop_first_hit low objs with
                                | Some kept => kept
                                | None => removelast objs
                                end)))
        end
      else spec
  end.

(** The removal as the design document words it: the object whose id
    occurs in the text, else the object whose type occurs, else the last. *)
Fixpoint pop_first {A : Type} (hit : A -> bool) (l : list A)
  : option (list A) :=
  match l with
  | [] => None
  | a :: rest =>
      if hit a then Some rest else option_map (cons a) (pop_first hit rest)
  end.

Definition documented_removal (low : string) (objs : list object)
  : list object :=
  match pop_first (fun obj => negb (String.eqb (get (obj_id obj) "") "")
                              && Py.contains low (Py.lower (get (obj_id obj) "")))
                  objs with
  | Some kept => kept
  | None =>
      match pop_first (fun obj => negb (String.eqb (get (obj_type obj) "") "")
                                  && Py.contains low (get (obj_type obj) ""))
                      objs with
      | Some kept => kept
      | None => removelast objs
      end
  end.

(** ** Rotation mutator ([_apply_rotation_change]) *)

(** [math.radians]: the product by the constant [pi / 180]. *)
Definition math_radians (degrees : float) : float :=
  (degrees * (math_pi / 180))%float.

(** The loop over [ROTATION_AXIS_HINTS.items()] with its [break]. *)
Definition rotation_axis (lowered : string) : nat :=
  match find (fun hint => Py.contains lowered (fst hint)) ROTATION_AXIS_HINTS
  with
  | Some (_, idx) => idx
  | None => 1
  end.

(** [l[i] = v]; the index is in range wherever the code assigns. *)
Fixpoint set_nth (i : nat) (v : float) (l : list float) : list float :=
  match l, i with
  | [], _ => []
  | _ :: rest, O => v :: rest
  | a :: rest, S i' => a :: set_nth i' v rest
  end.

Definition set_transform (t : transform_t) (obj : object) : object :=
  mkObject (obj_id obj) (obj_type obj) (obj_params obj) (Some t).

(** The body of the loop over the targets. *)
Definition rotate_object (axis_index : nat) (radians : float)
                         (additive : bool) (obj : object) : object :=
  let obj := _ensure_transform obj in
  let transform := get (obj_transform obj) empty_transform in
  let rot := get (rotation transform) [] in
  let value := if additive then (nth axis_index rot 0 + radians)%float
               else radians in
  set_transform (mkTransform (position transform)
                             (Some (set_nth axis_index value rot))
                             (scale transform)) obj.

Definition rotation_triggered (lowered : string) : bool :=
  Py.contains_any lowered ["rotate"; "rotation"; "twist"; "spin"; "turn"].

Definition rotation_additive (lowered : string) : bool :=
  Py.contains lowered "by" || Py.contains lowered "+=".

(** The mutators change the targets in place and return [changed]; the
    embedding returns the targets after the call with it. *)
Definition _apply_rotation_change (targets : list object) (text : string)
                                  (numbers : list float)
  : list object * bool :=
  let lowered := Py.lower text in
  if negb (rotation_triggered lowered) then (targets, false)
  else
    let axis_index := rotation_axis lowered in
    let degrees := hd 90%float numbers in
    let radians := math_radians degrees in
    let additive := rotation_additive lowered in
    (map (rotate_object axis_index radians additive) targets,
     match targets with [] => false | _ :: _ => true end).

(** The axis as the design document words it: a hint keyword that is
    a word of the text gives the axis; without one the axis is 1. *)
Definition documented_rotation_axis (lowered : string) : nat :=
  match find (fun hint => Py.mem (fst hint) (Py.split lowered))
             ROTATION_AXIS_HINTS
  with
  | Some (_, idx) => idx
  | None => 1
  end.

(** The mutator run with the documented axis in place of the code's. *)
Definition documented_rotation_change (targets : list object)
    (text : string) (numbers : list float) : list object * bool :=
  let lowered := Py.lower text in
  if negb (rotation_triggered lowered) then (targets, false)
  else
    let axis_index := documented_rotation_axis lowered in
    let degrees := hd 90%float numbers in
    let radians := math_radians degrees in
    let additive := rotation_additive lowered in
    (map (rotate_object axis_index radians additive) targets,
     match targets with [] => false | _ :: _ => true end).

(** ** Regular expressions

    The patterns of the source are kept as syntax trees and run by a
    backtracking matcher with the priorities of Python's [re]: the
    leftmost start, alternatives left to right, greedy repetitions. *)

Module Re.

Inductive t : Type :=
| Eps
| Char (c : ascii)
| Class (p : ascii -> bool)
| Seq (a b : t)
| Alt (a b : t)
| Star (a : t)
| Repeat (a : t) (lo hi : nat)
| Group (n : nat) (a : t)
| WordBoundary
| End.

(** [a?] and [a+], greedy. *)
Definition Opt (a : t) : t := Alt a Eps.
Definition Plus (a : t) : t := Seq a (Star a).

(** A literal string ([re.escape]). *)
Fixpoint Lit (s : string) : t :=
  match s with
  | EmptyString => Eps
  | String c rest => Seq (Char c) (Lit rest)
  end.

Fixpoint AltOf (rs : list t) : t :=
  match rs with
  | [] => Class (fun _ => false)
  | [r] => r
  | r :: rest => Alt r (AltOf rest)
  end.

Record state : Type := mkState {
  prev : option ascii;           (* the character before the position *)
  rest : string;                 (* the text from the position on *)
  pos : nat;
  caps : list (nat * (nat * nat))  (* group, start, end; the latest first *)
}.

Definition step (s : state) : option (ascii * state) :=
  match rest s with
  | EmptyString => None
  | String c r => Some (c, mkState (Some c) r (S (pos s)) (caps s))
  end.

Section Matcher.
Context {R : Type}.

(** [go r s k]: match [r] at [s], then go on with [k]; the first way
    that succeeds, in the order of the priorities. *)
Fixpoint go (r : t) : state -> (state -> option R) -> option R :=
  match r with
  | Eps => fun s k => k s
  | Char c => fun s k =>
      match step s with
      | Some (c', s') => if Ascii.eqb c c' then k s' else None
      | None => None
      end
  | Class p => fun s k =>
      match step s with
      | Some (c', s') => if p c' then k s' else None
      | None => None
      end
  | Seq a b => fun s k => go a s (fun s' => go b s' k)
  | Alt a b => fun s k =>
      match go a s k with
      | Some res => Some res
      | None => go b s k
      end
  | Star a => fun s k =>
      (fix loop (n : nat) (s : state) {struct n} : option R :=
         match n with
         | O => k s
         | S n' =>
             match go a s (fun s' => if (pos s' =? pos s)%nat then None
                                     else loop n' s') with
             | Some res => Some res
             | None => k s
             end
         end) (S (String.length (rest s))) s
  | Repeat a lo hi => fun s k =>
      (fix rep (lo hi : nat) (s : state) {struct hi} : option R :=
         match hi with
         | O => if (lo =? 0)%nat then k s else None
         | S hi' =>
             match go a s (fun s' => rep (lo - 1) hi' s') with
             | Some res => Some res
             | None => if (lo =? 0)%nat then k s else None
             end
         end) lo hi s
  | Group n a => fun s k =>
      go a s (fun s' =>
                k (mkState (prev s') (rest s') (pos s')
                           ((n, (pos s, pos s')) :: caps s')))
  | WordBoundary => fun s k =>
      if word_boundary (prev s) (head_char (rest s)) then k s else None
  | End => fun s k =>
      match rest s with
      | EmptyString => k s
      | String c EmptyString => if Ascii.eqb c "010" then k s else None
      | _ => None
      end
  end.
End Matcher.

(** A match: where it ends and the spans of its groups. *)
Definition match_at (r : t) (before : option ascii) (s : string) (p : nat)
  : option (nat * list (nat * (nat * nat))) :=
  go r (mkState before s p []) (fun s' => Some (pos s', caps s')).

(** [re.search]: the match at the leftmost start, as (start, end, groups). *)
Fixpoint search_from (r : t) (before : option ascii) (s : string) (p : nat)
  : option (nat * nat * list (nat * (nat * nat))) :=
  match match_at r before s p with
  | Some (e, groups) => Some (p, e, groups)
  | None =>
      match s with
      | EmptyString => None
      | String c s' => search_from r (Some c) s' (S p)
      end
  end.

Definition search (r : t) (text : string)
  : option (nat * nat * list (nat * (nat * nat))) :=
  search_from r None text 0.

(** [re.finditer]: the matches from left to right, each search resuming
    where the last match ended.  (No pattern of the source matches the
    empty string.) *)
Fixpoint finditer_from (r : t) (before : option ascii) (s : string)
                       (p skip : nat) : list (nat * nat) :=
  match skip with
  | S skip' =>
      match s with
      | EmptyString => []
      | String c s' => finditer_from r (Some c) s' (S p) skip'
      end
  | O =>
      match match_at r before s p, s with
      | Some (e, _), String c s' =>
          (p, e) :: finditer_from r (Some c) s' (S p) (e - p - 1)
      | Some (e, _), EmptyString => [(p, e)]
      | None, String c s' => finditer_from r (Some c) s' (S p) 0
      | None, EmptyString => []
      end
  end.

Definition finditer (r : t) (text : string) : list (nat * nat) :=
  finditer_from r None text 0 0.

(** [text[start:stop]] *)
Definition slice (text : string) (start stop : nat) : string :=
  String.substring start (stop - start) text.

(** [re.findall] for a pattern without groups. *)
Definition findall (r : t) (text : string) : list string :=
  map (fun span => slice text (fst span) (snd span)) (finditer r text).

(** [match.group(n)] *)
Definition group (text : string) (groups : list (nat * (nat * nat))) (n : nat)
  : option string :=
  option_map (fun span => slice text (fst (snd span)) (snd (snd span)))
             (find (fun g => (fst g =? n)%nat) groups).

Definition space : t := Class Py.is_space.
Definition non_space : t := Class (fun c => negb (Py.is_space c)).
Definition digit : t := Class is_digit.
Definition word : t := Class is_word.
Definition one_of (chars : string) : t :=
  Class (fun c => existsb (Ascii.eqb c) (list_ascii_of_string chars)).

End Re.

(** ** Numbers in the text *)

(** The binary64 value nearest to [num / den] ([num >= 0], [den > 0]),
    ties to even, as the conversion of a decimal literal by [float]
    computes it: [m] is the quotient rounded at the last place [2^q] the
    format keeps for the magnitude. *)
Definition float_of_ratio (num den : Z) : float :=
  if (num =? 0)%Z then 0%float
  else
    let e0 := (Z.log2 num - Z.log2 den)%Z in
    let e := if (num * 2 ^ Z.max 0 (- e0) <? den * 2 ^ Z.max 0 e0)%Z
             then (e0 - 1)%Z else e0 in
    let q := Z.max (e - 52) (-1074) in
    let m := round_half_even (num * 2 ^ Z.max 0 (- q)) (den * 2 ^ Z.max 0 q) in
    Z.ldexp (float_of_Z m) q.

(** [digits * 10 ^ exp10], signed. *)
Definition float_of_decimal (negative : bool) (digits exp10 : Z) : float :=
  let x := if (0 <=? exp10)%Z then float_of_ratio (digits * 10 ^ exp10) 1
           else float_of_ratio digits (10 ^ (- exp10)) in
  if negative then (- x)%float else x.

Definition digit_value (c : ascii) : Z := Z.of_nat (nat_of_ascii c - 48).

Fixpoint digits_value (acc : Z) (s : string) : Z :=
  match s with
  | EmptyString => acc
  | String c rest => digits_value (10 * acc + digit_value c) rest
  end.

Fixpoint take_digits (s : string) : string * string :=
  match s with
  | String c rest =>
      if is_digit c
      then let (ds, tail) := take_digits rest in (String c ds, tail)
      else (EmptyString, s)
  | EmptyString => (EmptyString, EmptyString)
  end.

Definition take_sign (s : string) : bool * string :=
  match s with
  | String "-" rest => (true, rest)
  | String "+" rest => (false, rest)
  | _ => (false, s)
  end.

(** [float(n)] for a string [n] of the form [[-+]?\d*\.?\d+], the matches
    of [_extract_numbers] and of the groups of the other patterns. *)
Definition float_of_numeral (n : string) : float :=
  let (negative, body) := take_sign n in
  let (int_digits, tail) := take_digits body in
  let frac_digits :=
    match tail with
    | String "." rest => fst (take_digits rest)
    | _ => EmptyString
    end in
  float_of_decimal negative
    (digits_value 0 (int_digits ++ frac_digits))
    (- Z.of_nat (String.length frac_digits)).

(** [[-+]?\d*\.?\d+] *)
Definition number_re : Re.t :=
  Re.Seq (Re.Opt (Re.one_of "-+"))
    (Re.Seq (Re.Star Re.digit)
       (Re.Seq (Re.Opt (Re.Char ".")) (Re.Plus Re.digit))).

Definition _extract_numbers (text : string) : list float :=
  map float_of_numeral (Re.findall number_re text).

(** [(?:at|to)\s*\(?\s*(N)\s*[,\s]+(N)\s*[,\s]+(N)] with [N] the number
    pattern. *)
Definition comma_or_space : Re.t :=
  Re.Class (fun c => Ascii.eqb c "," || Py.is_space c).

Definition position_triplet_re : Re.t :=
  Re.Seq (Re.Alt (Re.Lit "at") (Re.Lit "to"))
    (Re.Seq (Re.Star Re.space)
    (Re.Seq (Re.Opt (Re.Char "("))
    (Re.Seq (Re.Star Re.space)
    (Re.Seq (Re.Group 1 number_re)
    (Re.Seq (Re.Star Re.space)
    (Re.Seq (Re.Plus comma_or_space)
    (Re.Seq (Re.Group 2 number_re)
    (Re.Seq (Re.Star Re.space)
    (Re.Seq (Re.Plus comma_or_space)
            (Re.Group 3 number_re)))))))))).

Definition _extract_position_triplet (text : string) : option (list float) :=
  match Re.search position_triplet_re text with
  | None => None
  | Some (_, _, groups) =>
      let g n := float_of_numeral (get (Re.group text groups n) "") in
      Some [g 1; g 2; g 3]
  end.

(** A word as [split] yields them: not empty, without a space character. *)
Fixpoint no_space (s : string) : bool :=
  match s with
  | EmptyString => true
  | String c rest => negb (Py.is_space c) && no_space rest
  end.

Definition is_word_of_text (w : string) : Prop :=
  w <> "" /\ no_space w = true.

(** ** Exceptions *)

Inductive exn : Type :=
| ValueError
| TypeError
| OverflowError.

(** The outcome of code that may raise. *)
Inductive result (A : Type) : Type :=
| Ok (value : A)
| Raise (e : exn).

Arguments Ok {A} value.
Arguments Raise {A} e.

Definition bind {A B : Type} (r : result A) (f : A -> result B) : result B :=
  match r with
  | Ok a => f a
  | Raise e => Raise e
  end.

Notation "x <- r ;; k" := (bind r (fun x => k))
  (at level 61, r at next level, right associativity).

(** ** [float(s)] on a string

    [float] removes the underscores that stand between two digits (any
    other underscore is an error), strips the blanks [\t\n\v\f\r] and the
    space at both ends, and reads an optional sign followed by [inf],
    [infinity] or [nan] in any case, or by a decimal numeral: digits with
    an optional point, or a point and digits, and an optional exponent. *)

Definition is_c_space (c : ascii) : bool :=
  let n := nat_of_ascii c in
  ((9 <=? n)%nat && (n <=? 13)%nat) || (n =? 32)%nat.

Definition is_underscore (c : ascii) : bool := Ascii.eqb c "_".

(** The loop of [_Py_string_to_number_with_underscores]; [prev] is the
    character read before. *)
Fixpoint remove_underscores (prev : option ascii) (s : string)
  : option string :=
  match s with
  | EmptyString =>
      match prev with
      | Some p => if is_underscore p then None else Some EmptyString
      | None => Some EmptyString
      end
  | String c rest =>
      if is_underscore c
      then match prev with
           | Some p => if is_digit p then remove_underscores (Some c) rest
                       else None
           | None => None
           end
      else
        let after_underscore :=
          match prev with
          | Some p => is_underscore p
          | None => false
          end in
        if after_underscore && negb (is_digit c) then None
        else option_map (String c) (remove_underscores (Some c) rest)
  end.

Fixpoint lstrip (s : string) : string :=
  match s with
  | String c rest => if is_c_space c then lstrip rest else s
  | EmptyString => EmptyString
  end.

Definition string_rev (s : string) : string :=
  string_of_list_ascii (rev (list_ascii_of_string s)).

Definition strip (s : string) : string :=
  string_rev (lstrip (string_rev (lstrip s))).

(** A letter in either case. *)
Definition letter (lower_c : ascii) : Re.t :=
  Re.Class (fun c => Ascii.eqb (Py.lower_ascii c) lower_c).

Fixpoint word_any_case (s : string) : Re.t :=
  match s with
  | EmptyString => Re.Eps
  | String c rest => Re.Seq (letter c) (word_any_case rest)
  end.

(** Groups: 1 the sign, 2 the integer digits, 3 the fraction digits,
    4 the exponent, 5 an infinity, 6 a NaN. *)
Definition float_literal_re : Re.t :=
  Re.Seq (Re.Group 1 (Re.Opt (Re.one_of "-+")))
    (Re.AltOf
       [Re.Group 5 (Re.Seq (word_any_case "inf")
                           (Re.Opt (word_any_case "inity")));
        Re.Group 6 (word_any_case "nan");
        Re.Seq
          (Re.Alt
             (Re.Seq (Re.Group 2 (Re.Plus Re.digit))
                     (Re.Opt (Re.Seq (Re.Char ".")
                                     (Re.Group 3 (Re.Star Re.digit)))))
             (Re.Seq (Re.Char ".") (Re.Group 3 (Re.Plus Re.digit))))
          (Re.Opt (Re.Seq (Re.one_of "eE")
                          (Re.Group 4 (Re.Seq (Re.Opt (Re.one_of "-+"))
                                              (Re.Plus Re.digit)))))]).

(** The whole string must be read. *)
Definition fullmatch (r : Re.t) (s : string)
  : option (list (nat * (nat * nat))) :=
  Re.go r (Re.mkState None s 0 [])
        (fun s' => match Re.rest s' with
                   | EmptyString => Some (Re.caps s')
                   | _ => None
                   end).

Definition signed_digits_value (s : string) : Z :=
  let (negative, digits) := take_sign s in
  let v := digits_value 0 digits in
  if negative then (- v)%Z else v.

Definition float_of_string (s : string) : result float :=
  match remove_underscores None s with
  | None => Raise ValueError
  | Some plain =>
      let body := strip plain in
      match fullmatch float_literal_re body with
      | None => Raise ValueError
      | Some groups =>
          let g n := Re.group body groups n in
          let negative := match g 1 with Some "-" => true | _ => false end in
          match g 5, g 6 with
          | Some _, _ => Ok (if negative then neg_infinity else infinity)
          | None, Some _ => Ok nan
          | None, None =>
              let int_digits := get (g 2) "" in
              let frac_digits := get (g 3) "" in
              let exponent := signed_digits_value (get (g 4) "") in
              Ok (float_of_decimal negative
                    (digits_value 0 (int_digits ++ frac_digits))
                    (exponent - Z.of_nat (String.length frac_digits)))
          end
      end
  end.

(** [float(v)] on a value of a [params] dict. *)
Definition float_of_pval (v : pval) : result float :=
  match v with
  | PNum x => Ok x
  | PStr s => float_of_string s
  end.

(** [max(a, b)] on floats: [b] when [b > a], else [a]. *)
Definition py_max (a b : float) : float :=
  if (a <? b)%float then b else a.

(** [d[key] = v] on an insertion-ordered dict. *)
Fixpoint dict_set {A : Type} (key : string) (v : A) (d : list (string * A))
  : list (string * A) :=
  match d with
  | [] => [(key, v)]
  | (k, old) :: rest =>
      if String.eqb k key then (k, v) :: rest
      else (k, old) :: dict_set key v rest
  end.

Definition set_params (params : params_t) (obj : object) : object :=
  mkObject (obj_id obj) (obj_type obj) (Some params) (obj_transform obj).

(** ** Color mutator ([_apply_color_change]) *)

(** [params.get("color") != color] *)
Definition color_differs (params : params_t) (color : string) : bool :=
  match lookup "color" params with
  | Some (PStr s) => negb (String.eqb s color)
  | Some (PNum _) => true
  | None => true
  end.

(** The body of the loop: the target after it, and whether it changed. *)
Definition recolor (color : string) (obj : object) : object * bool :=
  let params := get (obj_params obj) [] in
  if color_differs params color
  then (set_params (dict_set "color" (PStr color) params) obj, true)
  else (set_params params obj, false).

Definition _apply_color_change (targets : list object) (text : string)
  : list object * bool :=
  match rev (_color_mentions text) with
  | [] => (targets, false)
  | (_, color) :: _ =>
      (map (fun obj => fst (recolor color obj)) targets,
       existsb (fun obj => snd (recolor color obj)) targets)
  end.

(** ** Dimension mutator ([_adjust_param], [_apply_dimension_change]) *)

Definition SCALE_UP_WORDS : list string :=
  ["bigger"; "larger"; "increase"; "wider"; "taller"; "longer"; "scale up";
   "expand"; "grow"].
Definition SCALE_DOWN_WORDS : list string :=
  ["smaller"; "shorter"; "narrower"; "reduce"; "decrease"; "shrink";
   "scale down"; "thin"].
Definition WIDTH_POSITIVE : list string := ["wider"; "thicker"; "broader"].
Definition WIDTH_NEGATIVE : list string := ["narrower"; "thinner"; "slimmer"].
Definition HEIGHT_POSITIVE : list string :=
  ["taller"; "higher"; "raise"; "elevate"].
Definition HEIGHT_NEGATIVE : list string :=
  ["shorter"; "lower"; "shorten"; "flatten"].
Definition DEPTH_POSITIVE : list string :=
  ["longer"; "deeper"; "extend"; "stretch"].
Definition DEPTH_NEGATIVE : list string := ["shorter"; "shallower"; "trim"].

Definition _adjust_param (params : params_t) (key : string)
    (numbers : list float) (up down : bool) : result (params_t * bool) :=
  match lookup key params with
  | None => Ok (params, false)
  | Some v =>
      current <- float_of_pval v ;;
      match numbers with
      | n :: _ => Ok (dict_set key (PNum (py_max 0.001 n)) params, true)
      | [] =>
          if up
          then Ok (dict_set key (PNum (py_max 0.001 (current * 1.25))) params,
                   true)
          else if down
          then Ok (dict_set key (PNum (py_max 0.001 (current * 0.8))) params,
                   true)
          else Ok (params, false)
      end
  end.

(** One [changed |= _adjust_param(params, key, ...)] in a row of them. *)
Definition adjust_step (key : string) (numbers : list float) (up down : bool)
    (state : params_t * bool) : result (params_t * bool) :=
  r <- _adjust_param (fst state) key numbers up down ;;
  Ok (fst r, snd state || snd r).

(** [numbers if cond else []] *)
Definition numbers_if (cond : bool) (numbers : list float) : list float :=
  if cond then numbers else [].

Record dimension_words : Type := mkDimensionWords {
  scale_up : bool; scale_down : bool;
  width_up : bool; width_down : bool;
  height_up : bool; height_down : bool;
  depth_up : bool; depth_down : bool
}.

Definition dimension_words_of (lowered : string) : dimension_words :=
  mkDimensionWords
    (Py.contains_any lowered SCALE_UP_WORDS)
    (Py.contains_any lowered SCALE_DOWN_WORDS)
    (Py.contains_any lowered WIDTH_POSITIVE)
    (Py.contains_any lowered WIDTH_NEGATIVE)
    (Py.contains_any lowered HEIGHT_POSITIVE)
    (Py.contains_any lowered HEIGHT_NEGATIVE)
    (Py.contains_any lowered DEPTH_POSITIVE)
    (Py.contains_any lowered DEPTH_NEGATIVE).

(** The [if otype == ...] chain for one object. *)
Definition adjust_by_type (otype lowered : string) (numbers : list float)
    (w : dimension_words) (state : params_t * bool)
  : result (params_t * bool) :=
  let has key := Py.contains lowered key in
  if String.eqb otype "box" then
    s <- adjust_step "width"
           (numbers_if (has "width" || width_up w || width_down w) numbers)
           (width_up w || scale_up w) (width_down w || scale_down w) state ;;
    s <- adjust_step "depth"
           (numbers_if (has "depth" || depth_up w || depth_down w) numbers)
           (depth_up w || scale_up w) (depth_down w || scale_down w) s ;;
    adjust_step "height"
      (numbers_if (has "height" || height_up w || height_down w) numbers)
      (height_up w || scale_up w) (height_down w || scale_down w) s
  else if String.eqb otype "cylinder" then
    s <- adjust_step "radius"
           (numbers_if (has "radius" || width_up w || width_down w) numbers)
           (width_up w || scale_up w) (width_down w || scale_down w) state ;;
    adjust_step "depth"
      (numbers_if (has "depth" || height_up w || height_down w) numbers)
      (height_up w || scale_up w) (height_down w || scale_down w) s
  else if String.eqb otype "sphere" then
    adjust_step "radius" numbers (scale_up w) (scale_down w) state
  else if String.eqb otype "cone" then
    s <- adjust_step "radius"
           (numbers_if (has "radius" || width_up w || width_down w) numbers)
           (width_up w || scale_up w) (width_down w || scale_down w) state ;;
    adjust_step "height"
      (numbers_if (has "height" || height_up w || height_down w) numbers)
      (height_up w || scale_up w) (height_down w || scale_down w) s
  else if String.eqb otype "torus" || String.eqb otype "torusknot" then
    s <- adjust_step "radius"
           (numbers_if (has "radius" || scale_up w || scale_down w) numbers)
           (scale_up w) (scale_down w) state ;;
    adjust_step "tube"
      (numbers_if (has "tube" || width_up w || width_down w) numbers)
      (width_up w || scale_up w) (width_down w || scale_down w) s
  else if String.eqb otype "plane" then
    adjust_step "size" numbers (scale_up w) (scale_down w) state
  else Ok state.

(** [transform["scale"] = [max(0.01, float(v) * factor) for v in ...]]
    after [_ensure_transform]. *)
Definition scale_by (factor : float) (obj : object) : object :=
  let obj := _ensure_transform obj in
  let transform := get (obj_transform obj) empty_transform in
  set_transform
    (mkTransform (position transform) (rotation transform)
       (Some (map (fun v => py_max 0.01 (v * factor))
                  (get (scale transform) []))))
    obj.

(** [l[i] = f(l[i])]: the in-place change of the [i]-th target. *)
Fixpoint update_nth {A : Type} (i : nat) (f : A -> A) (l : list A) : list A :=
  match l, i with
  | [], _ => []
  | a :: rest, O => f a :: rest
  | a :: rest, S i' => a :: update_nth i' f rest
  end.

(** The loop over the targets from the [i]-th on; [todo] counts them. *)
Fixpoint dimension_loop (todo i : nat) (lowered : string)
    (numbers : list float) (w : dimension_words)
    (targets : list object) (changed : bool)
  : result (list object * bool) :=
  match todo with
  | O => Ok (targets, changed)
  | S todo' =>
      match nth_error targets i with
      | None => Ok (targets, changed)
      | Some obj =>
          let params := get (obj_params obj) [] in
          let otype := get (obj_type obj) "" in
          s <- adjust_by_type otype lowered numbers w (params, changed) ;;
          let targets := update_nth i (set_params (fst s)) targets in
          let changed := snd s in
          if negb changed && (scale_up w || scale_down w)
             && Py.contains lowered "scale"
          then
            let factor :=
              match numbers with
              | n :: _ => n
              | [] => if scale_up w then 1.25%float else 0.8%float
              end in
            dimension_loop todo' (S i) lowered numbers w
                           (map (scale_by factor) targets) true
          else dimension_loop todo' (S i) lowered numbers w targets changed
      end
  end.

Definition _apply_dimension_change (targets : list object) (text : string)
    (numbers : list float) : result (list object * bool) :=
  let lowered := Py.lower text in
  dimension_loop (List.length targets) 0 lowered numbers
                 (dimension_words_of lowered) targets false.

(** ** Directional move mutator ([_apply_directional_move]) *)

Definition DIRECTION_KEYWORDS : list (string * (float * float * float)) :=
  [("up", (0.0, 0.0, 1.0)); ("upwards", (0.0, 0.0, 1.0));
   ("raise", (0.0, 0.0, 1.0)); ("higher", (0.0, 0.0, 1.0));
   ("above", (0.0, 0.0, 1.0)); ("down", (0.0, 0.0, -1.0));
   ("lower", (0.0, 0.0, -1.0)); ("drop", (0.0, 0.0, -1.0));
   ("below", (0.0, 0.0, -1.0)); ("beneath", (0.0, 0.0, -1.0));
   ("under", (0.0, 0.0, -1.0)); ("left", (-1.0, 0.0, 0.0));
   ("right", (1.0, 0.0, 0.0)); ("forward", (0.0, 1.0, 0.0));
   ("ahead", (0.0, 1.0, 0.0)); ("front", (0.0, 1.0, 0.0));
   ("back", (0.0, -1.0, 0.0)); ("backward", (0.0, -1.0, 0.0));
   ("toward", (0.0, 1.0, 0.0)); ("towards", (0.0, 1.0, 0.0))]%float.

Definition MOVE_WORDS : list string :=
  ["move"; "shift"; "slide"; "raise"; "lower"; "position"; "place"].

(** [transform["position"] = value] *)
Definition set_position (value : list float) (obj : object) : object :=
  let transform := get (obj_transform obj) empty_transform in
  set_transform (mkTransform (Some value) (rotation transform)
                             (scale transform)) obj.

(** One round of the loop over [DIRECTION_KEYWORDS.items()]. *)
Definition shift_position (delta : float) (vector : float * float * float)
                          (p : list float) : list float :=
  let '(vx, vy, vz) := vector in
  [(nth 0 p 0 + vx * delta); (nth 1 p 0 + vy * delta);
   (nth 2 p 0 + vz * delta)]%float.

Definition move_object (lowered : string) (delta : float) (obj : object)
  : object :=
  let obj := _ensure_transform obj in
  fold_left
    (fun obj entry =>
       if Py.contains lowered (fst entry)
       then set_position
              (shift_position delta (snd entry)
                 (get (position (get (obj_transform obj) empty_transform)) []))
              obj
       else obj)
    DIRECTION_KEYWORDS obj.

Definition _apply_directional_move (targets : list object) (text : string)
    (numbers : list float) : list object * bool :=
  let lowered := Py.lower text in
  if negb (Py.contains_any lowered MOVE_WORDS) then (targets, false)
  else
    match _extract_position_triplet lowered with
    | Some absolute =>
        (map (fun obj => set_position absolute (_ensure_transform obj)) targets,
         match targets with [] => false | _ :: _ => true end)
    | None =>
        let delta := hd 1.0%float numbers in
        (map (move_object lowered delta) targets,
         match targets with
         | [] => false
         | _ :: _ =>
             existsb (fun entry => Py.contains lowered (fst entry))
                     DIRECTION_KEYWORDS
         end)
    end.

(** ** Clone ([_duplicate_object]) *)

(** [str(copy_obj.get("type") or "obj")] *)
Definition type_or_obj (obj : object) : string :=
  match obj_type obj with
  | Some "" => "obj"
  | Some t => t
  | None => "obj"
  end.

Definition _duplicate_object (target : object) (spec : spec_t) : object :=
  let copy_obj := set_id (_generate_id (type_or_obj target) (Some spec))
                         target in
  let copy_obj := _ensure_transform copy_obj in
  let p := get (position (get (obj_transform copy_obj) empty_transform)) [] in
  set_position [(nth 0 p 0 + 2.0)%float; nth 1 p 0%float; nth 2 p 0%float]
               copy_obj.

(** ** Scale mutator ([_apply_scale_change]) *)

(** [[-+0-9.,\s]+] in a group. *)
Definition number_list_group : Re.t :=
  Re.Group 1
    (Re.Plus (Re.Class (fun c => is_digit c || Py.is_space c
                                 || existsb (Ascii.eqb c)
                                            (list_ascii_of_string "-+.,")))).

(** [(?:\s+\w+){0,3}] *)
Definition up_to_three_words : Re.t :=
  Re.Repeat (Re.Seq (Re.Plus Re.space) (Re.Plus Re.word)) 0 3.

Definition scale_then (word : string) : Re.t :=
  Re.Seq (Re.Lit "scale")
    (Re.Seq up_to_three_words
       (Re.Seq (Re.Plus Re.space)
          (Re.Seq (Re.Lit word)
             (Re.Seq (Re.Plus Re.space) number_list_group)))).

Definition explicit_patterns : list Re.t :=
  [scale_then "to";
   Re.Seq (Re.Lit "set")
     (Re.Seq (Re.Plus Re.space)
        (Re.Seq (Re.Lit "scale")
           (Re.Seq (Re.Plus Re.space)
              (Re.Seq (Re.Lit "to")
                 (Re.Seq (Re.Plus Re.space) number_list_group)))));
   Re.Seq (Re.Lit "scale")
     (Re.Seq (Re.Star Re.space)
        (Re.Seq (Re.Char "=")
           (Re.Seq (Re.Star Re.space) number_list_group)));
   scale_then "at"].

Definition factor_patterns : list Re.t := [scale_then "by"].

(** The loop [for pattern in patterns] with its [break]; [found] is the
    list assigned last. *)
Fixpoint numbers_after (patterns : list Re.t) (lowered : string)
                       (found : list float) : list float :=
  match patterns with
  | [] => found
  | pattern :: rest =>
      match Re.search pattern lowered with
      | None => numbers_after rest lowered found
      | Some (_, _, groups) =>
          match _extract_numbers (get (Re.group lowered groups 1) "") with
          | [] => numbers_after rest lowered []
          | n :: more => n :: more
          end
      end
  end.

Definition set_scale (value : list float) (obj : object) : object :=
  let obj := _ensure_transform obj in
  let transform := get (obj_transform obj) empty_transform in
  set_transform (mkTransform (position transform) (rotation transform)
                             (Some value)) obj.

(** [bool(l)] on a list. *)
Definition nonempty {A : Type} (l : list A) : bool :=
  match l with [] => false | _ :: _ => true end.

Definition _apply_scale_change (targets : list object) (text : string)
    (numbers : list float) : list object * bool :=
  let lowered := Py.lower text in
  if negb (Py.contains lowered "scale") then (targets, false)
  else
    let explicit_numbers := numbers_after explicit_patterns lowered [] in
    let factor_numbers := numbers_after factor_patterns lowered [] in
    let explicit_mentioned :=
      nonempty explicit_numbers
      || Py.contains_any lowered ["scale to"; "set scale"; "scale ="; "scale at"]
    in
    let factor_mentioned :=
      nonempty factor_numbers || Py.contains lowered "scale by" in
    let explicit_numbers :=
      if negb (nonempty explicit_numbers) && explicit_mentioned
      then numbers else explicit_numbers in
    let factor_numbers :=
      if negb (nonempty factor_numbers) && factor_mentioned
      then numbers else factor_numbers in
    let after_explicit :=
      match explicit_numbers with
      | [] => (targets, false)
      | a :: rest =>
          let values :=
            match rest with
            | b :: c :: _ => [a; b; c]
            | _ => [a; a; a]
            end in
          (map (set_scale (map (py_max 0.01) values)) targets,
           nonempty targets)
      end in
    match factor_numbers with
    | [] => after_explicit
    | factor :: _ =>
        (map (scale_by factor) (fst after_explicit),
         snd after_explicit || nonempty targets)
    end.

(** ** New objects ([_default_transform], [_detect_object_type],
       [_is_add_intent]) *)

Definition _default_transform : transform_t :=
  mkTransform (Some [0.0; 0.0; 0.0]%float) (Some [0.0; 0.0; 0.0]%float)
              (Some [1.0; 1.0; 1.0]%float).

Definition _detect_object_type (text : string) : string :=
  let lowered := Py.lower text in
  match find (fun candidate => _match_type candidate lowered)
             ["cylinder"; "sphere"; "cone"; "torus"; "plane"; "box"] with
  | Some candidate => candidate
  | None => "box"
  end.

Definition _is_add_intent (text : string) : bool :=
  let lowered := Py.lower text in
  Py.contains_any lowered ADD_KEYWORDS || Py.contains_any lowered ADD_PHRASES.

(** What a mutator of the scale leaves alone. *)
Definition keeps_all_but_scale (g : object -> object) : Prop :=
  forall obj,
    obj_id (g obj) = obj_id obj /\ obj_type (g obj) = obj_type obj /\
    obj_params (g obj) = obj_params obj /\
    position_of (g obj) = position_of obj /\
    rotation_of (g obj) = rotation_of obj.

(** The floor of the scale mutators. *)
Definition scale_floored (obj : object) : Prop :=
  Forall (fun v => (0.01 <=? v)%float = true) (scale_of obj).

(** [obj.get("params", {})] *)
Definition params_of (obj : object) : params_t := get (obj_params obj) [].

(** A parameter dict after dimension changes: every key holds what it
    held, or a number not below 0.001. *)
Definition params_floored_from (before after : params_t) : Prop :=
  forall key,
    lookup key after = lookup key before \/
    exists v, lookup key after = Some (PNum v) /\ (0.001 <=? v)%float = true.

(** A target after [_apply_dimension_change], against the target before. *)
Definition dimension_changed_from (before after : object) : Prop :=
  obj_id after = obj_id before /\
  obj_type after = obj_type before /\
  params_floored_from (params_of before) (params_of after) /\
  position_of after = position_of before /\
  rotation_of after = rotation_of before /\
  (scale_of after = scale_of before \/ scale_floored after).

(** No byte of the text is one of [0] to [9]. *)
Fixpoint no_digit_byte (s : string) : bool :=
  match s with
  | EmptyString => true
  | String c rest => negb (is_digit c) && no_digit_byte rest
  end.

(** [s.isascii()]: every character is below 128. *)
Fixpoint is_ascii (s : string) : bool :=
  match s with
  | EmptyString => true
  | String c rest => (nat_of_ascii c <? 128)%nat && is_ascii rest
  end.

(** A text in ASCII without a decimal digit.  [\d] and [float] take the
    decimal digits of every script; in a text in ASCII these are the
    characters [0] to [9], so such a text holds no digit at all. *)
Definition digit_free (s : string) : bool :=
  is_ascii s && no_digit_byte s.

(** ** Named values ([_extract_named_value]) *)

Definition DIMENSION_KEYWORDS : list string :=
  ["width"; "wide"; "depth"; "deep"; "length"; "long"; "height"; "tall";
   "radius"; "rad"; "diameter"; "tube"; "minor"; "major"; "size"; "thick";
   "thin"; "thickness"; "scale"].

(** [-?\d*\.?\d+] *)
Definition minus_number_re : Re.t :=
  Re.Seq (Re.Opt (Re.Char "-"))
    (Re.Seq (Re.Star Re.digit)
       (Re.Seq (Re.Opt (Re.Char ".")) (Re.Plus Re.digit))).

(** [\bKW\b\s*(?:is|=|:|of|with|at|to)?\s*(-?\d*\.?\d+)] *)
Definition following_re (keyword : string) : Re.t :=
  Re.Seq Re.WordBoundary
    (Re.Seq (Re.Lit keyword)
       (Re.Seq Re.WordBoundary
          (Re.Seq (Re.Star Re.space)
             (Re.Seq (Re.Opt (Re.AltOf [Re.Lit "is"; Re.Lit "="; Re.Lit ":";
                                        Re.Lit "of"; Re.Lit "with";
                                        Re.Lit "at"; Re.Lit "to"]))
                (Re.Seq (Re.Star Re.space) (Re.Group 1 minus_number_re)))))).

(** A number, blanks, an optional [unit] or [units] with blanks, the
    keyword and a word boundary: the number before the keyword. *)
Definition preceding_re (keyword : string) : Re.t :=
  Re.Seq (Re.Group 1 number_re)
    (Re.Seq (Re.Star Re.space)
       (Re.Seq (Re.Opt (Re.Seq (Re.Lit "unit")
                               (Re.Seq (Re.Opt (Re.Char "s"))
                                       (Re.Star Re.space))))
          (Re.Seq (Re.Lit keyword) Re.WordBoundary))).

(** [([a-z]+)\s*$] *)
Definition last_word_re : Re.t :=
  Re.Seq (Re.Group 1 (Re.Plus (Re.Class (fun c =>
            let n := nat_of_ascii c in (97 <=? n)%nat && (n <=? 122)%nat))))
    (Re.Seq (Re.Star Re.space) Re.End).

(** The body of the loop over the keywords: the value found for one. *)
Definition named_value_of (text keyword : string) : option float :=
  let following_value :=
    match Re.search (following_re keyword) text with
    | Some (_, _, groups) =>
        Some (float_of_numeral (get (Re.group text groups 1) ""))
    | None => None
    end in
  let preceding_value :=
    match Re.search (preceding_re keyword) text with
    | Some (start, _, groups) =>
        let prefix := Re.slice text 0 start in
        let after_dimension_word :=
          match Re.search last_word_re prefix with
          | Some (_, _, word_groups) =>
              Py.mem (get (Re.group prefix word_groups 1) "")
                     DIMENSION_KEYWORDS
          | None => false
          end in
        if after_dimension_word then None
        else Some (float_of_numeral (get (Re.group text groups 1) ""))
    | None => None
    end in
  match preceding_value with
  | Some v => Some v
  | None => following_value
  end.

Fixpoint _extract_named_value (text : string) (keywords : list string)
  : option float :=
  match keywords with
  | [] => None
  | keyword :: rest =>
      match named_value_of text keyword with
      | Some v => Some v
      | None => _extract_named_value text rest
      end
  end.

(** ** Default parameters ([_default_params_for_type]) *)

(** [available.remove(value)], the [ValueError] of a missing value
    swallowed: the first element equal ([==]) to the value goes. *)
Fixpoint remove_first (value : float) (l : list float) : list float :=
  match l with
  | [] => []
  | x :: rest =>
      if (x =? value)%float then rest else x :: remove_first value rest
  end.

(** [param_value]: the value and what is left of [available]. *)
Definition param_value (text : string) (keywords : list string)
    (default : float) (available : list float) : float * list float :=
  match _extract_named_value text keywords with
  | Some named => (named, remove_first named available)
  | None =>
      match available with
      | a :: rest => (a, rest)
      | [] => (default, [])
      end
  end.

(** [x or default] on an optional float: [None] and zero are false. *)
Definition float_or (x : option float) (default : float) : float :=
  match x with
  | Some v => if (v =? 0)%float then default else v
  | None => default
  end.

(** [int(x)] as a number of the scene: [x] cut at the point; the
    infinities and NaN raise. *)
Definition int_of (x : float) : result float :=
  match int_of_float x with
  | None => Raise (if PrimFloat.is_nan x then ValueError else OverflowError)
  | Some z =>
      if (PrimFloat.abs x <? 9007199254740992)%float
      then Ok (if (z <? 0)%Z then (- float_of_Z (- z))%float
               else float_of_Z z)
      else Ok x
  end.

Definition _default_params_for_type (obj_type text : string)
    (numbers : list float) : result params_t :=
  let available := numbers in
  if String.eqb obj_type "box" then
    let (width, available) := param_value text ["width"; "wide"] 10.0 available in
    let (depth, available) :=
      param_value text ["depth"; "deep"; "length"; "long"] width available in
    let (height, available) := param_value text ["height"; "tall"] width available in
    Ok [("width", PNum width); ("depth", PNum depth); ("height", PNum height)]
  else if String.eqb obj_type "cylinder" then
    let (radius, available) :=
      param_value text ["radius"; "rad"; "diameter"] 5.0 available in
    let (depth, available) := param_value text ["depth"; "height"] 10.0 available in
    Ok [("radius", PNum radius); ("depth", PNum depth)]
  else if String.eqb obj_type "sphere" then
    let (radius, available) :=
      param_value text ["radius"; "rad"; "size"] 5.0 available in
    Ok [("radius", PNum radius)]
  else if String.eqb obj_type "cone" then
    let (radius, available) := param_value text ["radius"; "base"] 5.0 available in
    let (height, available) := param_value text ["height"] 10.0 available in
    Ok [("radius", PNum radius); ("height", PNum height)]
  else if String.eqb obj_type "torus" then
    let (radius, available) := param_value text ["radius"; "major"] 5.0 available in
    let (tube, available) := param_value text ["tube"; "minor"] 1.5 available in
    Ok [("radius", PNum radius); ("tube", PNum tube)]
  else if String.eqb obj_type "plane" then
    let (size, available) :=
      param_value text ["size"; "width"; "length"] 10.0 available in
    Ok [("size", PNum size)]
  else if String.eqb obj_type "assembly" then
    let low := Py.lower text in
    if Py.contains low "bicycle" || Py.contains low "bike" then
      Ok [("template", PStr "bicycle_basic");
          ("wheelRadius",
           PNum (float_or (_extract_named_value text ["wheel radius"; "radius"]) 3.0));
          ("tireThickness",
           PNum (float_or (_extract_named_value text ["tire"; "thickness"]) 0.4));
          ("wheelbase",
           PNum (float_or (_extract_named_value text ["wheelbase"; "length"]) 8.0));
          ("frameHeight",
           PNum (float_or (_extract_named_value text ["height"]) 4.0));
          ("frameColor",
           PStr (match _color_from_text text with
                 | Some color => if String.eqb color "" then "#b9c6ff" else color
                 | None => "#b9c6ff"
                 end))]
    else
      finger_count <-
        int_of (float_or (_extract_named_value text ["fingers"; "finger"]) 5) ;;
      Ok [("template", PStr "robot_hand");
          ("fingerCount", PNum finger_count);
          ("palmWidth",
           PNum (float_or (_extract_named_value text ["palm width"; "width"]) 8.0));
          ("palmDepth",
           PNum (float_or (_extract_named_value text ["palm depth"; "depth"]) 2.0));
          ("palmHeight",
           PNum (float_or (_extract_named_value text ["palm height"; "height"]) 10.0));
          ("fingerLength",
           PNum (float_or (_extract_named_value text ["finger length"]) 8.0))]
  else Ok [].

(** ** The single-object constructor ([_build_new_object]) *)

Definition base_names : list (string * string) :=
  [("box", "box"); ("cylinder", "cyl"); ("sphere", "sph"); ("cone", "cone");
   ("torus", "torus"); ("plane", "plane"); ("external_model", "model");
   ("assembly", "asm")].

Definition new_object_type (text : string) : string :=
  let low := Py.lower text in
  if Py.contains_any low ["robot hand"; "robotic hand"; "gripper";
                          "end effector"; "bicycle"; "bike"]
     || (Py.contains low "mechanism"
         && (Py.contains low "hand" || Py.contains low "finger"))
  then "assembly"
  else _detect_object_type text.

Definition _build_new_object (text : string) (spec : spec_t)
    (numbers : list float) : result object :=
  let obj_type := new_object_type text in
  params <- _default_params_for_type obj_type text numbers ;;
  let new_id :=
    _generate_id (get (lookup obj_type base_names) "obj") (Some spec) in
  let params :=
    match _color_from_text text with
    | Some color =>
        if String.eqb color "" then params
        else dict_set "color" (PStr color) params
    | None => params
    end in
  Ok (mkObject (Some new_id) (Some obj_type) (Some params)
               (Some _default_transform)).

(** ** Replace ([_replace_object]) *)

(** [a == b] on the values of the scene, by value. *)
Definition pval_eq (a b : pval) : bool :=
  match a, b with
  | PNum x, PNum y => (x =? y)%float
  | PStr s, PStr t => String.eqb s t
  | _, _ => false
  end.

Fixpoint list_eq {A : Type} (eq : A -> A -> bool) (a b : list A) : bool :=
  match a, b with
  | [], [] => true
  | x :: a', y :: b' => eq x y && list_eq eq a' b'
  | _, _ => false
  end.

Definition option_eq {A : Type} (eq : A -> A -> bool) (a b : option A) : bool :=
  match a, b with
  | None, None => true
  | Some x, Some y => eq x y
  | _, _ => false
  end.

(** Dicts are equal when they hold the same keys with equal values, in
    any order. *)
Definition params_eq (a b : params_t) : bool :=
  (List.length a =? List.length b)%nat
  && forallb (fun kv => match lookup (fst kv) b with
                        | Some v => pval_eq (snd kv) v
                        | None => false
                        end) a.

Definition vector_eq : list float -> list float -> bool :=
  list_eq (fun x y => (x =? y)%float).

Definition transform_eq (a b : transform_t) : bool :=
  option_eq vector_eq (position a) (position b)
  && option_eq vector_eq (rotation a) (rotation b)
  && option_eq vector_eq (scale a) (scale b).

(** Equality of two objects by value.  Python's [==] agrees with it on
    objects without a NaN; a NaN equals itself there when both sides hold
    the same float object, which a scene of values does not record. *)
Definition object_eq (a b : object) : bool :=
  option_eq String.eqb (obj_id a) (obj_id b)
  && option_eq String.eqb (obj_type a) (obj_type b)
  && option_eq params_eq (obj_params a) (obj_params b)
  && option_eq transform_eq (obj_transform a) (obj_transform b).

(** [objects.index(target)] for a target that is the [idx]-th object:
    the first object that is the target or equal to it, at the latest the
    target itself.  [same] is the equality of two different objects. *)
Fixpoint index_of (same : object -> object -> bool) (target : object)
    (objs : list object) (idx pos : nat) : nat :=
  match objs with
  | [] => idx
  | obj :: rest =>
      if (pos =? idx)%nat then idx
      else if same obj target then pos
      else index_of same target rest idx (S pos)
  end.

(** Truth of [color] in [if color:], for the color of the text or the
    value of the target's [color] parameter. *)
Definition pval_truthy (v : pval) : bool :=
  match v with
  | PStr s => negb (String.eqb s "")
  | PNum x => negb (x =? 0)%float
  end.

(** [l[i] = v] *)
Definition replace_nth {A : Type} (i : nat) (v : A) (l : list A) : list A :=
  update_nth i (fun _ => v) l.

(** The scene after the call and the value returned.  The target is the
    [idx]-th object of the scene: [_ensure_transform(target)] repairs the
    object in the scene, and the replacement takes the place of the first
    object [index] finds.  A scene without objects, or without the target,
    is the [KeyError] or [ValueError] the code answers with False. *)
Definition _replace_object (same : object -> object -> bool)
    (target : target) (spec : spec_t) (text : string)
    (numbers : list float) : result (spec_t * bool) :=
  let (idx, old) := target in
  let new_type := _detect_object_type text in
  if String.eqb new_type "" then Ok (spec, false)
  else if String.eqb new_type (get (obj_type old) "") then Ok (spec, false)
  else
    params <- _default_params_for_type new_type text numbers ;;
    let repaired := _ensure_transform old in
    match objects spec with
    | None => Ok (spec, false)
    | Some objs =>
        if negb (idx <? List.length objs)%nat then Ok (spec, false)
        else
          let objs := replace_nth idx repaired objs in
          let spec := mkSpec (Some objs) in
          let color :=
            match _color_from_text text with
            | Some c => if String.eqb c "" then lookup "color" (params_of old)
                        else Some (PStr c)
            | None => lookup "color" (params_of old)
            end in
          let new_id :=
            match obj_id old with
            | Some i => if String.eqb i ""
                        then _generate_id new_type (Some spec)
                        else i
            | None => _generate_id new_type (Some spec)
            end in
          let params :=
            match color with
            | Some c => if pval_truthy c then dict_set "color" c params
                        else params
            | None => params
            end in
          let replacement :=
            mkObject (Some new_id) (Some new_type) (Some params)
                     (obj_transform repaired) in
          let index := index_of same repaired objs idx 0 in
          Ok (mkSpec (Some (replace_nth index replacement objs)), true)
    end.

(** ** Cloning (in [run_local]) *)

(** The branch of [run_local] taken when there are targets and the text
    holds a clone keyword: every target is duplicated against the scene as
    it was, the clones are appended, and the mutators then work on the
    clones.  The result is the scene returned. *)
Definition clone_targets (targets : list target) (spec : spec_t)
    (lowered : string) (numbers : list float) : result spec_t :=
  let clones := map (fun t => _duplicate_object (snd t) spec) targets in
  let clones := fst (_apply_color_change clones lowered) in
  sized <- _apply_dimension_change clones lowered numbers ;;
  let clones := fst sized in
  let clones := fst (_apply_directional_move clones lowered numbers) in
  let clones := fst (_apply_rotation_change clones lowered numbers) in
  let clones := fst (_apply_scale_change clones lowered numbers) in
  Ok (mkSpec (Some (get (objects spec) [] ++ clones))).

(** A pattern no match of which is without a digit. *)
Inductive needs_digit : Re.t -> Prop :=
| nd_class (p : ascii -> bool) :
    (forall c, p c = true -> is_digit c = true) -> needs_digit (Re.Class p)
| nd_seq_l (a b : Re.t) : needs_digit a -> needs_digit (Re.Seq a b)
| nd_seq_r (a b : Re.t) : needs_digit b -> needs_digit (Re.Seq a b)
| nd_alt (a b : Re.t) :
    needs_digit a -> needs_digit b -> needs_digit (Re.Alt a b)
| nd_group (n : nat) (a : Re.t) : needs_digit a -> needs_digit (Re.Group n a).

(** What tells an object apart for the user: its id and its type. *)
Definition identity_of (obj : object) : option string * option string :=
  (obj_id obj, obj_type obj).

(** ** Specification check ([validate_specification]) *)

(** [\d+(?:\.\d+)?] *)
Definition decimal_re : Re.t :=
  Re.Seq (Re.Plus Re.digit)
         (Re.Opt (Re.Seq (Re.Char ".") (Re.Plus Re.digit))).

(** [\b(\d+(?:\.\d+)?)\s*mm\b] *)
Definition millimetres_re : Re.t :=
  Re.Seq Re.WordBoundary
    (Re.Seq (Re.Group 1 decimal_re)
       (Re.Seq (Re.Star Re.space) (Re.Seq (Re.Lit "mm") Re.WordBoundary))).

(** [[:\s]] *)
Definition colon_or_space : Re.t :=
  Re.Class (fun c => Ascii.eqb c ":" || Py.is_space c).

(** [[Ww]all\s*[Tt]hickness[:\s]*(\d+(?:\.\d+)?)\s*mm] *)
Definition wall_thickness_re : Re.t :=
  Re.Seq (Re.one_of "Ww")
    (Re.Seq (Re.Lit "all")
       (Re.Seq (Re.Star Re.space)
          (Re.Seq (Re.one_of "Tt")
             (Re.Seq (Re.Lit "hickness")
                (Re.Seq (Re.Star colon_or_space)
                   (Re.Seq (Re.Group 1 decimal_re)
                      (Re.Seq (Re.Star Re.space) (Re.Lit "mm")))))))).

(** [[Ff]illet[:\s]*(\d+(?:\.\d+)?)\s*mm] *)
Definition fillet_re : Re.t :=
  Re.Seq (Re.one_of "Ff")
    (Re.Seq (Re.Lit "illet")
       (Re.Seq (Re.Star colon_or_space)
          (Re.Seq (Re.Group 1 decimal_re)
             (Re.Seq (Re.Star Re.space) (Re.Lit "mm"))))).

(** The matches from left to right with their groups, each search
    resuming where the last match ended. *)
Fixpoint finditer_groups (r : Re.t) (before : option ascii) (s : string)
    (p skip : nat) : list (list (nat * (nat * nat))) :=
  match skip with
  | S skip' =>
      match s with
      | EmptyString => []
      | String c s' => finditer_groups r (Some c) s' (S p) skip'
      end
  | O =>
      match Re.match_at r before s p, s with
      | Some (e, groups), String c s' =>
          groups :: finditer_groups r (Some c) s' (S p) (e - p - 1)
      | Some (e, groups), EmptyString => [groups]
      | None, String c s' => finditer_groups r (Some c) s' (S p) 0
      | None, EmptyString => []
      end
  end.

(** [re.findall] for a pattern with one group: the texts of the group. *)
Definition findall_group (r : Re.t) (text : string) : list string :=
  map (fun groups => get (Re.group text groups 1) "")
      (finditer_groups r None text 0 0).

(** [min(numbers)] and [max(numbers)] of a list with a first element: a
    later element replaces the current one when it is smaller (larger). *)
Definition min_of (first : float) (rest : list float) : float :=
  fold_left (fun cur x => if (x <? cur)%float then x else cur) rest first.

Definition max_of (first : float) (rest : list float) : float :=
  fold_left (fun cur x => if (cur <? x)%float then x else cur) rest first.

(** A warning: the text of its f-string before and after the number it
    shows, if it shows one.  A float is shown in digits, a point, a sign,
    [e], [inf] or [nan]: no part of a word with a capital letter. *)
Record message : Type := mkMessage {
  before_number : string;
  number : option float;
  after_number : string
}.

(** [word in w], for a word with a capital letter. *)
Definition mentions (word : string) (w : message) : bool :=
  Py.contains (before_number w) word || Py.contains (after_number w) word.

Definition very_small (min_dim : float) : message :=
  mkMessage "Very small dimension detected (" (Some min_dim)
            "mm). Minimum 0.5mm recommended.".

Definition very_large (max_dim : float) : message :=
  mkMessage "Very large dimension detected (" (Some max_dim)
            "mm). Check if realistic for object type.".

Definition extreme_variation : message :=
  mkMessage "Extreme size variation. Verify wall thickness vs overall size."
            None "".

(** The sign in the text is the one for greater-or-equal, three bytes in
    UTF-8. *)
Definition thin_wall (thick : float) : message :=
  mkMessage "Wall thickness " (Some thick)
            ("mm may be too thin. Consider "
             ++ String "226" (String "137" (String "165"
                  "2mm for structural integrity."))).

Definition large_fillet (f : float) : message :=
  mkMessage "Fillet radius " (Some f)
            "mm seems large relative to object size. Check proportions.".

Definition no_boolean : message :=
  mkMessage ("Attachment mentioned but no boolean operation specified. "
             ++ "Add union/difference details.") None "".

Definition no_material : message :=
  mkMessage ("No material type specified. "
             ++ "Consider adding material property for visualization.")
            None "".

(** The test of [valid] on one warning:
    ["Consider" in w or "Check" in w]. *)
Definition advisory (w : message) : bool :=
  mentions "Consider" w || mentions "Check" w.

Record validation : Type := mkValidation {
  valid : bool;
  warnings : list message;
  enhanced : string
}.

Definition materials : list string :=
  ["metal"; "plastic"; "wood"; "glass"; "ceramic"; "aluminum"; "steel"].

Definition validate_specification (spec_text : string) : validation :=
  let warnings : list message := [] in
  let numbers :=
    map float_of_numeral (findall_group millimetres_re spec_text) in
  let warnings :=
    match numbers with
    | [] => warnings
    | first :: rest =>
        let min_dim := min_of first rest in
        let max_dim := max_of first rest in
        let warnings :=
          if (min_dim <? 0.5)%float then warnings ++ [very_small min_dim]
          else warnings in
        let warnings :=
          if (5000 <? max_dim)%float then warnings ++ [very_large max_dim]
          else warnings in
        if (min_dim <? 1)%float && (1000 <? max_dim)%float
        then warnings ++ [extreme_variation]
        else warnings
    end in
  let wall_matches := findall_group wall_thickness_re spec_text in
  let warnings :=
    fold_left (fun warnings thickness =>
                 let thick := float_of_numeral thickness in
                 if (thick <? 1.5)%float then warnings ++ [thin_wall thick]
                 else warnings)
              wall_matches warnings in
  let fillet_matches := findall_group fillet_re spec_text in
  let warnings :=
    match numbers with
    | [] => warnings
    | first :: rest =>
        let max_dim := max_of first rest in
        fold_left (fun warnings fillet =>
                     let f := float_of_numeral fillet in
                     if (max_dim * 0.3 <? f)%float
                     then warnings ++ [large_fillet f]
                     else warnings)
                  fillet_matches warnings
    end in
  let low := Py.lower spec_text in
  let warnings :=
    if Py.contains low "attach" || Py.contains low "connect"
       || Py.contains low "join"
    then if negb (Py.contains low "boolean") && negb (Py.contains low "union")
         then warnings ++ [no_boolean]
         else warnings
    else warnings in
  let has_material := Py.contains_any low materials in
  let warnings :=
    if negb has_material then warnings ++ [no_material] else warnings in
  mkValidation
    ((List.length warnings =? 0)%nat
     || forallb advisory warnings)
    warnings spec_text.

(* ================================================================== *)
(** * Properties *)
(* ================================================================== *)

(** ** Strings *)

Lemma append_inj_l (a b c : string) : (a ++ b = a ++ c)%string -> b = c.
Proof.
  induction a as [|ch a IH]; simpl; intros H.
  - exact H.
  - injection H as H. auto.
Qed.

Lemma str_of_nat_inj (n m : nat) : Py.str_of_nat n = Py.str_of_nat m -> n = m.
Proof.
  unfold Py.str_of_nat. intros H.
  apply DecimalNat.Unsigned.to_uint_inj.
  assert (E : NilEmpty.uint_of_string (NilEmpty.string_of_uint (Nat.to_uint n))
              = NilEmpty.uint_of_string (NilEmpty.string_of_uint (Nat.to_uint m)))
    by (rewrite H; reflexivity).
  rewrite !NilEmpty.usu in E. congruence.
Qed.

Lemma candidate_id_inj (base : string) (n m : nat) :
  candidate_id base n = candidate_id base m -> n = m.
Proof.
  unfold candidate_id. intros H.
  apply str_of_nat_inj. eapply append_inj_l. exact H.
Qed.

Lemma mem_In (x : string) (l : list string) : Py.mem x l = true <-> In x l.
Proof.
  unfold Py.mem. rewrite existsb_exists. split.
  - intros [y [Hy E]]. apply String.eqb_eq in E. subst. exact Hy.
  - intros H. exists x. split; [exact H | apply String.eqb_refl].
Qed.

Lemma mem_false_In (x : string) (l : list string) :
  Py.mem x l = false <-> ~ In x l.
Proof.
  rewrite <- mem_In. destruct (Py.mem x l); split; intros; congruence.
Qed.

(** ** Id generation *)

Lemma str_of_nat_nonempty (n : nat) : Py.str_of_nat n <> "".
Proof.
  unfold Py.str_of_nat. intros H.
  pose proof (NilEmpty.usu (Nat.to_uint n)) as U.
  rewrite H in U. simpl in U. injection U as U.
  pose proof (DecimalNat.Unsigned.of_to n) as O.
  rewrite <- U in O. simpl in O. subst n. discriminate U.
Qed.

Lemma candidate_id_nonempty (base : string) (n : nat) :
  candidate_id base n <> "".
Proof.
  unfold candidate_id. destruct base; simpl.
  - apply str_of_nat_nonempty.
  - discriminate.
Qed.

(** What the loop returns with any fuel: the first free index at or after
    [index], unless the fuel ran out. *)
Lemma next_free_shape (base : string) (existing : list string) :
  forall fuel index,
  exists n,
    index <= n <= index + fuel /\
    next_free fuel base existing index = candidate_id base n /\
    (forall k, index <= k < n -> In (candidate_id base k) existing) /\
    (n < index + fuel -> ~ In (candidate_id base n) existing).
Proof.
  induction fuel as [|fuel IH]; intros index; simpl.
  - exists index. repeat split; try lia.
  - destruct (Py.mem (candidate_id base index) existing) eqn:M.
    + destruct (IH (S index)) as [n [Hn [E [Hin Hout]]]].
      exists n. repeat split; try lia.
      * exact E.
      * intros k Hk. destruct (Nat.eq_dec k index) as [->|Hne].
        -- apply mem_In. exact M.
        -- apply Hin. lia.
      * intros Hlt. apply Hout. lia.
    + exists index. repeat split; try lia.
      intros _. apply mem_false_In. exact M.
Qed.

(** The candidates [base1 .. baseN] are pairwise distinct, so at most
    [length existing] of them are taken: the loop never runs out of fuel. *)
Lemma candidates_NoDup (base : string) (start len : nat) :
  NoDup (map (candidate_id base) (seq start len)).
Proof.
  apply Injective_map_NoDup.
  - intros n m. apply candidate_id_inj.
  - apply seq_NoDup.
Qed.

Lemma next_free_fuel_enough (base : string) (existing : list string) :
  (forall k, 1 <= k < S (List.length existing) ->
             In (candidate_id base k) existing) ->
  ~ In (candidate_id base (S (List.length existing))) existing.
Proof.
  intros Hall Hin.
  pose proof (candidates_NoDup base 1 (S (List.length existing))) as ND.
  assert (I : incl (map (candidate_id base) (seq 1 (S (List.length existing))))
                   existing).
  { intros x Hx. apply in_map_iff in Hx. destruct Hx as [k [<- Hk]].
    apply in_seq in Hk.
    destruct (Nat.eq_dec k (S (List.length existing))) as [->|Hne].
    - exact Hin.
    - apply Hall. lia. }
  pose proof (NoDup_incl_length ND I) as L.
  rewrite length_map, length_seq in L. lia.
Qed.

Lemma generate_id_smallest (base : string) (spec : option spec_t) :
  exists n,
    1 <= n /\
    _generate_id base spec = candidate_id base n /\
    ~ In (candidate_id base n) (existing_ids spec) /\
    (forall k, 1 <= k < n -> In (candidate_id base k) (existing_ids spec)).
Proof.
  unfold _generate_id.
  destruct (next_free_shape base (existing_ids spec)
              (List.length (existing_ids spec)) 1) as [n [Hn [E [Hin Hout]]]].
  exists n. repeat split; try lia; auto.
  destruct (Nat.eq_dec n (S (List.length (existing_ids spec)))) as [->|Hne].
  - apply next_free_fuel_enough. exact Hin.
  - apply Hout. lia.
Qed.

Lemma generate_id_unique (base : string) (spec : option spec_t) (n : nat) :
  1 <= n ->
  (forall k, 1 <= k < n -> In (candidate_id base k) (existing_ids spec)) ->
  ~ In (candidate_id base n) (existing_ids spec) ->
  _generate_id base spec = candidate_id base n.
Proof.
  intros Hn Hin Hout.
  destruct (generate_id_smallest base spec) as [m [Hm [E [Hout' Hin']]]].
  rewrite E. f_equal.
  destruct (Nat.lt_trichotomy m n) as [L|[->|L]]; [|reflexivity|].
  - exfalso. apply Hout'. apply Hin. lia.
  - exfalso. apply Hout. apply Hin'. lia.
Qed.

Lemma spec_ids_append (base : string) (spec : spec_t) (obj : object) :
  spec_ids (append_with_id base spec obj)
  = spec_ids spec ++ [_generate_id base (Some spec)].
Proof.
  unfold spec_ids, append_with_id. simpl.
  rewrite map_app. reflexivity.
Qed.

Lemma existing_ids_filter (spec : spec_t) :
  existing_ids (Some spec)
  = filter (fun i => negb (String.eqb i "")) (spec_ids spec).
Proof. reflexivity. Qed.

Lemma In_existing_ids (spec : spec_t) (i : string) :
  In i (existing_ids (Some spec)) <-> In i (spec_ids spec) /\ i <> "".
Proof.
  rewrite existing_ids_filter, filter_In.
  destruct (String.eqb_spec i ""); simpl; intuition congruence.
Qed.

Lemma generate_id_after_prefix (base : string) (spec : spec_t) (n : nat) :
  spec_ids spec = map (candidate_id base) (seq 1 n) ->
  _generate_id base (Some spec) = candidate_id base (S n).
Proof.
  intros Hids. apply generate_id_unique.
  - lia.
  - intros k Hk. apply In_existing_ids. split.
    + rewrite Hids. apply in_map. apply in_seq. lia.
    + apply candidate_id_nonempty.
  - rewrite In_existing_ids, Hids. intros [Hin _].
    apply in_map_iff in Hin. destruct Hin as [k [E Hk]].
    apply candidate_id_inj in E. apply in_seq in Hk. lia.
Qed.

Lemma fold_adds_ids (base : string) (payloads : list object) :
  forall (spec : spec_t) (n : nat),
  spec_ids spec = map (candidate_id base) (seq 1 n) ->
  spec_ids (fold_left (append_with_id base) payloads spec)
  = map (candidate_id base) (seq 1 (n + List.length payloads)).
Proof.
  induction payloads as [|obj rest IH]; intros spec n Hids; simpl.
  - rewrite Nat.add_0_r. exact Hids.
  - rewrite (IH (append_with_id base spec obj) (S n)).
    + f_equal. f_equal. lia.
    + rewrite spec_ids_append, Hids, (generate_id_after_prefix base spec n Hids).
      rewrite seq_S, map_app. reflexivity.
Qed.

Lemma spec_ids_remove (gone : string) (spec : spec_t) :
  spec_ids (remove_id gone spec)
  = filter (fun i => negb (String.eqb i gone)) (spec_ids spec).
Proof.
  unfold spec_ids, remove_id. simpl.
  induction (get (objects spec) []) as [|obj rest IH]; simpl.
  - reflexivity.
  - destruct (String.eqb (get (obj_id obj) "") gone); simpl; congruence.
Qed.

(** C5.  [_generate_id base spec] is [base] followed by the decimal form of
    the smallest positive integer whose candidate id is not used in the
    scene.  Hence [N] successive adds with one base on the empty scene
    give exactly the ids [base1 .. baseN], and after [base2] is removed
    (the scene holding [base1 .. baseN], [N >= 2]) the next generated id
    is [base2] again. *)
Theorem generate_id_smallest_free_suffix :
  (forall (base : string) (spec : option spec_t),
     exists n,
       1 <= n /\
       _generate_id base spec = (base ++ Py.str_of_nat n)%string /\
       ~ In (base ++ Py.str_of_nat n)%string (existing_ids spec) /\
       (forall k, 1 <= k < n ->
                  In (base ++ Py.str_of_nat k)%string (existing_ids spec))) /\
  (forall (base : string) (payloads : list object),
     spec_ids (adds base payloads)
     = map (fun k => (base ++ Py.str_of_nat k)%string)
           (seq 1 (List.length payloads)) /\
     NoDup (spec_ids (adds base payloads))) /\
  (forall (base : string) (payloads : list object),
     2 <= List.length payloads ->
     let removed := remove_id (base ++ "2")%string (adds base payloads) in
     ~ In (base ++ "2")%string (spec_ids removed) /\
     _generate_id base (Some removed) = (base ++ "2")%string).
Proof.
  split; [|split].
  - intros base spec. apply generate_id_smallest.
  - intros base payloads.
    assert (E : spec_ids (adds base payloads)
                = map (candidate_id base) (seq 1 (List.length payloads))).
    { unfold adds. apply (fold_adds_ids base payloads empty_spec 0).
      reflexivity. }
    split.
    + exact E.
    + rewrite E. apply candidates_NoDup.
  - intros base payloads Hlen removed.
    assert (E : spec_ids (adds base payloads)
                = map (candidate_id base) (seq 1 (List.length payloads))).
    { unfold adds. apply (fold_adds_ids base payloads empty_spec 0).
      reflexivity. }
    assert (R : spec_ids removed
                = filter (fun i => negb (String.eqb i (candidate_id base 2)))
                         (map (candidate_id base)
                              (seq 1 (List.length payloads)))).
    { unfold removed. rewrite spec_ids_remove, E. reflexivity. }
    assert (Hout : ~ In (candidate_id base 2) (spec_ids removed)).
    { rewrite R, filter_In. intros [_ Hneq].
      rewrite String.eqb_refl in Hneq. discriminate. }
    split.
    + exact Hout.
    + apply (generate_id_unique base (Some removed) 2).
      * lia.
      * intros k Hk. assert (k = 1) by lia. subst k.
        apply In_existing_ids. split; [|apply candidate_id_nonempty].
        rewrite R, filter_In. split.
        -- apply in_map. apply in_seq. lia.
        -- destruct (String.eqb_spec (candidate_id base 1) (candidate_id base 2))
             as [Heq|Hne]; [|reflexivity].
           apply candidate_id_inj in Heq. discriminate.
      * rewrite In_existing_ids. intros [Hin _]. exact (Hout Hin).
Qed.

Lemma generate_id_smallest_free_suffix_witness :
  2 <= List.length [mkObject None None None None; mkObject None None None None;
                    mkObject None None None None] /\
  _generate_id "box"
     (Some (remove_id "box2"
              (adds "box" [mkObject None None None None;
                           mkObject None None None None;
                           mkObject None None None None])))
  = "box2".
Proof.
  split.
  - simpl. lia.
  - apply (proj2 (proj2 generate_id_smallest_free_suffix) "box"
             [mkObject None None None None; mkObject None None None None;
              mkObject None None None None]).
    simpl. lia.
Defined.

(** ** Transform repair *)

Lemma pad3_spec (fill : float) (v : list float) :
  pad3 fill v = firstn 3 v ++ repeat fill (3 - List.length v).
Proof.
  unfold pad3.
  destruct v as [|a [|b [|c [|d v]]]]; reflexivity.
Qed.

Lemma pad3_length (fill : float) (v : list float) :
  List.length (pad3 fill v) = 3.
Proof.
  unfold pad3. destruct (Nat.eqb_spec (List.length v) 3) as [E|E].
  - exact E.
  - reflexivity.
Qed.

Lemma pad3_idem (fill : float) (v : list float) :
  pad3 fill (pad3 fill v) = pad3 fill v.
Proof.
  unfold pad3 at 1. rewrite pad3_length. reflexivity.
Qed.

(** C6.  After [_ensure_transform] the three vectors are present and of
    length exactly 3: each is the first three original values, in order,
    followed by as many fill values as were missing (0 for position and
    rotation, 1 for scale); the other fields of the object are untouched;
    and a second application changes nothing. *)
Theorem ensure_transform_pads_and_is_idempotent (obj : object) :
  let t := get (obj_transform obj) empty_transform in
  let p := get (position t) [0; 0; 0]%float in
  let r := get (rotation t) [0; 0; 0]%float in
  let s := get (scale t) [1; 1; 1]%float in
  let obj' := _ensure_transform obj in
  obj_transform obj'
  = Some (mkTransform
            (Some (firstn 3 p ++ repeat 0%float (3 - List.length p)))
            (Some (firstn 3 r ++ repeat 0%float (3 - List.length r)))
            (Some (firstn 3 s ++ repeat 1%float (3 - List.length s)))) /\
  List.length (position_of obj) = 3 /\
  List.length (rotation_of obj) = 3 /\
  List.length (scale_of obj) = 3 /\
  obj_id obj' = obj_id obj /\
  obj_type obj' = obj_type obj /\
  obj_params obj' = obj_params obj /\
  _ensure_transform obj' = obj'.
Proof.
  cbv zeta.
  repeat split.
  - unfold _ensure_transform. simpl. rewrite !pad3_spec. reflexivity.
  - unfold position_of, transform_of, _ensure_transform. simpl.
    apply pad3_length.
  - unfold rotation_of, transform_of, _ensure_transform. simpl.
    apply pad3_length.
  - unfold scale_of, transform_of, _ensure_transform. simpl.
    apply pad3_length.
  - unfold _ensure_transform. simpl. rewrite !pad3_idem. reflexivity.
Qed.

(** The repair on an empty, a short and a five-element vector. *)
Example ensure_transform_lengths_0_2_5 :
  obj_transform
    (_ensure_transform
       (mkObject (Some "a") (Some "box") None
          (Some (mkTransform (Some []) (Some [7; 8]%float)
                             (Some [2; 3; 4; 5; 6]%float)))))
  = Some (mkTransform (Some [0; 0; 0]%float) (Some [7; 8; 0]%float)
                      (Some [2; 3; 4]%float)).
Proof. reflexivity. Qed.

(** ** Seeded fallback synthesis *)

(** The two readings of [int(_rand01(seed) * 3)], in integers and in the
    kernel's binary64 arithmetic, agree where the product is exact, where
    it rounds, and on the tie [3k = 2^54 - 1] that rounds up to [2.0]. *)
Example int_of_rand01_times3_agrees_with_binary64 :
  forall k, In k [0; 1; 3002399751580330; 3002399751580331;
                  6004799503160660; 6004799503160661; 6004799503160662;
                  9007199254740990; 9007199254740991]%Z ->
  int_of_float (float_of_Z k / 9007199254740992 * 3)%float
  = Some (round53 (3 * k) / 2 ^ 53)%Z.
Proof.
  intros k H. simpl in H.
  repeat (destruct H as [<-|H]; [vm_compute; reflexivity|]).
  contradiction.
Qed.

Lemma land_mask64 (x : Z) : Z.land x mask64 = (x mod 2 ^ 64)%Z.
Proof. change mask64 with (Z.ones 64). apply Z.land_ones. lia. Qed.

Lemma fnv1a_range (bytes : string) :
  forall val, (0 <= val < 2 ^ 64)%Z -> (0 <= fnv1a val bytes < 2 ^ 64)%Z.
Proof.
  induction bytes as [|ch rest IH]; intros val Hval; simpl.
  - exact Hval.
  - apply IH. rewrite land_mask64. apply Z.mod_pos_bound. lia.
Qed.

Lemma seed_from_text_range (text : string) :
  (1 <= _seed_from_text text < 2 ^ 64)%Z.
Proof.
  unfold _seed_from_text.
  pose proof (fnv1a_range text 1469598103934665603%Z) as R.
  assert (H : (0 <= fnv1a 1469598103934665603 text < 2 ^ 64)%Z)
    by (apply R; lia).
  destruct (Z.eqb_spec (fnv1a 1469598103934665603 text) 0); lia.
Qed.

Lemma rand01_bits_range (seed : Z) : (0 <= rand01_bits seed < 2 ^ 53)%Z.
Proof.
  unfold rand01_bits. cbv zeta.
  change (2 ^ 53 - 1)%Z with (Z.ones 53).
  rewrite Z.land_ones by lia. apply Z.mod_pos_bound. lia.
Qed.

Lemma round_half_even_bounds (p d : Z) :
  (0 < d)%Z -> (0 <= p)%Z ->
  (p - d < d * round_half_even p d <= p + d)%Z /\
  (2 * (d * round_half_even p d - p) <= d)%Z.
Proof.
  intros Hd Hp. unfold round_half_even.
  pose proof (Z.div_mod p d ltac:(lia)) as E.
  pose proof (Z.mod_pos_bound p d Hd) as B.
  destruct (Z.ltb_spec (2 * (p mod d)) d);
    [|destruct (Z.ltb_spec d (2 * (p mod d))); [|destruct (Z.even (p / d))]];
    nia.
Qed.

Lemma round53_times3_below (k : Z) :
  (0 <= k < 2 ^ 53)%Z -> (0 <= round53 (3 * k) < 3 * 2 ^ 53)%Z.
Proof.
  intros Hk. unfold round53.
  destruct (Z.ltb_spec (3 * k) (2 ^ 53)) as [Small|Big].
  - assert (L : (Z.log2 (3 * k) - 52 <= 0)%Z).
    { destruct (Z.eq_dec k 0) as [->|Hne]; [simpl; lia|].
      assert (Z.log2 (3 * k) < 53)%Z by (apply Z.log2_lt_pow2; lia). lia. }
    destruct (Z.leb_spec (Z.log2 (3 * k) - 52) 0); lia.
  - destruct (Z.ltb_spec (3 * k) (2 ^ 54)) as [Mid|Top].
    + rewrite (Z.log2_unique (3 * k) 53) by lia.
      change (53 - 52 <=? 0)%Z with false. cbv iota.
      change (2 ^ (53 - 52))%Z with 2%Z.
      pose proof (round_half_even_bounds (3 * k) 2 ltac:(lia) ltac:(lia)).
      lia.
    + rewrite (Z.log2_unique (3 * k) 54) by lia.
      change (54 - 52 <=? 0)%Z with false. cbv iota.
      change (2 ^ (54 - 52))%Z with 4%Z.
      pose proof (round_half_even_bounds (3 * k) 4 ltac:(lia) ltac:(lia)).
      lia.
Qed.

Lemma int_of_rand01_times3_range (seed : Z) :
  (0 <= int_of_rand01_times3 seed <= 2)%Z.
Proof.
  unfold int_of_rand01_times3.
  pose proof (round53_times3_below _ (rand01_bits_range seed)) as [Lo Hi].
  split.
  - apply Z.div_pos; lia.
  - assert (round53 (3 * rand01_bits seed) / 2 ^ 53 < 3)%Z; [|lia].
    apply Z.div_lt_upper_bound; lia.
Qed.

Lemma range_length (n : Z) : List.length (range n) = Z.to_nat n.
Proof. unfold range. rewrite length_map, length_seq. reflexivity. Qed.

Lemma synth_object_type (seed : Z) (spec : option spec_t) (i : Z) :
  obj_type (synth_object seed spec i)
  = Some (shape_band (_rand01 (seed + i * 997))).
Proof.
  unfold synth_object, shape_band. cbv zeta.
  destruct (_rand01 (seed + i * 997) <? 0.2)%float; [reflexivity|].
  destruct (_rand01 (seed + i * 997) <? 0.55)%float; [reflexivity|].
  destruct (_rand01 (seed + i * 997) <? 0.8)%float; reflexivity.
Qed.

Lemma synth_object_without_id (seed : Z) (spec spec' : option spec_t) (i : Z) :
  without_id (synth_object seed spec i) = without_id (synth_object seed spec' i).
Proof.
  unfold synth_object. cbv zeta.
  destruct (_rand01 (seed + i * 997) <? 0.2)%float; [reflexivity|].
  destruct (_rand01 (seed + i * 997) <? 0.55)%float; [reflexivity|].
  destruct (_rand01 (seed + i * 997) <? 0.8)%float; reflexivity.
Qed.

(** C7.  The seed derived from the text lies in [1, 2^64).  For every text
    (and scene), [_generic_synthesis] returns 3, 4 or 5 objects, never
    none; the type of the [i]-th is the band of the float
    [_rand01(seed + i * 997)]: sphere below 0.2, box below 0.55, cylinder
    below 0.8, torus otherwise; and the result is a function of the text:
    the scene argument enters the ids only. *)
Theorem generic_synthesis_count_bands_seed :
  forall (text : string) (spec : option spec_t),
    let seed := _seed_from_text text in
    let objs := _generic_synthesis text spec in
    (1 <= seed < 2 ^ 64)%Z /\
    3 <= List.length objs <= 5 /\
    objs <> [] /\
    map obj_type objs
    = map (fun i => Some (shape_band (_rand01 (seed + i * 997))))
          (range (Z.of_nat (List.length objs))) /\
    (forall spec', map without_id (_generic_synthesis text spec')
                   = map without_id objs).
Proof.
  intros text spec seed objs.
  pose proof (int_of_rand01_times3_range seed) as R.
  assert (Len : List.length objs = Z.to_nat (synth_count seed)).
  { unfold objs, _generic_synthesis. cbv zeta.
    rewrite length_map, range_length. reflexivity. }
  assert (Bounds : 3 <= List.length objs <= 5).
  { rewrite Len. unfold synth_count. lia. }
  repeat split.
  - apply seed_from_text_range.
  - apply seed_from_text_range.
  - lia.
  - lia.
  - intros E. rewrite E in Bounds. simpl in Bounds. lia.
  - rewrite Len, Z2Nat.id by (unfold synth_count; lia).
    unfold objs, _generic_synthesis. cbv zeta.
    rewrite map_map. apply map_ext. intros i.
    apply synth_object_type.
  - intros spec'. unfold objs, _generic_synthesis. cbv zeta.
    rewrite !map_map. apply map_ext. intros i.
    apply synth_object_without_id.
Qed.

(** ** Stable sorting, descending by a key *)

Section StableSortDescending.
Context {A : Type} (key : A -> nat).

Let before (a b : A) : bool := (key b <? key a)%nat.
Let ranked_before (a b : A) : Prop := key b <= key a.

Lemma insert_stable_sorted (x : A) (l : list A) :
  StronglySorted ranked_before l ->
  StronglySorted ranked_before (insert_stable before x l).
Proof.
  induction l as [|y rest IH]; intros S; simpl.
  - constructor; constructor.
  - inversion S as [|? ? Srest Hall]; subst.
    unfold before at 1. destruct (Nat.ltb_spec (key x) (key y)) as [Lt|Ge].
    + constructor.
      * apply IH. exact Srest.
      * clear IH Srest S. induction rest as [|z rest IH]; simpl.
        -- repeat constructor. unfold ranked_before. lia.
        -- inversion Hall as [|? ? Hz Hrest]; subst.
           unfold before at 1.
           destruct (Nat.ltb_spec (key x) (key z)).
           ++ constructor; [exact Hz | apply IH; exact Hrest].
           ++ constructor; [unfold ranked_before; lia|].
              constructor; assumption.
    + constructor.
      * exact S.
      * constructor; [exact Ge|].
        eapply Forall_impl; [|exact Hall].
        intros z Hz. unfold ranked_before in *. lia.
Qed.

Lemma stable_sort_sorted (l : list A) :
  StronglySorted ranked_before (stable_sort before l).
Proof.
  induction l as [|x l IH]; simpl.
  - constructor.
  - apply insert_stable_sorted. exact IH.
Qed.

(** Elements of equal key keep their order: the sort moves an element
    only past elements of a strictly greater key. *)
Lemma insert_stable_filter (k : nat) (x : A) (l : list A) :
  filter (fun a => (key a =? k)%nat) (insert_stable before x l)
  = filter (fun a => (key a =? k)%nat) (x :: l).
Proof.
  induction l as [|y rest IH]; simpl.
  - reflexivity.
  - unfold before at 1. destruct (Nat.ltb_spec (key x) (key y)) as [Lt|Ge].
    + simpl. rewrite IH. simpl.
      destruct (Nat.eqb_spec (key y) k), (Nat.eqb_spec (key x) k);
        try reflexivity; lia.
    + reflexivity.
Qed.

Lemma stable_sort_filter (k : nat) (l : list A) :
  filter (fun a => (key a =? k)%nat) (stable_sort before l)
  = filter (fun a => (key a =? k)%nat) l.
Proof.
  induction l as [|x l IH]; simpl.
  - reflexivity.
  - rewrite insert_stable_filter. simpl. rewrite IH. reflexivity.
Qed.

Lemma stable_sort_nil_iff (l : list A) :
  stable_sort before l = [] <-> l = [].
Proof.
  split.
  - destruct l as [|x l]; [reflexivity|]. simpl.
    destruct (stable_sort before l) as [|y rest]; simpl;
      [discriminate|].
    destruct (before y x); discriminate.
  - intros ->. reflexivity.
Qed.
End StableSortDescending.

(** ** Target resolver *)

Lemma first_index_none (color : string) (mentioned : list string) :
  forall idx, first_index color mentioned idx = None ->
              Py.mem color mentioned = false.
Proof.
  induction mentioned as [|c rest IH]; intros idx H; simpl in *.
  - reflexivity.
  - rewrite String.eqb_sym.
    destruct (String.eqb c color); [discriminate|].
    simpl. eapply IH. exact H.
Qed.

(** The [elif obj_color in text_colors] branch never adds its 3: a color
    of [text_colors] has an index in [color_order]. *)
Lemma color_score_spec (obj : object) (text : string) :
  color_score obj text
  = match lowered_color obj with
    | ColorNumber => 0
    | ColorText c =>
        if String.eqb c "" then 0
        else match color_order text c with
             | Some k => Nat.max 1 (6 - Nat.min k 5)
             | None => 0
             end
    end.
Proof.
  unfold color_score, color_order, _colors_in_text.
  destruct (lowered_color obj) as [c|]; [|reflexivity].
  destruct (String.eqb c ""); [reflexivity|].
  generalize (map snd (_color_mentions text)). intros mentioned.
  destruct (first_index c mentioned 0) eqn:E; [reflexivity|].
  rewrite (first_index_none c mentioned 0 E). reflexivity.
Qed.

Lemma filter_filter_and {A : Type} (p q : A -> bool) (l : list A) :
  filter p (filter q l) = filter (fun a => p a && q a) l.
Proof.
  induction l as [|a l IH]; simpl; [reflexivity|].
  destruct (q a); simpl.
  - rewrite andb_true_r. destruct (p a); simpl; congruence.
  - rewrite andb_false_r. exact IH.
Qed.

Lemma combine_seq_snoc {A : Type} (l : list A) (x : A) :
  forall start,
  combine (seq start (List.length (l ++ [x]))) (l ++ [x])
  = combine (seq start (List.length l)) l ++ [(start + List.length l, x)].
Proof.
  induction l as [|a l IH]; intros start; simpl.
  - rewrite Nat.add_0_r. reflexivity.
  - rewrite IH. simpl. repeat f_equal. lia.
Qed.

Lemma last_target_snoc (l : list object) (x : object) :
  last_target (l ++ [x]) = [(List.length l, x)].
Proof.
  unfold last_target, enumerate.
  rewrite combine_seq_snoc, rev_app_distr. reflexivity.
Qed.

(** C3, as the code has it.  The score of an object is 5 if its lowercased
    id (not empty) occurs in the lowercased text, plus 3 if a synonym of
    its type occurs, plus [max(1, 6 - min(k, 5))] where [k] is the index of
    the first mention of its color (the "else 3" never applies), plus 2 for
    each ordinal keyword of the text that maps to its index.  The result
    lists exactly the objects of positive score, by descending score,
    objects of equal score in scene order; with no such object it is the
    last object when [fallback] is set and empty otherwise. *)
Theorem find_targets_scores_and_ranking :
  forall (spec : option spec_t) (text : string) (fallback : bool),
    let objs := spec_objects spec in
    let count := List.length objs in
    let scored :=
      map (fun io => (score_of count text (fst io) (snd io), io))
          (enumerate objs) in
    (forall idx obj,
       score_of count text idx obj
       = id_score obj (Py.lower text) + type_score obj (Py.lower text)
         + match lowered_color obj with
           | ColorNumber => 0
           | ColorText c =>
               if String.eqb c "" then 0
               else match color_order text c with
                    | Some k => Nat.max 1 (6 - Nat.min k 5)
                    | None => 0
                    end
           end
         + 2 * List.length (ordinal_hits count idx (Py.lower text))) /\
    (exists ranked : list (nat * target),
       StronglySorted (fun a b => fst b <= fst a) ranked /\
       (forall k,
          filter (fun m => (fst m =? k)%nat) ranked
          = filter (fun m => (fst m =? k)%nat && (0 <? fst m)%nat) scored) /\
       _find_targets spec text fallback
       = match ranked with
         | [] => if fallback then last_target objs else []
         | _ :: _ => map snd ranked
         end) /\
    (forall l x, last_target (l ++ [x]) = [(List.length l, x)]).
Proof.
  intros spec text fallback objs count scored.
  split; [|split].
  - intros idx obj. unfold score_of. cbv zeta.
    rewrite color_score_spec. reflexivity.
  - exists (stable_sort (fun a b : nat * target => (fst b <? fst a)%nat)
                        (filter (fun m => (0 <? fst m)%nat) scored)).
    split; [|split].
    + apply (stable_sort_sorted (fun m : nat * target => fst m)).
    + intros k.
      rewrite (stable_sort_filter (fun m : nat * target => fst m)).
      apply filter_filter_and.
    + unfold _find_targets. fold objs. cbv zeta.
      unfold scored_matches. fold count. fold scored.
      destruct objs as [|o objs'] eqn:Eobjs.
      * unfold scored. simpl. destruct fallback; reflexivity.
      * destruct (filter (fun m => (0 <? fst m)%nat) scored) as [|m ms] eqn:F.
        -- reflexivity.
        -- destruct (stable_sort (fun a b : nat * target => (fst b <? fst a)%nat)
                                 (m :: ms)) as [|r rs] eqn:S.
           ++ apply (proj1 (stable_sort_nil_iff (fun m : nat * target => fst m)
                                                (m :: ms))) in S.
              discriminate S.
           ++ reflexivity.
  - apply last_target_snoc.
Qed.

(** Two ordinal keywords of one text that map to the same object add 4,
    not 2, and the ranking follows: on the scene [a1 (box), b1 (sphere)]
    the text "the last, final box" ranks [b1] (4) before [a1] (3), where
    the documented score ranks [a1] (3) before [b1] (2). *)
Lemma find_targets_two_ordinal_words_counterexample :
  let a1 := mkObject (Some "a1") (Some "box") None None in
  let b1 := mkObject (Some "b1") (Some "sphere") None None in
  let text := "the last, final box" in
  score_of 2 text 1 b1 = 4 /\
  documented_score 2 text 1 b1 = 2 /\
  _find_targets (Some (mkSpec (Some [a1; b1]))) text false = [(1, b1); (0, a1)] /\
  documented_find_targets [a1; b1] text = [(0, a1); (1, b1)] /\
  ~ (forall count txt idx obj,
       score_of count txt idx obj = documented_score count txt idx obj).
Proof.
  cbv zeta.
  split; [vm_compute; reflexivity|].
  split; [vm_compute; reflexivity|].
  split; [vm_compute; reflexivity|].
  split; [vm_compute; reflexivity|].
  intros H.
  specialize (H 2 "the last, final box" 1
                (mkObject (Some "b1") (Some "sphere") None None)).
  vm_compute in H. discriminate H.
Qed.

(** ** Removal handler *)

(** The scene [box1, box2] and the text "remove box2": the loop stops at
    [box1], whose type occurs in the text, and pops it; the object named
    by its id stays.  The documented removal pops [box2]. *)
Lemma apply_removal_type_hit_preempts_id :
  let box1 := mkObject (Some "box1") (Some "box") None None in
  let box2 := mkObject (Some "box2") (Some "box") None None in
  _apply_removal "remove box2" (Some (mkSpec (Some [box1; box2])))
  = Some (mkSpec (Some [box2])) /\
  documented_removal "remove box2" [box1; box2] = [box1].
Proof. split; vm_compute; reflexivity. Qed.

(** What the handler does: "clear", "reset" or "start over" empties the
    scene; "remove", "delete" or "drop" pops the first object, in scene
    order, whose id or type occurs in the text, else the last object, and
    leaves a scene without objects as it is; any other text changes
    nothing. *)
Lemma apply_removal_behaviour (low : string) (s : spec_t) :
  _apply_removal low (Some s)
  = if Py.contains_any low ["clear"; "reset"; "start over"]
    then Some (mkSpec (Some []))
    else if Py.contains_any low ["remove"; "delete"; "drop"]
    then match get (objects s) [] with
         | [] => Some s
         | objs =>
             Some (mkSpec (Some (match pop_first (removal_hit low) objs with
                                 | Some kept => kept
                                 | None => removelast objs
                                 end)))
         end
    else Some s.
Proof.
  unfold _apply_removal.
  destruct (Py.contains_any low ["clear"; "reset"; "start over"]);
    [reflexivity|].
  destruct (Py.contains_any low ["remove"; "delete"; "drop"]); [|reflexivity].
  destruct (get (objects s) []) as [|o objs]; [reflexivity|].
  assert (E : forall l, pop_first_hit low l = pop_first (removal_hit low) l).
  { induction l as [|a l IH]; simpl; [reflexivity|]. rewrite IH. reflexivity. }
  rewrite E. reflexivity.
Qed.

(** ** Rotation mutator *)

Lemma rotation_axis_cases (lowered : string) :
  rotation_axis lowered
  = if Py.contains lowered "x" || Py.contains lowered "x-axis"
       || Py.contains lowered "roll" then 0
    else if Py.contains lowered "y" || Py.contains lowered "y-axis"
            || Py.contains lowered "yaw" then 1
    else if Py.contains lowered "z" || Py.contains lowered "z-axis"
            || Py.contains lowered "pitch" then 2
    else 1.
Proof.
  unfold rotation_axis, ROTATION_AXIS_HINTS. simpl find.
  destruct (Py.contains lowered "x"); [reflexivity|].
  destruct (Py.contains lowered "x-axis"); [reflexivity|].
  destruct (Py.contains lowered "roll"); [reflexivity|].
  destruct (Py.contains lowered "y"); [reflexivity|].
  destruct (Py.contains lowered "y-axis"); [reflexivity|].
  destruct (Py.contains lowered "yaw"); [reflexivity|].
  destruct (Py.contains lowered "z"); [reflexivity|].
  destruct (Py.contains lowered "z-axis"); [reflexivity|].
  destruct (Py.contains lowered "pitch"); reflexivity.
Qed.

Lemma rotation_axis_lt_3 (lowered : string) : rotation_axis lowered < 3.
Proof.
  rewrite rotation_axis_cases.
  repeat match goal with |- context [if ?b then _ else _] => destruct b end;
    lia.
Qed.

Lemma rotate_object_rotation (axis : nat) (radians : float) (additive : bool)
                             (obj : object) :
  axis < 3 ->
  rotation_of (rotate_object axis radians additive obj)
  = set_nth axis (if additive then (nth axis (rotation_of obj) 0 + radians)%float
                  else radians)
            (rotation_of obj) /\
  position_of (rotate_object axis radians additive obj) = position_of obj /\
  scale_of (rotate_object axis radians additive obj) = scale_of obj.
Proof.
  intros Haxis.
  unfold rotation_of, position_of, scale_of, transform_of, rotate_object,
    set_transform, _ensure_transform.
  simpl.
  set (r := pad3 0 (get (rotation (get (obj_transform obj) empty_transform))
                        [0%float; 0%float; 0%float])).
  assert (L : List.length r = 3) by apply pad3_length.
  assert (L' : forall v, List.length (set_nth axis v r) = 3).
  { intros v. destruct r as [|a [|b [|c [|d r]]]]; try discriminate L.
    destruct axis as [|[|[|axis]]]; try lia; reflexivity. }
  repeat split.
  - unfold pad3 at 1. rewrite L'. reflexivity.
  - rewrite pad3_idem. reflexivity.
  - rewrite pad3_idem. reflexivity.
Qed.

Lemma set_nth_nth (axis j : nat) (v : float) (l : list float) :
  axis < List.length l ->
  nth j (set_nth axis v l) 0%float
  = if (j =? axis)%nat then v else nth j l 0%float.
Proof.
  revert axis j. induction l as [|a l IH]; intros axis j Hlt; simpl in *.
  - lia.
  - destruct axis as [|axis]; destruct j as [|j]; simpl; try reflexivity.
    apply IH. lia.
Qed.

(** What the mutator does.  It acts only when the text contains rotate,
    rotation, twist, spin or turn, and then on every target.  The axis is
    0 for a text containing "x" ("x-axis") or "roll", else 1 for "y"
    ("y-axis") or "yaw", else 2 for "z" ("z-axis") or "pitch", else 1.
    The angle is [math.radians] of the first number, 90 without one.  With
    "by" or "+=" in the text the angle is added to the value on that axis,
    otherwise it replaces it; the two other axes, the position, the scale
    and the other fields of the target are those of the (repaired)
    target. *)
Theorem rotation_change_axis_angle_and_update :
  forall (targets : list object) (text : string) (numbers : list float),
    let lowered := Py.lower text in
    let axis :=
      if Py.contains lowered "x" || Py.contains lowered "x-axis"
         || Py.contains lowered "roll" then 0
      else if Py.contains lowered "y" || Py.contains lowered "y-axis"
              || Py.contains lowered "yaw" then 1
      else if Py.contains lowered "z" || Py.contains lowered "z-axis"
              || Py.contains lowered "pitch" then 2
      else 1 in
    let radians := (hd 90 numbers * (math_pi / 180))%float in
    let additive := Py.contains lowered "by" || Py.contains lowered "+=" in
    let rotated := rotate_object axis radians additive in
    _apply_rotation_change targets text numbers
    = (if Py.contains_any lowered ["rotate"; "rotation"; "twist"; "spin"; "turn"]
       then (map rotated targets,
             match targets with [] => false | _ :: _ => true end)
       else (targets, false)) /\
    (forall obj j,
       nth j (rotation_of (rotated obj)) 0%float
       = (if (j =? axis)%nat
          then if additive then (nth axis (rotation_of obj) 0 + radians)%float
               else radians
          else nth j (rotation_of obj) 0%float)) /\
    (forall obj,
       List.length (rotation_of (rotated obj)) = 3 /\
       position_of (rotated obj) = position_of obj /\
       scale_of (rotated obj) = scale_of obj /\
       obj_id (rotated obj) = obj_id obj /\
       obj_type (rotated obj) = obj_type obj /\
       obj_params (rotated obj) = obj_params obj).
Proof.
  intros targets text numbers lowered axis radians additive rotated.
  assert (Eaxis : axis = rotation_axis lowered)
    by (symmetry; apply rotation_axis_cases).
  assert (Haxis : axis < 3) by (rewrite Eaxis; apply rotation_axis_lt_3).
  split; [|split].
  - unfold _apply_rotation_change. fold lowered. cbv zeta.
    unfold rotation_triggered.
    destruct (Py.contains_any lowered
                ["rotate"; "rotation"; "twist"; "spin"; "turn"]);
      simpl; [|reflexivity].
    rewrite <- Eaxis. reflexivity.
  - intros obj j.
    destruct (rotate_object_rotation axis radians additive obj Haxis)
      as [Hrot _].
    unfold rotated. rewrite Hrot. apply set_nth_nth.
    unfold rotation_of, transform_of, _ensure_transform. simpl.
    rewrite pad3_length. exact Haxis.
  - intros obj.
    destruct (rotate_object_rotation axis radians additive obj Haxis)
      as [Hrot [Hpos Hscale]].
    unfold rotated. repeat split; try assumption; try reflexivity.
    unfold rotation_of, transform_of, _ensure_transform. simpl.
    apply pad3_length.
Qed.

(** "rotate the box around z by 30": the "x" of "box" is the first hint
    found, so the axis is 0, and "by" makes the update additive. *)
Example rotation_change_box_around_z :
  fst (_apply_rotation_change
         [mkObject (Some "box1") (Some "box") None
            (Some (mkTransform None (Some [1; 2; 3]%float) None))]
         "rotate the box around z by 30" [30%float])
  = [mkObject (Some "box1") (Some "box") None
       (Some (mkTransform (Some [0; 0; 0]%float)
                          (Some [(1 + 30 * (math_pi / 180)); 2; 3]%float)
                          (Some [1; 1; 1]%float)))].
Proof. vm_compute. reflexivity. Qed.

(** A text with "by" holds a "y", which is found before any hint of
    the third axis: an additive rotation asked for with "by" is never
    about axis 2. *)
Lemma contains_by_contains_y (s : string) :
  Py.contains s "by" = true -> Py.contains s "y" = true.
Proof.
  induction s as [|c s IH]; intros H.
  - discriminate H.
  - cbn [Py.contains] in H. apply orb_true_iff in H. destruct H as [H|H].
    + apply String.prefix_correct in H.
      destruct s as [|c' s']; simpl in H; [discriminate H|].
      injection H as _ Hy _.
      cbn [Py.contains]. apply orb_true_iff. right.
      cbn [Py.contains]. apply orb_true_iff. left.
      rewrite Hy. apply String.prefix_correct. simpl.
      destruct s'; reflexivity.
    + cbn [Py.contains]. apply orb_true_iff. right. apply IH. exact H.
Qed.

Lemma rotation_axis_with_by (lowered : string) :
  Py.contains lowered "by" = true -> rotation_axis lowered < 2.
Proof.
  intros H. apply contains_by_contains_y in H.
  rewrite rotation_axis_cases.
  destruct (Py.contains lowered "x" || Py.contains lowered "x-axis"
            || Py.contains lowered "roll"); [lia|].
  rewrite H. simpl. lia.
Qed.

(** C9.  The axis hints are searched as substrings of the text, in the
    order of the table, so a letter of another word decides.  In "rotate
    the box around z by 30" the "x" of "box" is the first hint found: the
    box turns about axis 0, where the axis documented for the keyword "z"
    is 2.  In the same way the "x" of "z-axis" gives axis 0, and the "y"
    of "by" gives axis 1. *)
Lemma rotation_change_letter_in_word_preempts_axis :
  let box := mkObject (Some "box1") (Some "box") None
               (Some (mkTransform None (Some [1; 2; 3]%float) None)) in
  let text := "rotate the box around z by 30" in
  rotation_axis text = 0 /\
  documented_rotation_axis text = 2 /\
  map rotation_of (fst (_apply_rotation_change [box] text [30%float]))
  = [[(1 + 30 * (math_pi / 180)); 2; 3]%float] /\
  map rotation_of (fst (documented_rotation_change [box] text [30%float]))
  = [[1; 2; (3 + 30 * (math_pi / 180))]%float] /\
  rotation_axis "rotate it around the z-axis" = 0 /\
  documented_rotation_axis "rotate it around the z-axis" = 2 /\
  rotation_axis "spin it around z by 10" = 1 /\
  documented_rotation_axis "spin it around z by 10" = 2.
Proof. cbv zeta. repeat split; vm_compute; reflexivity. Qed.

(* ================================================================== *)
(** * Further properties of the code *)
(* ================================================================== *)

(** ** The sort keeps the elements *)

Lemma insert_stable_perm {A : Type} (before : A -> A -> bool) (x : A)
                         (l : list A) :
  Permutation (insert_stable before x l) (x :: l).
Proof.
  induction l as [|y rest IH]; simpl.
  - apply Permutation_refl.
  - destruct (before y x).
    + eapply Permutation_trans.
      * apply perm_skip. exact IH.
      * apply perm_swap.
    + apply Permutation_refl.
Qed.

Lemma stable_sort_perm {A : Type} (before : A -> A -> bool) (l : list A) :
  Permutation (stable_sort before l) l.
Proof.
  induction l as [|x l IH]; simpl.
  - apply Permutation_refl.
  - eapply Permutation_trans.
    + apply insert_stable_perm.
    + apply perm_skip. exact IH.
Qed.

(** ** Targets are references into the scene *)

Lemma enumerate_from_nth {A : Type} (l : list A) :
  forall start i a,
  In (i, a) (combine (seq start (List.length l)) l) ->
  start <= i /\ nth_error l (i - start) = Some a.
Proof.
  induction l as [|b l IH]; intros start i a H; simpl in H.
  - contradiction.
  - destruct H as [E|H].
    + injection E as <- <-. split; [lia|].
      rewrite Nat.sub_diag. reflexivity.
    + apply IH in H. destruct H as [Hle Hnth]. split; [lia|].
      replace (i - start) with (S (i - S start)) by lia. exact Hnth.
Qed.

Lemma enumerate_nth {A : Type} (l : list A) (i : nat) (a : A) :
  In (i, a) (enumerate l) -> nth_error l i = Some a.
Proof.
  intros H. apply enumerate_from_nth in H. destruct H as [_ H].
  rewrite Nat.sub_0_r in H. exact H.
Qed.

Lemma enumerate_fst {A : Type} (l : list A) :
  map fst (enumerate l) = seq 0 (List.length l).
Proof.
  unfold enumerate. generalize 0 as start.
  induction l as [|a l IH]; intros start; simpl.
  - reflexivity.
  - rewrite IH. reflexivity.
Qed.

Lemma enumerate_length {A : Type} (l : list A) :
  List.length (enumerate l) = List.length l.
Proof.
  unfold enumerate. rewrite length_combine, length_seq. lia.
Qed.

Lemma last_target_enumerate (objs : list object) (t : target) :
  In t (last_target objs) -> In t (enumerate objs).
Proof.
  unfold last_target. intros H.
  destruct (rev (enumerate objs)) as [|io rest] eqn:E; [contradiction|].
  destruct H as [H|[]]. subst t.
  apply (proj2 (in_rev (enumerate objs) io)).
  rewrite E. left. reflexivity.
Qed.

Lemma last_target_shape (objs : list object) :
  last_target objs = [] \/ exists t, last_target objs = [t].
Proof.
  unfold last_target. destruct (rev (enumerate objs)) as [|io rest].
  - left. reflexivity.
  - right. exists io. reflexivity.
Qed.

Lemma map_snd_scored (f : nat * object -> nat) (l : list (nat * object)) :
  map snd (filter (fun m : nat * target => (0 <? fst m)%nat)
                  (map (fun io => (f io, io)) l))
  = filter (fun io => (0 <? f io)%nat) l.
Proof.
  induction l as [|a l IH]; simpl; [reflexivity|].
  destruct (0 <? f a)%nat; simpl; rewrite IH; reflexivity.
Qed.

Lemma NoDup_map_fst_filter {A B : Type} (p : A * B -> bool)
                           (l : list (A * B)) :
  NoDup (map fst l) -> NoDup (map fst (filter p l)).
Proof.
  induction l as [|a l IH]; simpl; intros H.
  - constructor.
  - inversion H as [|? ? Hnotin Hnd]; subst.
    destruct (p a); simpl; [|auto].
    constructor; [|auto].
    intros Hin. apply Hnotin.
    apply in_map_iff in Hin. destruct Hin as [b [Eb Hb]].
    apply filter_In in Hb. destruct Hb as [Hb _].
    rewrite <- Eb. apply in_map. exact Hb.
Qed.

(** The targets before the sort: a sub-list of the enumerated scene. *)
Lemma scored_matches_targets (objs : list object) (text : string) :
  map snd (scored_matches objs text)
  = filter (fun io => (0 <? score_of (List.length objs) text (fst io) (snd io))%nat)
           (enumerate objs).
Proof.
  unfold scored_matches.
  apply (map_snd_scored
           (fun io => score_of (List.length objs) text (fst io) (snd io))).
Qed.

Lemma find_targets_perm (spec : option spec_t) (text : string)
                        (fallback : bool) :
  exists l,
    Permutation (_find_targets spec text fallback) l /\
    (forall t, In t l -> In t (enumerate (spec_objects spec))) /\
    NoDup (map fst l).
Proof.
  unfold _find_targets.
  destruct (spec_objects spec) as [|o objs'] eqn:Eobjs.
  - exists []. repeat split; simpl; try constructor. intros t [].
  - rewrite <- Eobjs.
    destruct (scored_matches (spec_objects spec) text) as [|m ms] eqn:Em.
    + destruct fallback.
      * exists (last_target (spec_objects spec)).
        split; [apply Permutation_refl|].
        split; [apply last_target_enumerate|].
        destruct (last_target_shape (spec_objects spec)) as [E|[t E]];
          rewrite E; simpl.
        -- constructor.
        -- repeat constructor. intros [].
      * exists []. repeat split; simpl; try constructor. intros t [].
    + exists (map snd (scored_matches (spec_objects spec) text)).
      rewrite <- Em. split; [|split].
      * apply Permutation_map. apply stable_sort_perm.
      * intros t Ht. rewrite scored_matches_targets in Ht.
        apply filter_In in Ht. tauto.
      * rewrite scored_matches_targets.
        apply NoDup_map_fst_filter.
        rewrite enumerate_fst. apply seq_NoDup.
Qed.

(** What [_find_targets] returns are objects of the scene, each with the
    index it has there, and no object twice. *)
Theorem find_targets_are_distinct_scene_objects :
  forall (spec : option spec_t) (text : string) (fallback : bool),
    let objs := spec_objects spec in
    let result := _find_targets spec text fallback in
    Forall (fun t : target => nth_error objs (fst t) = Some (snd t)) result /\
    NoDup (map fst result) /\
    (List.length result <= List.length objs)%nat.
Proof.
  intros spec text fallback objs result.
  destruct (find_targets_perm spec text fallback) as [l [P [Hin ND]]].
  fold result in P. fold objs in Hin.
  assert (ND' : NoDup (map fst result)).
  { eapply Permutation_NoDup; [|exact ND].
    apply Permutation_map. apply Permutation_sym. exact P. }
  split; [|split].
  - apply Forall_forall. intros [i o] Ht. simpl.
    apply enumerate_nth. apply Hin.
    eapply Permutation_in; [exact P | exact Ht].
  - exact ND'.
  - assert (L : (List.length (map fst result)
                 <= List.length (map fst (enumerate objs)))%nat).
    { apply NoDup_incl_length; [exact ND'|].
      intros i Hi. apply in_map_iff in Hi. destruct Hi as [t [<- Ht]].
      apply in_map. apply Hin.
      eapply Permutation_in; [exact P | exact Ht]. }
    rewrite !length_map, enumerate_length in L. exact L.
Qed.

(** With [fallback] set, a scene that has objects always yields a target. *)
Theorem find_targets_fallback_nonempty :
  forall (spec : option spec_t) (text : string),
    spec_objects spec <> [] ->
    _find_targets spec text true <> [].
Proof.
  intros spec text Hne. unfold _find_targets.
  destruct (spec_objects spec) as [|o objs'] eqn:Eobjs; [contradiction|].
  rewrite <- Eobjs.
  destruct (scored_matches (spec_objects spec) text) as [|m ms] eqn:Em.
  - unfold last_target.
    destruct (rev (enumerate (spec_objects spec))) as [|io rest] eqn:Er.
    + exfalso.
      assert (L : List.length (rev (enumerate (spec_objects spec))) = 0)
        by (rewrite Er; reflexivity).
      rewrite length_rev, enumerate_length, Eobjs in L. discriminate L.
    + discriminate.
  - intros H. apply map_eq_nil in H.
    apply (proj1 (stable_sort_nil_iff (fun m : nat * target => fst m)
                                      (m :: ms))) in H.
    discriminate H.
Qed.

Lemma find_targets_fallback_nonempty_witness :
  _find_targets (Some (mkSpec (Some [mkObject None None None None]))) "" true
  <> [].
Proof.
  apply find_targets_fallback_nonempty. simpl. discriminate.
Defined.

(** ** Removal pops one object *)

Lemma pop_first_hit_split (low : string) (objs kept : list object) :
  pop_first_hit low objs = Some kept ->
  exists front gone back,
    objs = front ++ gone :: back /\ kept = front ++ back /\
    removal_hit low gone = true /\
    forallb (fun obj => negb (removal_hit low obj)) front = true.
Proof.
  revert kept. induction objs as [|obj rest IH]; intros kept H; simpl in H.
  - discriminate.
  - destruct (removal_hit low obj) eqn:Hit.
    + injection H as <-. exists [], obj, rest. repeat split. exact Hit.
    + destruct (pop_first_hit low rest) as [kept'|]; [|discriminate].
      injection H as <-.
      destruct (IH kept' eq_refl) as [front [gone [back [E [K [G F]]]]]].
      exists (obj :: front), gone, back. subst. repeat split.
      * exact G.
      * simpl. rewrite Hit. exact F.
Qed.

(** A text with "remove", "delete" or "drop" (and none of the reset words)
    takes exactly one object out of a scene that has objects and keeps
    the others in their order; ids that were pairwise distinct stay so. *)
Theorem apply_removal_pops_exactly_one :
  forall (low : string) (s : spec_t),
    Py.contains_any low ["clear"; "reset"; "start over"] = false ->
    Py.contains_any low ["remove"; "delete"; "drop"] = true ->
    get (objects s) [] <> [] ->
    exists front gone back,
      get (objects s) [] = front ++ gone :: back /\
      _apply_removal low (Some s) = Some (mkSpec (Some (front ++ back))) /\
      (NoDup (spec_ids s) -> NoDup (spec_ids (mkSpec (Some (front ++ back))))).
Proof.
  intros low s Hclear Hremove Hne.
  unfold _apply_removal. rewrite Hclear, Hremove.
  destruct (get (objects s) []) as [|o objs] eqn:E; [contradiction|].
  assert (Split : exists front gone back,
             o :: objs = front ++ gone :: back /\
             match pop_first_hit low (o :: objs) with
             | Some kept => kept
             | None => removelast (o :: objs)
             end = front ++ back).
  { destruct (pop_first_hit low (o :: objs)) as [kept|] eqn:P.
    - destruct (pop_first_hit_split _ _ _ P) as [front [gone [back [E1 [E2 _]]]]].
      exists front, gone, back. split; assumption.
    - exists (removelast (o :: objs)), (last (o :: objs) o), [].
      rewrite app_nil_r. split; [|reflexivity].
      apply app_removelast_last. discriminate. }
  destruct Split as [front [gone [back [E1 E2]]]].
  exists front, gone, back. split; [exact E1|]. split.
  - rewrite E2. reflexivity.
  - unfold spec_ids. rewrite E. simpl get. rewrite E1.
    rewrite !map_app. simpl. intros ND.
    apply NoDup_remove_1 in ND. exact ND.
Qed.

Lemma apply_removal_pops_exactly_one_witness :
  exists front gone back,
    [mkObject (Some "a") (Some "box") None None;
     mkObject (Some "b") (Some "cone") None None] = front ++ gone :: back /\
    _apply_removal "delete the cone"
      (Some (mkSpec (Some [mkObject (Some "a") (Some "box") None None;
                           mkObject (Some "b") (Some "cone") None None])))
    = Some (mkSpec (Some (front ++ back))).
Proof.
  destruct (apply_removal_pops_exactly_one "delete the cone"
              (mkSpec (Some [mkObject (Some "a") (Some "box") None None;
                             mkObject (Some "b") (Some "cone") None None])))
    as [front [gone [back [E [R _]]]]].
  - vm_compute. reflexivity.
  - vm_compute. reflexivity.
  - simpl. discriminate.
  - exists front, gone, back. split; [exact E | exact R].
Defined.

(** ** Stable sorting, ascending by a key *)

Section StableSortAscending.
Context {A : Type} (key : A -> nat).

Let before (a b : A) : bool := (key a <? key b)%nat.
Let ordered (a b : A) : Prop := key a <= key b.

Lemma insert_stable_ascending (x : A) (l : list A) :
  StronglySorted ordered l ->
  StronglySorted ordered (insert_stable before x l).
Proof.
  induction l as [|y rest IH]; intros S; simpl.
  - constructor; constructor.
  - inversion S as [|? ? Srest Hall]; subst.
    unfold before at 1. destruct (Nat.ltb_spec (key y) (key x)) as [Lt|Ge].
    + constructor.
      * apply IH. exact Srest.
      * apply Forall_forall. intros z Hz.
        apply (Permutation_in _ (insert_stable_perm before x rest)) in Hz.
        destruct Hz as [<-|Hz].
        -- unfold ordered. lia.
        -- rewrite Forall_forall in Hall. apply Hall. exact Hz.
    + constructor.
      * exact S.
      * constructor; [exact Ge|].
        eapply Forall_impl; [|exact Hall].
        intros z Hz. unfold ordered in *. lia.
Qed.

Lemma stable_sort_ascending (l : list A) :
  StronglySorted ordered (stable_sort before l).
Proof.
  induction l as [|x l IH]; simpl.
  - constructor.
  - apply insert_stable_ascending. exact IH.
Qed.
End StableSortAscending.

(** ** Color mentions *)

Lemma contains_tail (s sub : string) (c : ascii) :
  Py.contains s sub = true -> Py.contains (String c s) sub = true.
Proof.
  intros H. simpl. rewrite H. apply orb_true_r.
Qed.

Lemma word_matches_contains (key : string) (s : string) :
  forall prev pos skip,
  word_matches key prev pos skip s <> [] -> Py.contains s key = true.
Proof.
  induction s as [|c rest IH]; intros prev pos skip H; simpl in H.
  - contradiction.
  - destruct skip as [|skip'].
    + destruct (negb (String.eqb key "") && word_match_here key prev (String c rest))
        eqn:M.
      * apply andb_true_iff in M. destruct M as [_ M].
        unfold word_match_here in M.
        apply andb_true_iff in M. destruct M as [M _].
        apply andb_true_iff in M. destruct M as [M _].
        unfold Py.contains. fold Py.contains. rewrite M. reflexivity.
      * apply contains_tail. eapply IH. exact H.
    + apply contains_tail. eapply IH. exact H.
Qed.

Lemma mark_matches_mentions (value : string) (len : nat) (starts : list nat) :
  forall used mentions,
  exists added,
    snd (mark_matches value len starts used mentions) = mentions ++ added /\
    (starts = [] -> added = []) /\
    Forall (fun m : nat * string => In (fst m) starts /\ snd m = value) added.
Proof.
  induction starts as [|start rest IH]; intros used mentions; simpl.
  - exists []. rewrite app_nil_r. repeat split. constructor.
  - destruct (span_used used start (start + len)).
    + destruct (IH used mentions) as [added [E [_ F]]].
      exists added. split; [exact E|]. split; [discriminate|].
      eapply Forall_impl; [|exact F]. simpl. intros m [Hin Hv]. auto.
    + destruct (IH ((start, start + len) :: used) (mentions ++ [(start, value)]))
        as [added [E [_ F]]].
      exists ((start, value) :: added). rewrite E, <- app_assoc.
      split; [reflexivity|]. split; [discriminate|].
      constructor; [simpl; auto|].
      eapply Forall_impl; [|exact F]. simpl. intros m [Hin Hv]. auto.
Qed.

(** The mentions before the final sort: each stands where its color name
    matches as a word of the lowered text. *)
Lemma color_scan_mentions (lowered : string) (keys : list (string * string)) :
  forall used mentions,
  Forall (fun m : nat * string =>
            exists kv, In kv COLOR_KEYWORDS /\ snd m = snd kv /\
                       Py.contains lowered (fst kv) = true) mentions ->
  (forall kv, In kv keys -> In kv COLOR_KEYWORDS) ->
  Forall (fun m : nat * string =>
            exists kv, In kv COLOR_KEYWORDS /\ snd m = snd kv /\
                       Py.contains lowered (fst kv) = true)
    (snd (fold_left
            (fun (state : list (nat * nat) * list (nat * string)) kv =>
               mark_matches (snd kv) (String.length (fst kv))
                            (word_matches (fst kv) None 0 0 lowered)
                            (fst state) (snd state))
            keys (used, mentions))).
Proof.
  induction keys as [|kv keys IH]; intros used mentions F Hkeys; simpl.
  - exact F.
  - destruct (mark_matches (snd kv) (String.length (fst kv))
                (word_matches (fst kv) None 0 0 lowered) used mentions)
      as [used' mentions'] eqn:M.
    apply IH.
    + destruct (mark_matches_mentions (snd kv) (String.length (fst kv))
                  (word_matches (fst kv) None 0 0 lowered) used mentions)
        as [added [E [Hnil Fa]]].
      rewrite M in E. simpl in E. subst mentions'.
      apply Forall_app. split; [exact F|].
      apply Forall_forall. intros m Hm.
      rewrite Forall_forall in Fa. destruct (Fa m Hm) as [Hin Hv].
      exists kv. split; [apply Hkeys; left; reflexivity|].
      split; [exact Hv|].
      apply (word_matches_contains (fst kv) lowered None 0 0).
      intros Hnone. rewrite Hnone in Hin. contradiction.
    + intros kv' Hin. apply Hkeys. right. exact Hin.
Qed.

Lemma colors_longest_first_perm : Permutation colors_longest_first COLOR_KEYWORDS.
Proof. apply stable_sort_perm. Qed.

(** [_color_mentions] lists its mentions by ascending position; the color
    of each is the table's value for a color name that occurs in the
    lowered text; and a text with a mention is a text in which
    [_color_from_text] finds a color too. *)
Theorem color_mentions_ordered_and_from_table :
  forall (text : string),
    let mentions := _color_mentions text in
    StronglySorted (fun a b : nat * string => fst a <= fst b) mentions /\
    Forall (fun m : nat * string =>
              exists name, In (name, snd m) COLOR_KEYWORDS /\
                           Py.contains (Py.lower text) name = true) mentions /\
    (_color_from_text text = None -> mentions = []).
Proof.
  intros text mentions.
  assert (F : Forall (fun m : nat * string =>
              exists kv, In kv COLOR_KEYWORDS /\ snd m = snd kv /\
                         Py.contains (Py.lower text) (fst kv) = true) mentions).
  { unfold mentions, _color_mentions. cbv zeta.
    apply Forall_forall. intros m Hm.
    apply (Permutation_in _ (stable_sort_perm _ _)) in Hm.
    revert m Hm. apply Forall_forall.
    apply color_scan_mentions; [constructor|].
    intros kv Hin.
    apply (Permutation_in _ colors_longest_first_perm). exact Hin. }
  split; [|split].
  - unfold mentions, _color_mentions. cbv zeta.
    apply (stable_sort_ascending (fun m : nat * string => fst m)).
  - eapply Forall_impl; [|exact F]. simpl.
    intros m [[name value] [Hin [Hv Hc]]]. simpl in *.
    exists name. rewrite Hv. split; assumption.
  - intros Hnone. destruct mentions as [|m rest]; [reflexivity|].
    exfalso. inversion F as [|? ? [kv [Hin [_ Hc]]] _]; subst.
    unfold _color_from_text in Hnone. cbv zeta in Hnone.
    destruct (find (fun kv0 => Py.contains (Py.lower text) (fst kv0))
                   colors_longest_first) as [found|] eqn:Efind;
      [discriminate|].
    assert (Hin' : In kv colors_longest_first).
    { apply (Permutation_in _ (Permutation_sym colors_longest_first_perm)).
      exact Hin. }
    pose proof (find_none _ _ Efind kv Hin') as Hf. simpl in Hf.
    rewrite Hc in Hf. discriminate Hf.
Qed.

Lemma color_mentions_ordered_and_from_table_witness :
  _color_from_text "a plain cube" = None /\ _color_mentions "a plain cube" = [].
Proof.
  split.
  - vm_compute. reflexivity.
  - apply (proj2 (proj2 (color_mentions_ordered_and_from_table "a plain cube"))).
    vm_compute. reflexivity.
Defined.

(** ** Normalization *)

Lemma lower_ascii_idem (c : ascii) :
  Py.lower_ascii (Py.lower_ascii c) = Py.lower_ascii c.
Proof.
  destruct c as [[] [] [] [] [] [] [] []]; reflexivity.
Qed.

Lemma lower_ascii_space (c : ascii) :
  Py.is_space (Py.lower_ascii c) = Py.is_space c.
Proof.
  destruct c as [[] [] [] [] [] [] [] []]; reflexivity.
Qed.

Lemma lower_idem (s : string) : Py.lower (Py.lower s) = Py.lower s.
Proof.
  induction s as [|c s IH]; simpl; [reflexivity|].
  rewrite lower_ascii_idem, IH. reflexivity.
Qed.

Lemma lower_app (a b : string) :
  Py.lower (a ++ b) = (Py.lower a ++ Py.lower b)%string.
Proof.
  induction a as [|c a IH]; simpl; [reflexivity|].
  rewrite IH. reflexivity.
Qed.

Lemma string_app_assoc (a b c : string) :
  ((a ++ b) ++ c = a ++ (b ++ c))%string.
Proof.
  induction a as [|ch a IH]; simpl; [reflexivity|].
  rewrite IH. reflexivity.
Qed.

Lemma string_app_nil_r (a : string) : (a ++ "")%string = a.
Proof.
  induction a as [|ch a IH]; simpl; [reflexivity|].
  rewrite IH. reflexivity.
Qed.

Lemma no_space_app (a b : string) :
  no_space (a ++ b) = no_space a && no_space b.
Proof.
  induction a as [|c a IH]; simpl; [reflexivity|].
  rewrite IH. apply andb_assoc.
Qed.

(** Lowering a text lowers its words. *)
Lemma split_words_lower (s : string) :
  forall cur,
  Py.split_words (Py.lower cur) (Py.lower s)
  = map Py.lower (Py.split_words cur s).
Proof.
  induction s as [|c s IH]; intros cur; simpl.
  - destruct cur; reflexivity.
  - rewrite lower_ascii_space. destruct (Py.is_space c).
    + destruct cur as [|c' cur']; simpl.
      * apply (IH EmptyString).
      * f_equal. apply (IH EmptyString).
    + rewrite <- IH. rewrite lower_app. reflexivity.
Qed.

Lemma split_words_are_words (s : string) :
  forall cur, no_space cur = true ->
  Forall is_word_of_text (Py.split_words cur s).
Proof.
  induction s as [|c s IH]; intros cur Hcur; simpl.
  - destruct cur as [|c' cur'].
    + constructor.
    + constructor; [|constructor]. split; [discriminate | exact Hcur].
  - destruct (Py.is_space c) eqn:Sp.
    + destruct cur as [|c' cur'].
      * apply IH. reflexivity.
      * constructor; [split; [discriminate | exact Hcur]|].
        apply IH. reflexivity.
    + apply IH. rewrite no_space_app, Hcur. simpl. rewrite Sp. reflexivity.
Qed.

Lemma split_words_word (w : string) :
  forall cur s, no_space w = true ->
  Py.split_words cur (w ++ s) = Py.split_words (cur ++ w) s.
Proof.
  induction w as [|c w IH]; intros cur s Hw; simpl.
  - rewrite string_app_nil_r. reflexivity.
  - simpl in Hw. apply andb_true_iff in Hw. destruct Hw as [Hc Hw].
    apply negb_true_iff in Hc. rewrite Hc.
    rewrite (IH _ _ Hw), string_app_assoc. reflexivity.
Qed.

(** The words of a joined list of words are the words. *)
Lemma split_join (ws : list string) :
  Forall is_word_of_text ws -> Py.split (Py.join_space ws) = ws.
Proof.
  unfold Py.split.
  induction ws as [|w rest IH]; intros F; [reflexivity|].
  inversion F as [|? ? [Hne Hw] Frest]; subst.
  destruct rest as [|w' rest'].
  - simpl. rewrite <- (string_app_nil_r w) at 1.
    rewrite (split_words_word w EmptyString EmptyString Hw). simpl.
    destruct w; [contradiction|reflexivity].
  - change (Py.join_space (w :: w' :: rest'))
      with (w ++ String " " (Py.join_space (w' :: rest')))%string.
    rewrite (split_words_word w EmptyString _ Hw). simpl append.
    simpl Py.split_words.
    change (Py.is_space " ") with true. cbv iota.
    destruct w as [|c w0]; [contradiction|].
    f_equal. apply IH. exact Frest.
Qed.

Lemma join_space_lower (ws : list string) :
  Py.lower (Py.join_space ws) = Py.join_space (map Py.lower ws).
Proof.
  induction ws as [|w rest IH]; [reflexivity|].
  destruct rest as [|w' rest'].
  - reflexivity.
  - change (Py.join_space (w :: w' :: rest'))
      with (w ++ String " " (Py.join_space (w' :: rest')))%string.
    change (Py.join_space (map Py.lower (w :: w' :: rest')))
      with (Py.lower w
            ++ String " " (Py.join_space (map Py.lower (w' :: rest'))))%string.
    rewrite lower_app, <- IH. reflexivity.
Qed.

(** [_normalize] is idempotent; its result is in lower case, and its words
    are those of the lowered text: single spaces between them, none at
    either end. *)
Theorem normalize_idempotent :
  forall (text : string),
    _normalize (_normalize text) = _normalize text /\
    Py.lower (_normalize text) = _normalize text /\
    Py.split (_normalize text) = Py.split (Py.lower text) /\
    _normalize text = Py.join_space (Py.split (_normalize text)).
Proof.
  intros text. unfold _normalize.
  set (ws := Py.split (Py.lower text)).
  assert (W : Forall is_word_of_text ws).
  { unfold ws, Py.split. apply split_words_are_words. reflexivity. }
  assert (L : map Py.lower ws = ws).
  { unfold ws, Py.split.
    rewrite <- (split_words_lower (Py.lower text) EmptyString).
    simpl Py.lower at 1. rewrite lower_idem. reflexivity. }
  assert (E1 : Py.lower (Py.join_space ws) = Py.join_space ws).
  { rewrite join_space_lower, L. reflexivity. }
  assert (E2 : Py.split (Py.join_space ws) = ws) by (apply split_join; exact W).
  repeat split.
  - rewrite E1, E2. reflexivity.
  - exact E1.
  - exact E2.
  - rewrite E2. reflexivity.
Qed.

(** ** Ids of the synthesized objects *)

Lemma synth_object_id (seed : Z) (spec : option spec_t) (i : Z) :
  In (obj_type (synth_object seed spec i), obj_id (synth_object seed spec i))
     [(Some "sphere", Some (_generate_id "sph" spec));
      (Some "box", Some (_generate_id "box" spec));
      (Some "cylinder", Some (_generate_id "cyl" spec));
      (Some "torus", Some (_generate_id "torus" spec))].
Proof.
  unfold synth_object. cbv zeta.
  destruct (_rand01 (seed + i * 997) <? 0.2)%float; [simpl; auto|].
  destruct (_rand01 (seed + i * 997) <? 0.55)%float; [simpl; auto|].
  destruct (_rand01 (seed + i * 997) <? 0.8)%float; simpl; auto.
Qed.

(** [_generic_synthesis] generates every id against the scene it was
    given, which it does not extend: the id of an object is decided by its
    type alone, and two objects of one type carry the same id. *)
Theorem generic_synthesis_ids_follow_types :
  forall (text : string) (spec : option spec_t),
    let objs := _generic_synthesis text spec in
    Forall (fun obj =>
              In (obj_type obj, obj_id obj)
                 [(Some "sphere", Some (_generate_id "sph" spec));
                  (Some "box", Some (_generate_id "box" spec));
                  (Some "cylinder", Some (_generate_id "cyl" spec));
                  (Some "torus", Some (_generate_id "torus" spec))]) objs /\
    (forall a b, In a objs -> In b objs ->
                 obj_type a = obj_type b -> obj_id a = obj_id b).
Proof.
  intros text spec objs.
  assert (F : Forall (fun obj =>
              In (obj_type obj, obj_id obj)
                 [(Some "sphere", Some (_generate_id "sph" spec));
                  (Some "box", Some (_generate_id "box" spec));
                  (Some "cylinder", Some (_generate_id "cyl" spec));
                  (Some "torus", Some (_generate_id "torus" spec))]) objs).
  { unfold objs, _generic_synthesis. cbv zeta.
    apply Forall_forall. intros obj Hin.
    apply in_map_iff in Hin. destruct Hin as [i [<- _]].
    apply synth_object_id. }
  split; [exact F|].
  intros a b Ha Hb Ht. rewrite Forall_forall in F.
  pose proof (F a Ha) as Fa. pose proof (F b Hb) as Fb.
  simpl in Fa, Fb.
  repeat match goal with
         | H : _ \/ _ |- _ => destruct H as [H|H]
         | H : False |- _ => contradiction
         end;
    injection Fa as Ta Ia; injection Fb as Tb Ib;
    rewrite <- Ia, <- Ib; try reflexivity;
    rewrite <- Ta, <- Tb in Ht; discriminate Ht.
Qed.

Lemma generic_synthesis_ids_follow_types_witness :
  let objs := _generic_synthesis "hello" None in
  obj_id (nth 0 objs (mkObject None None None None))
  = obj_id (nth 1 objs (mkObject None None None None)).
Proof.
  cbv zeta.
  apply (proj2 (generic_synthesis_ids_follow_types "hello" None)).
  - vm_compute. left. reflexivity.
  - vm_compute. right. left. reflexivity.
  - vm_compute. reflexivity.
Defined.

(** ** Color mutator *)

Lemma lookup_dict_set_same {A : Type} (key : string) (v : A)
                           (d : list (string * A)) :
  lookup key (dict_set key v d) = Some v.
Proof.
  induction d as [|[k old] rest IH]; simpl.
  - rewrite String.eqb_refl. reflexivity.
  - destruct (String.eqb k key) eqn:E; simpl; rewrite E; [reflexivity|exact IH].
Qed.

Lemma lookup_dict_set_other {A : Type} (key other : string) (v : A)
                            (d : list (string * A)) :
  other <> key -> lookup other (dict_set key v d) = lookup other d.
Proof.
  intros Hne. induction d as [|[k old] rest IH]; simpl.
  - destruct (String.eqb_spec key other); [congruence|reflexivity].
  - destruct (String.eqb_spec k key) as [->|Hk]; simpl.
    + destruct (String.eqb_spec key other); [congruence|reflexivity].
    + destruct (String.eqb k other); [reflexivity|exact IH].
Qed.

Lemma recolor_colored (color : string) (obj : object) :
  lookup "color" (get (obj_params (fst (recolor color obj))) [])
  = Some (PStr color).
Proof.
  unfold recolor. destruct (color_differs _ color) eqn:D; simpl.
  - apply lookup_dict_set_same.
  - unfold color_differs in D.
    destruct (lookup "color" (get (obj_params obj) [])) as [[x|s]|];
      try discriminate D.
    apply negb_false_iff, String.eqb_eq in D. subst. reflexivity.
Qed.

Lemma recolor_again (color : string) (obj : object) :
  recolor color (fst (recolor color obj)) = (fst (recolor color obj), false).
Proof.
  pose proof (recolor_colored color obj) as C.
  unfold recolor at 1. unfold color_differs. rewrite C.
  rewrite String.eqb_refl. simpl.
  unfold recolor. destruct (color_differs _ color); reflexivity.
Qed.

Lemma recolor_frame (color : string) (obj : object) (key : string) :
  key <> "color" ->
  lookup key (get (obj_params (fst (recolor color obj))) [])
  = lookup key (get (obj_params obj) []).
Proof.
  intros Hne. unfold recolor. destruct (color_differs _ color); simpl.
  - apply lookup_dict_set_other. exact Hne.
  - reflexivity.
Qed.

(** [_apply_color_change] gives every target the color mentioned last in
    the text and touches nothing else: ids, types, transforms and the
    other parameters stay; without a color mention nothing changes.  Run a
    second time on its own result it changes nothing and returns False. *)
Theorem apply_color_change_last_mention_and_idempotent :
  forall (targets : list object) (text : string),
    let after := fst (_apply_color_change targets text) in
    (match rev (_color_mentions text) with
     | [] => _apply_color_change targets text = (targets, false)
     | (_, color) :: _ =>
         Forall (fun obj =>
                   lookup "color" (get (obj_params obj) [])
                   = Some (PStr color)) after
     end) /\
    map obj_id after = map obj_id targets /\
    map obj_type after = map obj_type targets /\
    map obj_transform after = map obj_transform targets /\
    (forall key, key <> "color" ->
       map (fun obj => lookup key (get (obj_params obj) [])) after
       = map (fun obj => lookup key (get (obj_params obj) [])) targets) /\
    _apply_color_change after text = (after, false).
Proof.
  intros targets text after. unfold after, _apply_color_change.
  destruct (rev (_color_mentions text)) as [|[pos color] rest] eqn:M.
  - simpl. repeat split; reflexivity.
  - simpl fst. split; [|split; [|split; [|split; [|split]]]].
    + apply Forall_forall. intros obj Hin.
      apply in_map_iff in Hin. destruct Hin as [o [<- _]].
      apply recolor_colored.
    + rewrite map_map. apply map_ext. intros o.
      unfold recolor. destruct (color_differs _ color); reflexivity.
    + rewrite map_map. apply map_ext. intros o.
      unfold recolor. destruct (color_differs _ color); reflexivity.
    + rewrite map_map. apply map_ext. intros o.
      unfold recolor. destruct (color_differs _ color); reflexivity.
    + intros key Hne. rewrite map_map. apply map_ext. intros o.
      apply recolor_frame. exact Hne.
    + f_equal.
      * rewrite map_map. apply map_ext. intros o.
        rewrite recolor_again. reflexivity.
      * apply not_true_is_false. intros Hex.
        apply existsb_exists in Hex. destruct Hex as [o' [Hin Ho]].
        apply in_map_iff in Hin. destruct Hin as [o [<- _]].
        rewrite recolor_again in Ho. discriminate Ho.
Qed.

(** "make the red box blue": blue, the last mention, wins. *)
Example apply_color_change_red_box_blue :
  _apply_color_change
    [mkObject (Some "box1") (Some "box")
              (Some [("width", PNum 10); ("color", PStr "#ff4b5c")]) None]
    "make the red box blue"
  = ([mkObject (Some "box1") (Some "box")
               (Some [("width", PNum 10); ("color", PStr "#3d7eff")]) None],
     true).
Proof. vm_compute. reflexivity. Qed.

(** ** Floors of the dimension and scale mutators *)

Lemma float_ltb_leb (a b : float) :
  (a <? b)%float = true -> (a <=? b)%float = true.
Proof.
  rewrite FloatAxioms.ltb_spec, FloatAxioms.leb_spec. unfold SFltb, SFleb.
  destruct (SFcompare (Prim2SF a) (Prim2SF b)) as [[| |]|];
    intros H; try discriminate H; reflexivity.
Qed.

(** [max(a, b)] is never below [a], also for an infinite or NaN [b]. *)
Lemma py_max_floor (a b : float) :
  (a <=? a)%float = true -> (a <=? py_max a b)%float = true.
Proof.
  intros Ha. unfold py_max. destruct (a <? b)%float eqn:L.
  - apply float_ltb_leb. exact L.
  - exact Ha.
Qed.

(** When [_adjust_param] reports a change, the value it stored under the
    key is a number not below 0.001, whatever the numbers of the text and
    the value before (negative, zero, infinite, NaN); the other keys are
    untouched.  Without the key in [params] it changes nothing. *)
Theorem adjust_param_floor :
  forall (params params' : params_t) (key : string) (numbers : list float)
         (up down : bool),
    _adjust_param params key numbers up down = Ok (params', true) ->
    (exists v, lookup key params' = Some (PNum v) /\
               (0.001 <=? v)%float = true) /\
    lookup key params <> None /\
    (forall other, other <> key -> lookup other params' = lookup other params).
Proof.
  intros params params' key numbers up down H.
  unfold _adjust_param in H.
  destruct (lookup key params) as [v|] eqn:L; [|discriminate H].
  destruct (float_of_pval v) as [current|e]; simpl in H; [|discriminate H].
  assert (Floor : forall x, (0.001 <=? py_max 0.001 x)%float = true).
  { intros x. apply py_max_floor. reflexivity. }
  destruct numbers as [|n rest].
  - destruct up.
    + injection H as <-. split; [|split].
      * eexists. split; [apply lookup_dict_set_same | apply Floor].
      * discriminate.
      * intros other Hne. apply lookup_dict_set_other. exact Hne.
    + destruct down; [|discriminate H].
      injection H as <-. split; [|split].
      * eexists. split; [apply lookup_dict_set_same | apply Floor].
      * discriminate.
      * intros other Hne. apply lookup_dict_set_other. exact Hne.
  - injection H as <-. split; [|split].
    + eexists. split; [apply lookup_dict_set_same | apply Floor].
    + discriminate.
    + intros other Hne. apply lookup_dict_set_other. exact Hne.
Qed.

Lemma adjust_param_floor_witness :
  exists v, lookup "radius" [("radius", PNum v); ("color", PStr "#111111")]
            = Some (PNum v) /\ (0.001 <=? v)%float = true.
Proof.
  destruct (adjust_param_floor
              [("radius", PNum 0.001); ("color", PStr "#111111")]
              [("radius", PNum 0.001); ("color", PStr "#111111")]
              "radius" [] false true) as [[v [L F]] _].
  - vm_compute. reflexivity.
  - exists v. split; [reflexivity | exact F].
Defined.

(** [_adjust_param] converts the current value before it looks at the
    numbers: a value that [float] rejects raises, even when the text
    supplies the new value. *)
Theorem adjust_param_raises_on_bad_current :
  forall (params : params_t) (key text_value : string) (e : exn)
         (numbers : list float) (up down : bool),
    lookup key params = Some (PStr text_value) ->
    float_of_string text_value = Raise e ->
    _adjust_param params key numbers up down = Raise e.
Proof.
  intros params key text_value e numbers up down L F.
  unfold _adjust_param. rewrite L. simpl. rewrite F. reflexivity.
Qed.

Lemma adjust_param_raises_on_bad_current_witness :
  _adjust_param [("width", PStr "wide")] "width" [12%float] true false
  = Raise ValueError.
Proof.
  apply (adjust_param_raises_on_bad_current
           [("width", PStr "wide")] "width" "wide").
  - reflexivity.
  - vm_compute. reflexivity.
Defined.

(** ** Clone *)

Lemma ensure_transform_position_length (obj : object) :
  List.length (position_of obj) = 3.
Proof.
  unfold position_of, transform_of, _ensure_transform. simpl.
  apply pad3_length.
Qed.

Lemma list3_eta (l : list float) :
  List.length l = 3 -> l = [nth 0 l 0%float; nth 1 l 0%float; nth 2 l 0%float].
Proof.
  destruct l as [|a [|b [|c [|d l]]]]; intros H; try discriminate H.
  reflexivity.
Qed.

(** The copy made by [_duplicate_object] carries an id that no object of
    the scene has, the type and the parameters of the target, and the
    target's (repaired) transform moved by +2 along the first axis. *)
Theorem duplicate_object_fresh_id_and_offset :
  forall (target : object) (spec : spec_t),
    let copy_obj := _duplicate_object target spec in
    (exists new_id,
       obj_id copy_obj = Some new_id /\ new_id <> "" /\
       ~ In new_id (spec_ids spec)) /\
    obj_type copy_obj = obj_type target /\
    obj_params copy_obj = obj_params target /\
    obj_transform copy_obj
    = Some (mkTransform
              (Some [(nth 0 (position_of target) 0 + 2.0)%float;
                     nth 1 (position_of target) 0%float;
                     nth 2 (position_of target) 0%float])
              (Some (rotation_of target))
              (Some (scale_of target))).
Proof.
  intros target spec copy_obj.
  split; [|split; [|split]].
  - exists (_generate_id (type_or_obj target) (Some spec)).
    split; [reflexivity|].
    destruct (generate_id_smallest (type_or_obj target) (Some spec))
      as [n [Hn [E [Hout _]]]].
    split.
    + rewrite E. apply candidate_id_nonempty.
    + intros Hin. apply Hout. rewrite <- E.
      apply In_existing_ids. split; [exact Hin|].
      rewrite E. apply candidate_id_nonempty.
  - reflexivity.
  - reflexivity.
  - reflexivity.
Qed.

(** ** Directional move *)

Lemma set_position_fields (value : list float) (obj : object) :
  obj_id (set_position value obj) = obj_id obj /\
  obj_type (set_position value obj) = obj_type obj /\
  obj_params (set_position value obj) = obj_params obj.
Proof. repeat split. Qed.

Lemma rotation_scale_of_set_position (value : list float) (obj : object) :
  List.length value = 3 ->
  position_of (set_position value (_ensure_transform obj)) = value /\
  rotation_of (set_position value (_ensure_transform obj)) = rotation_of obj /\
  scale_of (set_position value (_ensure_transform obj)) = scale_of obj.
Proof.
  intros L.
  unfold position_of, rotation_of, scale_of, transform_of, set_position,
    set_transform, _ensure_transform. simpl.
  repeat split.
  - unfold pad3. rewrite L. reflexivity.
  - apply pad3_idem.
  - apply pad3_idem.
Qed.

Lemma ensure_as_set_position (obj : object) :
  _ensure_transform obj = set_position (position_of obj) (_ensure_transform obj).
Proof. reflexivity. Qed.

Lemma set_position_twice (p q : list float) (obj : object) :
  set_position q (set_position p obj) = set_position q obj.
Proof. reflexivity. Qed.

Lemma shift_position_length (delta : float) (vector : float * float * float)
                            (p : list float) :
  List.length (shift_position delta vector p) = 3.
Proof. destruct vector as [[vx vy] vz]. reflexivity. Qed.

(** Whatever keywords the text holds, the loop of [move_object] leaves
    the repaired object with a new position of three components. *)
Lemma move_object_shape (lowered : string) (delta : float) (obj : object) :
  exists p, List.length p = 3 /\
            move_object lowered delta obj
            = set_position p (_ensure_transform obj).
Proof.
  unfold move_object.
  assert (G : forall entries cur,
             (exists p, List.length p = 3 /\
                        cur = set_position p (_ensure_transform obj)) ->
             exists p, List.length p = 3 /\
               fold_left
                 (fun o entry =>
                    if Py.contains lowered (fst entry)
                    then set_position
                           (shift_position delta (snd entry)
                              (get (position (get (obj_transform o)
                                                  empty_transform)) []))
                           o
                    else o) entries cur
               = set_position p (_ensure_transform obj)).
  { induction entries as [|entry rest IH]; intros cur Hcur; simpl.
    - exact Hcur.
    - apply IH. destruct (Py.contains lowered (fst entry)); [|exact Hcur].
      destruct Hcur as [p [Lp ->]].
      eexists. split; [apply shift_position_length|].
      apply set_position_twice. }
  apply G. exists (position_of obj). split.
  - apply ensure_transform_position_length.
  - apply ensure_as_set_position.
Qed.

Lemma extract_position_triplet_length (text : string) (absolute : list float) :
  _extract_position_triplet text = Some absolute -> List.length absolute = 3.
Proof.
  unfold _extract_position_triplet.
  destruct (Re.search position_triplet_re text) as [[[s e] groups]|];
    intros H; [|discriminate H].
  injection H as <-. reflexivity.
Qed.

(** [_apply_directional_move] changes positions only: ids, types,
    parameters, rotations and scales of the targets are those it was
    given.  With a move word and an "at/to (x, y, z)" triplet in the text,
    every target ends at exactly that position, wherever it stood. *)
Theorem directional_move_changes_position_only :
  forall (targets : list object) (text : string) (numbers : list float),
    let after := fst (_apply_directional_move targets text numbers) in
    map obj_id after = map obj_id targets /\
    map obj_type after = map obj_type targets /\
    map obj_params after = map obj_params targets /\
    map rotation_of after = map rotation_of targets /\
    map scale_of after = map scale_of targets /\
    (forall absolute,
       Py.contains_any (Py.lower text) MOVE_WORDS = true ->
       _extract_position_triplet (Py.lower text) = Some absolute ->
       map position_of after = map (fun _ => absolute) targets).
Proof.
  intros targets text numbers after.
  assert (Shape : exists f : object -> object,
             after = map f targets /\
             forall obj, f obj = obj \/
                         exists p, List.length p = 3 /\
                           f obj = set_position p (_ensure_transform obj)).
  { unfold after, _apply_directional_move. cbv zeta.
    destruct (negb (Py.contains_any (Py.lower text) MOVE_WORDS)).
    - exists (fun obj => obj). split; [symmetry; apply map_id|].
      intros obj. left. reflexivity.
    - destruct (_extract_position_triplet (Py.lower text)) as [absolute|] eqn:T.
      + eexists. split; [reflexivity|]. intros obj. right.
        exists absolute. split; [|reflexivity].
        eapply extract_position_triplet_length. exact T.
      + eexists. split; [reflexivity|]. intros obj. right.
        apply move_object_shape. }
  assert (Absolute : forall absolute,
             Py.contains_any (Py.lower text) MOVE_WORDS = true ->
             _extract_position_triplet (Py.lower text) = Some absolute ->
             map position_of after = map (fun _ => absolute) targets).
  { intros absolute Hmove Htriplet.
    unfold after, _apply_directional_move. cbv zeta.
    rewrite Hmove, Htriplet. simpl.
    rewrite map_map. apply map_ext. intros obj.
    apply rotation_scale_of_set_position.
    eapply extract_position_triplet_length. exact Htriplet. }
  destruct Shape as [f [E Hf]].
  assert (Frame : forall obj,
             obj_id (f obj) = obj_id obj /\ obj_type (f obj) = obj_type obj /\
             obj_params (f obj) = obj_params obj /\
             rotation_of (f obj) = rotation_of obj /\
             scale_of (f obj) = scale_of obj).
  { intros obj. destruct (Hf obj) as [->|[p [Lp ->]]].
    - repeat split.
    - destruct (rotation_scale_of_set_position p obj Lp) as [_ [R S]].
      repeat split; assumption. }
  split; [|split; [|split; [|split; [|split]]]]; try exact Absolute;
    rewrite E, map_map; apply map_ext; intros obj; apply Frame.
Qed.

Lemma directional_move_changes_position_only_witness :
  map position_of
      (fst (_apply_directional_move
              [mkObject (Some "a") (Some "box") None None;
               mkObject (Some "b") (Some "cone") None
                        (Some (mkTransform (Some [7; 8; 9]%float) None None))]
              "move them to (1, 2.5, -3)" []))
  = [[1; 2.5; -3]%float; [1; 2.5; -3]%float].
Proof.
  apply (proj2 (proj2 (proj2 (proj2 (proj2
           (directional_move_changes_position_only
              [mkObject (Some "a") (Some "box") None None;
               mkObject (Some "b") (Some "cone") None
                        (Some (mkTransform (Some [7; 8; 9]%float) None None))]
              "move them to (1, 2.5, -3)" []))))) [1; 2.5; -3]%float).
  - vm_compute. reflexivity.
  - vm_compute. reflexivity.
Defined.

(** ** Scale mutator *)

Lemma keeps_set_scale (value : list float) : keeps_all_but_scale (set_scale value).
Proof.
  intros obj.
  unfold position_of, rotation_of, transform_of, set_scale, set_transform,
    _ensure_transform. simpl.
  repeat split; apply pad3_idem.
Qed.

Lemma keeps_scale_by (factor : float) : keeps_all_but_scale (scale_by factor).
Proof.
  intros obj.
  unfold position_of, rotation_of, transform_of, scale_by, set_transform,
    _ensure_transform. simpl.
  repeat split; apply pad3_idem.
Qed.

Lemma keeps_compose (g h : object -> object) :
  keeps_all_but_scale g -> keeps_all_but_scale h ->
  keeps_all_but_scale (fun obj => h (g obj)).
Proof.
  intros G H obj.
  destruct (G obj) as [G1 [G2 [G3 [G4 G5]]]].
  destruct (H (g obj)) as [H1 [H2 [H3 [H4 H5]]]].
  repeat split; congruence.
Qed.

Lemma keeps_id : keeps_all_but_scale (fun obj => obj).
Proof. intros obj. repeat split. Qed.

Lemma scale_of_set_scale (value : list float) (obj : object) :
  List.length value = 3 -> scale_of (set_scale value obj) = value.
Proof.
  intros L.
  unfold scale_of, transform_of, set_scale, set_transform, _ensure_transform.
  simpl. unfold pad3. rewrite L. reflexivity.
Qed.

Lemma scale_of_scale_by (factor : float) (obj : object) :
  scale_of (scale_by factor obj)
  = map (fun v => py_max 0.01 (v * factor)) (scale_of obj).
Proof.
  unfold scale_of, transform_of, scale_by, set_transform, _ensure_transform.
  simpl. unfold pad3 at 1. rewrite length_map, pad3_length. reflexivity.
Qed.

Lemma scale_by_floored (factor : float) (obj : object) :
  scale_floored (scale_by factor obj).
Proof.
  unfold scale_floored. rewrite scale_of_scale_by.
  apply Forall_forall. intros v Hv.
  apply in_map_iff in Hv. destruct Hv as [x [<- _]].
  apply py_max_floor. reflexivity.
Qed.

Lemma set_scale_floored (a b c : float) (obj : object) :
  scale_floored (set_scale (map (py_max 0.01) [a; b; c]) obj).
Proof.
  unfold scale_floored. rewrite scale_of_set_scale by reflexivity.
  repeat constructor; apply py_max_floor; reflexivity.
Qed.

(** The shape of what [_apply_scale_change] returns: one function applied
    to every target. *)
Lemma apply_scale_change_shape (targets : list object) (text : string)
                               (numbers : list float) :
  exists g : object -> object,
    fst (_apply_scale_change targets text numbers) = map g targets /\
    keeps_all_but_scale g /\
    (snd (_apply_scale_change targets text numbers) = true ->
     forall obj, scale_floored (g obj)).
Proof.
  unfold _apply_scale_change. cbv zeta.
  destruct (negb (Py.contains (Py.lower text) "scale")).
  { exists (fun obj => obj). split; [symmetry; apply map_id|].
    split; [apply keeps_id | discriminate]. }
  set (E := if negb (nonempty (numbers_after explicit_patterns (Py.lower text) []))
               && _ then numbers else _).
  set (F := if negb (nonempty (numbers_after factor_patterns (Py.lower text) []))
               && _ then numbers else _).
  destruct F as [|factor Frest].
  - destruct E as [|a rest].
    + exists (fun obj => obj). split; [symmetry; apply map_id|].
      split; [apply keeps_id | discriminate].
    + eexists. split; [reflexivity|]. split; [apply keeps_set_scale|].
      intros _ obj. destruct rest as [|b [|c rest']]; apply set_scale_floored.
  - destruct E as [|a rest].
    + eexists. split; [reflexivity|]. split; [apply keeps_scale_by|].
      intros _ obj. apply scale_by_floored.
    + eexists. split; [simpl fst; rewrite map_map; reflexivity|].
      split.
      * apply (keeps_compose (set_scale _) (scale_by factor));
          [apply keeps_set_scale | apply keeps_scale_by].
      * intros _ obj. apply scale_by_floored.
Qed.

(** [_apply_scale_change] touches the scale only: ids, types, parameters,
    positions and rotations of the targets stay.  When it reports a change,
    every scale component of every target is at least 0.01, whatever
    numbers the text gave (zero, negative) and whatever the scale was. *)
Theorem apply_scale_change_floor_and_frame :
  forall (targets : list object) (text : string) (numbers : list float),
    let after := fst (_apply_scale_change targets text numbers) in
    map obj_id after = map obj_id targets /\
    map obj_type after = map obj_type targets /\
    map obj_params after = map obj_params targets /\
    map position_of after = map position_of targets /\
    map rotation_of after = map rotation_of targets /\
    (snd (_apply_scale_change targets text numbers) = true ->
     Forall scale_floored after).
Proof.
  intros targets text numbers after.
  destruct (apply_scale_change_shape targets text numbers) as [g [E [K Fl]]].
  fold after in E.
  split; [|split; [|split; [|split; [|split]]]];
    try (rewrite E, map_map; apply map_ext; intros obj; apply K).
  intros Changed. rewrite E. apply Forall_forall. intros obj' Hin.
  apply in_map_iff in Hin. destruct Hin as [obj [<- _]].
  apply Fl. exact Changed.
Qed.

Lemma apply_scale_change_floor_and_frame_witness :
  Forall scale_floored
    (fst (_apply_scale_change
            [mkObject (Some "a") (Some "box") None
                      (Some (mkTransform None None (Some [4; 5; 6]%float)))]
            "scale = -1 and scale by 0.000001" [(-1); 0.000001]%float)).
Proof.
  apply (proj2 (proj2 (proj2 (proj2 (proj2
           (apply_scale_change_floor_and_frame
              [mkObject (Some "a") (Some "box") None
                        (Some (mkTransform None None (Some [4; 5; 6]%float)))]
              "scale = -1 and scale by 0.000001" [(-1); 0.000001]%float)))))).
  vm_compute. reflexivity.
Defined.

(** ** Dimension mutator *)

Lemma params_floored_refl (p : params_t) : params_floored_from p p.
Proof. intros key. left. reflexivity. Qed.

Lemma params_floored_trans (p q r : params_t) :
  params_floored_from p q -> params_floored_from q r ->
  params_floored_from p r.
Proof.
  intros PQ QR key.
  destruct (QR key) as [E|[v [E F]]].
  - rewrite E. apply PQ.
  - right. exists v. split; assumption.
Qed.

Lemma adjust_param_floored (params : params_t) (key : string)
    (numbers : list float) (up down : bool) (r : params_t * bool) :
  _adjust_param params key numbers up down = Ok r ->
  params_floored_from params (fst r).
Proof.
  intros H. destruct r as [params' [|]].
  - destruct (adjust_param_floor _ _ _ _ _ _ H) as [[v [L F]] [_ Other]].
    intros k. destruct (String.eqb_spec k key) as [->|Hne].
    + right. exists v. split; assumption.
    + left. apply Other. exact Hne.
  - assert (E : params' = params).
    { unfold _adjust_param in H.
      destruct (lookup key params) as [v|]; [|injection H as <-; reflexivity].
      destruct (float_of_pval v) as [current|e]; simpl in H; [|discriminate H].
      destruct numbers; [|discriminate H].
      destruct up; [discriminate H|]. destruct down; [discriminate H|].
      injection H as <-. reflexivity. }
    simpl. rewrite E. apply params_floored_refl.
Qed.

Lemma adjust_step_floored (key : string) (numbers : list float)
    (up down : bool) (state r : params_t * bool) :
  adjust_step key numbers up down state = Ok r ->
  params_floored_from (fst state) (fst r).
Proof.
  unfold adjust_step. intros H.
  destruct (_adjust_param (fst state) key numbers up down) as [a|e] eqn:A;
    simpl in H; [|discriminate H].
  injection H as <-. simpl. eapply adjust_param_floored. exact A.
Qed.

Ltac adjust_chain :=
  repeat match goal with
  | H : bind (adjust_step ?k ?n ?u ?d ?s) _ = Ok _ |- _ =>
      let a := fresh "a" in let A := fresh "A" in
      destruct (adjust_step k n u d s) as [a|] eqn:A;
      simpl in H; [|discriminate H];
      apply adjust_step_floored in A
  | H : adjust_step ?k ?n ?u ?d ?s = Ok _ |- _ =>
      apply adjust_step_floored in H
  end.

Lemma adjust_by_type_floored (otype lowered : string) (numbers : list float)
    (w : dimension_words) (state r : params_t * bool) :
  adjust_by_type otype lowered numbers w state = Ok r ->
  params_floored_from (fst state) (fst r).
Proof.
  unfold adjust_by_type. intros H.
  destruct (String.eqb otype "box").
  { adjust_chain. eauto using params_floored_trans. }
  destruct (String.eqb otype "cylinder").
  { adjust_chain. eauto using params_floored_trans. }
  destruct (String.eqb otype "sphere").
  { adjust_chain. assumption. }
  destruct (String.eqb otype "cone").
  { adjust_chain. eauto using params_floored_trans. }
  destruct (String.eqb otype "torus" || String.eqb otype "torusknot").
  { adjust_chain. eauto using params_floored_trans. }
  destruct (String.eqb otype "plane").
  { adjust_chain. assumption. }
  injection H as <-. apply params_floored_refl.
Qed.

Lemma dimension_changed_refl (obj : object) : dimension_changed_from obj obj.
Proof.
  repeat split; try reflexivity.
  - apply params_floored_refl.
  - left. reflexivity.
Qed.

Lemma dimension_changed_set_params (before cur : object) (p : params_t) :
  dimension_changed_from before cur ->
  params_floored_from (params_of cur) p ->
  dimension_changed_from before (set_params p cur).
Proof.
  intros [I [T [P [Po [Ro Sc]]]]] Hp.
  repeat split; try assumption.
  eapply params_floored_trans; [exact P | exact Hp].
Qed.

Lemma dimension_changed_scale_by (before cur : object) (factor : float) :
  dimension_changed_from before cur ->
  dimension_changed_from before (scale_by factor cur).
Proof.
  intros [I [T [P [Po [Ro Sc]]]]].
  destruct (keeps_scale_by factor cur) as [K1 [K2 [K3 [K4 K5]]]].
  repeat split; try congruence.
  - unfold params_of. rewrite K3. exact P.
  - right. apply scale_by_floored.
Qed.

Lemma Forall2_update_nth {A : Type} (R : A -> A -> Prop) (f : A -> A) :
  forall (before cur : list A) (i : nat) (c : A),
  Forall2 R before cur -> nth_error cur i = Some c ->
  (forall b, R b c -> R b (f c)) ->
  Forall2 R before (update_nth i f cur).
Proof.
  intros before cur i c F. revert i.
  induction F as [|b x before cur Hbx F IH]; intros i Hnth Hf.
  - destruct i; discriminate Hnth.
  - destruct i as [|i]; simpl in *.
    + injection Hnth as ->. constructor; [apply Hf; exact Hbx | exact F].
    + constructor; [exact Hbx | apply IH; assumption].
Qed.

Lemma Forall2_map_right {A : Type} (R : A -> A -> Prop) (g : A -> A) :
  forall (before cur : list A),
  Forall2 R before cur -> (forall b c, R b c -> R b (g c)) ->
  Forall2 R before (map g cur).
Proof.
  intros before cur F Hg.
  induction F; simpl; constructor; auto.
Qed.

Lemma dimension_loop_changed (lowered : string) (numbers : list float)
                             (w : dimension_words) (before : list object) :
  forall todo i cur changed r,
  Forall2 dimension_changed_from before cur ->
  dimension_loop todo i lowered numbers w cur changed = Ok r ->
  Forall2 dimension_changed_from before (fst r).
Proof.
  induction todo as [|todo IH]; intros i cur changed r F H; simpl in H.
  - injection H as <-. exact F.
  - destruct (nth_error cur i) as [obj|] eqn:N; [|injection H as <-; exact F].
    destruct (adjust_by_type (get (obj_type obj) "") lowered numbers w
                (get (obj_params obj) [], changed)) as [s|e] eqn:A;
      simpl in H; [|discriminate H].
    apply adjust_by_type_floored in A. simpl in A.
    assert (F' : Forall2 dimension_changed_from before
                   (update_nth i (set_params (fst s)) cur)).
    { eapply Forall2_update_nth; [exact F | exact N|].
      intros b Hb. apply dimension_changed_set_params; assumption. }
    destruct (negb (snd s) && (scale_up w || scale_down w)
              && Py.contains lowered "scale").
    + eapply IH; [|exact H].
      apply Forall2_map_right; [exact F'|].
      intros b c Hbc. apply dimension_changed_scale_by. exact Hbc.
    + eapply IH; [exact F' | exact H].
Qed.

Lemma Forall2_refl_list {A : Type} (R : A -> A -> Prop) (l : list A) :
  (forall a, R a a) -> Forall2 R l l.
Proof. intros H. induction l; constructor; auto. Qed.

(** When [_apply_dimension_change] returns, the targets are the same
    objects in the same order, with id, type, position and rotation as
    before; every parameter holds its old value or a number not below
    0.001; and the scale of a target is its old scale or has all three
    components at 0.01 or more. *)
Theorem apply_dimension_change_floors :
  forall (targets after : list object) (text : string) (numbers : list float)
         (changed : bool),
    _apply_dimension_change targets text numbers = Ok (after, changed) ->
    Forall2 dimension_changed_from targets after.
Proof.
  intros targets after text numbers changed H.
  unfold _apply_dimension_change in H. cbv zeta in H.
  apply (dimension_loop_changed _ _ _ targets _ _ _ _ _
           (Forall2_refl_list _ targets dimension_changed_refl)) in H.
  exact H.
Qed.

Lemma apply_dimension_change_floors_witness :
  Forall2 dimension_changed_from
    [mkObject (Some "s1") (Some "sphere") (Some [("radius", PNum 0.001)]) None]
    [mkObject (Some "s1") (Some "sphere") (Some [("radius", PNum 0.001)]) None].
Proof.
  apply (apply_dimension_change_floors
           [mkObject (Some "s1") (Some "sphere")
                     (Some [("radius", PNum 0.001)]) None]
           [mkObject (Some "s1") (Some "sphere")
                     (Some [("radius", PNum 0.001)]) None]
           "make it smaller" [] true).
  vm_compute. reflexivity.
Defined.

(** ** Numbers need digits *)

(** If what follows a pattern cannot succeed on any text without digits,
    the pattern followed by it cannot either: the matcher only moves
    forward in the text. *)
Lemma go_fails_digit_free {R : Type} (r : Re.t) :
  forall (k : Re.state -> option R),
  (forall s', no_digit_byte (Re.rest s') = true -> k s' = None) ->
  forall s, no_digit_byte (Re.rest s) = true -> Re.go r s k = None.
Proof.
  induction r as [| c | p | a IHa b IHb | a IHa b IHb | a IHa | a IHa lo hi
                  | n a IHa | | ]; intros k Hk s Hs.
  - simpl. apply Hk. exact Hs.
  - simpl. unfold Re.step.
    destruct (Re.rest s) as [|c' rest'] eqn:E; [reflexivity|].
    destruct (Ascii.eqb c c'); [|reflexivity].
    apply Hk. simpl. simpl in Hs. apply andb_true_iff in Hs. apply Hs.
  - simpl. unfold Re.step.
    destruct (Re.rest s) as [|c' rest'] eqn:E; [reflexivity|].
    destruct (p c'); [|reflexivity].
    apply Hk. simpl. simpl in Hs. apply andb_true_iff in Hs. apply Hs.
  - simpl. apply IHa; [|exact Hs]. intros s' Hs'. apply IHb; assumption.
  - simpl. rewrite (IHa k Hk s Hs). apply IHb; assumption.
  - simpl.
    match goal with
    | |- context [?loop (String.length (Re.rest s))] =>
        assert (L : forall n s0, no_digit_byte (Re.rest s0) = true ->
                                 loop n s0 = None)
    end.
    { induction n as [|n IHn]; intros s0 H0.
      - apply Hk. exact H0.
      - rewrite IHa; [apply Hk; exact H0| |exact H0].
        intros s' Hs'. destruct (Re.pos s' =? Re.pos s0)%nat; [reflexivity|].
        apply IHn. exact Hs'. }
    rewrite IHa; [apply Hk; exact Hs| |exact Hs].
    intros s' Hs'. destruct (Re.pos s' =? Re.pos s)%nat; [reflexivity|].
    apply L. exact Hs'.
  - simpl. revert lo s Hs. induction hi as [|hi IHhi]; intros lo s Hs.
    + destruct (lo =? 0)%nat; [apply Hk; exact Hs | reflexivity].
    + rewrite IHa; [| |exact Hs].
      * destruct (lo =? 0)%nat; [apply Hk; exact Hs | reflexivity].
      * intros s' Hs'. apply IHhi. exact Hs'.
  - simpl. apply IHa; [|exact Hs]. intros s' Hs'. apply Hk. exact Hs'.
  - simpl. destruct (word_boundary (Re.prev s) (head_char (Re.rest s)));
      [apply Hk; exact Hs | reflexivity].
  - simpl. destruct (Re.rest s) as [|c [|c' rest']] eqn:E.
    + apply Hk. rewrite E. reflexivity.
    + destruct (Ascii.eqb c "010"); [apply Hk; rewrite E; exact Hs | reflexivity].
    + reflexivity.
Qed.

Lemma digit_fails {R : Type} (k : Re.state -> option R) (s : Re.state) :
  no_digit_byte (Re.rest s) = true -> Re.go Re.digit s k = None.
Proof.
  intros Hs. simpl. unfold Re.step.
  destruct (Re.rest s) as [|c rest'] eqn:E; [reflexivity|].
  simpl in Hs. apply andb_true_iff in Hs. destruct Hs as [Hc _].
  apply negb_true_iff in Hc. rewrite Hc. reflexivity.
Qed.

Lemma number_re_fails {R : Type} (k : Re.state -> option R) (s : Re.state) :
  no_digit_byte (Re.rest s) = true -> Re.go number_re s k = None.
Proof.
  intros Hs. unfold number_re.
  change (Re.go (Re.Seq (Re.Opt (Re.one_of "-+"))
                   (Re.Seq (Re.Star Re.digit)
                      (Re.Seq (Re.Opt (Re.Char ".")) (Re.Plus Re.digit)))) s k)
    with (Re.go (Re.Opt (Re.one_of "-+")) s
            (fun s1 => Re.go (Re.Star Re.digit) s1
               (fun s2 => Re.go (Re.Opt (Re.Char ".")) s2
                  (fun s3 => Re.go Re.digit s3
                     (fun s4 => Re.go (Re.Star Re.digit) s4 k))))).
  apply go_fails_digit_free; [|exact Hs]. intros s1 H1.
  apply go_fails_digit_free; [|exact H1]. intros s2 H2.
  apply go_fails_digit_free; [|exact H2]. intros s3 H3.
  apply digit_fails. exact H3.
Qed.

Lemma match_at_number_digit_free (before : option ascii) (s : string)
                                 (p : nat) :
  no_digit_byte s = true -> Re.match_at number_re before s p = None.
Proof.
  intros H. unfold Re.match_at. apply number_re_fails. exact H.
Qed.

Lemma finditer_number_digit_free (text : string) :
  forall before p, no_digit_byte text = true ->
  Re.finditer_from number_re before text p 0 = [].
Proof.
  induction text as [|c rest IH]; intros before p H;
    cbn -[Re.match_at number_re].
  - rewrite match_at_number_digit_free by exact H. reflexivity.
  - rewrite match_at_number_digit_free by exact H.
    apply IH. simpl in H. apply andb_true_iff in H. apply H.
Qed.

Lemma go_seq {R : Type} (a b : Re.t) (s : Re.state)
             (k : Re.state -> option R) :
  Re.go (Re.Seq a b) s k = Re.go a s (fun s' => Re.go b s' k).
Proof. reflexivity. Qed.

Lemma go_group {R : Type} (n : nat) (a : Re.t) (s : Re.state)
               (k : Re.state -> option R) :
  Re.go (Re.Group n a) s k
  = Re.go a s (fun s' => k (Re.mkState (Re.prev s') (Re.rest s') (Re.pos s')
                                       ((n, (Re.pos s, Re.pos s')) :: Re.caps s'))).
Proof. reflexivity. Qed.

Lemma match_at_triplet_digit_free (before : option ascii) (s : string)
                                  (p : nat) :
  no_digit_byte s = true -> Re.match_at position_triplet_re before s p = None.
Proof.
  intros H. unfold Re.match_at, position_triplet_re.
  set (k := fun s' : Re.state => Some (Re.pos s', Re.caps s')).
  set (st := Re.mkState before s p []).
  assert (Hst : no_digit_byte (Re.rest st) = true) by exact H.
  clearbody st. clear H.
  rewrite go_seq. apply go_fails_digit_free; [|exact Hst]. intros s1 H1.
  rewrite go_seq. apply go_fails_digit_free; [|exact H1]. intros s2 H2.
  rewrite go_seq. apply go_fails_digit_free; [|exact H2]. intros s3 H3.
  rewrite go_seq. apply go_fails_digit_free; [|exact H3]. intros s4 H4.
  rewrite go_seq, go_group. apply number_re_fails. exact H4.
Qed.

Lemma search_triplet_digit_free (text : string) :
  forall before p, no_digit_byte text = true ->
  Re.search_from position_triplet_re before text p = None.
Proof.
  induction text as [|c rest IH]; intros before p H;
    cbn -[Re.match_at position_triplet_re].
  - rewrite match_at_triplet_digit_free by exact H. reflexivity.
  - rewrite match_at_triplet_digit_free by exact H. apply IH.
    simpl in H. apply andb_true_iff in H. apply H.
Qed.

(** A text in ASCII without a digit holds no number and no position
    triplet: the mutators then work with their defaults (a step of 1.0,
    90 degrees). *)
Theorem no_digit_no_number :
  forall (text : string),
    digit_free text = true ->
    _extract_numbers text = [] /\ _extract_position_triplet text = None.
Proof.
  intros text H. unfold digit_free in H. apply andb_true_iff in H.
  destruct H as [_ H]. split.
  - unfold _extract_numbers, Re.findall, Re.finditer.
    rewrite finditer_number_digit_free by exact H. reflexivity.
  - unfold _extract_position_triplet, Re.search.
    rewrite search_triplet_digit_free by exact H. reflexivity.
Qed.

Lemma no_digit_no_number_witness :
  _extract_numbers "rotate it a bit, to the left" = [] /\
  _extract_position_triplet "rotate it a bit, to the left" = None.
Proof.
  apply no_digit_no_number. vm_compute. reflexivity.
Defined.

Lemma apply_color_change_last_mention_and_idempotent_witness :
  map (fun obj => lookup "width" (get (obj_params obj) []))
      (fst (_apply_color_change
              [mkObject (Some "box1") (Some "box")
                        (Some [("width", PNum 10); ("color", PStr "#ff4b5c")])
                        None]
              "make the red box blue"))
  = [Some (PNum 10)].
Proof.
  apply (proj1 (proj2 (proj2 (proj2 (proj2
           (apply_color_change_last_mention_and_idempotent
              [mkObject (Some "box1") (Some "box")
                        (Some [("width", PNum 10); ("color", PStr "#ff4b5c")])
                        None]
              "make the red box blue"))))) "width").
  discriminate.
Defined.


(** ** Named values and default parameters *)

Lemma needs_digit_fails {R : Type} (r : Re.t) :
  needs_digit r ->
  forall (k : Re.state -> option R) (s : Re.state),
    no_digit_byte (Re.rest s) = true -> Re.go r s k = None.
Proof.
  induction 1 as [p Hp | a b _ IH | a b _ IH | a b _ IHa _ IHb | n a _ IH];
    intros k s Hs.
  - simpl. unfold Re.step.
    destruct (Re.rest s) as [|c rest'] eqn:E; [reflexivity|].
    destruct (p c) eqn:Pc; [|reflexivity].
    simpl in Hs. apply andb_true_iff in Hs. destruct Hs as [Hc _].
    rewrite (Hp c Pc) in Hc. discriminate Hc.
  - simpl. apply IH. exact Hs.
  - simpl. apply go_fails_digit_free; [|exact Hs].
    intros s' Hs'. apply IH. exact Hs'.
  - simpl. rewrite (IHa k s Hs). apply IHb. exact Hs.
  - simpl. apply IH. exact Hs.
Qed.

Lemma search_needs_digit (r : Re.t) (text : string) :
  needs_digit r ->
  forall before p, no_digit_byte text = true ->
  Re.search_from r before text p = None.
Proof.
  intros N. induction text as [|c rest IH]; intros before p H;
    cbn -[Re.match_at].
  - unfold Re.match_at. rewrite (needs_digit_fails r N) by exact H.
    reflexivity.
  - unfold Re.match_at. rewrite (needs_digit_fails r N) by exact H.
    apply IH. simpl in H. apply andb_true_iff in H. apply H.
Qed.

Lemma digit_needs_digit : needs_digit Re.digit.
Proof. apply nd_class. intros c H. exact H. Qed.

Lemma minus_number_needs_digit : needs_digit minus_number_re.
Proof.
  unfold minus_number_re, Re.Plus.
  do 3 apply nd_seq_r. apply nd_seq_l. exact digit_needs_digit.
Qed.

Lemma number_needs_digit : needs_digit number_re.
Proof.
  unfold number_re, Re.Plus.
  do 3 apply nd_seq_r. apply nd_seq_l. exact digit_needs_digit.
Qed.

Lemma named_value_of_digit_free (text keyword : string) :
  no_digit_byte text = true -> named_value_of text keyword = None.
Proof.
  intros H. unfold named_value_of, Re.search.
  rewrite (search_needs_digit (following_re keyword)).
  - rewrite (search_needs_digit (preceding_re keyword)).
    + reflexivity.
    + unfold preceding_re. apply nd_seq_l, nd_group, number_needs_digit.
    + exact H.
  - unfold following_re. do 6 apply nd_seq_r.
    apply nd_group, minus_number_needs_digit.
  - exact H.
Qed.

Lemma extract_named_value_digit_free (text : string) (keywords : list string) :
  no_digit_byte text = true -> _extract_named_value text keywords = None.
Proof.
  intros H. induction keywords as [|keyword rest IH]; simpl.
  - reflexivity.
  - rewrite named_value_of_digit_free by exact H. exact IH.
Qed.

Lemma is_digit_lower (c : ascii) : is_digit (Py.lower_ascii c) = is_digit c.
Proof. destruct c as [[] [] [] [] [] [] [] []]; reflexivity. Qed.

Lemma digit_free_lower (s : string) :
  no_digit_byte (Py.lower s) = no_digit_byte s.
Proof.
  induction s as [|c s IH]; simpl; [reflexivity|].
  rewrite is_digit_lower, IH. reflexivity.
Qed.

Lemma digit_free_app (a b : string) :
  no_digit_byte (a ++ b) = no_digit_byte a && no_digit_byte b.
Proof.
  induction a as [|c a IH]; simpl; [reflexivity|].
  rewrite IH. apply andb_assoc.
Qed.

Lemma digit_free_split_words (s : string) :
  forall cur, no_digit_byte cur = true -> no_digit_byte s = true ->
  Forall (fun w => no_digit_byte w = true) (Py.split_words cur s).
Proof.
  induction s as [|c s IH]; intros cur Hc Hs; simpl.
  - destruct cur; [constructor|]. constructor; [exact Hc|constructor].
  - simpl in Hs. apply andb_true_iff in Hs. destruct Hs as [Hd Hs].
    destruct (Py.is_space c).
    + destruct cur.
      * apply IH; [reflexivity|exact Hs].
      * constructor; [exact Hc|]. apply IH; [reflexivity|exact Hs].
    + apply IH; [|exact Hs].
      rewrite digit_free_app, Hc. simpl. rewrite Hd. reflexivity.
Qed.

Lemma digit_free_join_space (ws : list string) :
  Forall (fun w => no_digit_byte w = true) ws ->
  no_digit_byte (Py.join_space ws) = true.
Proof.
  induction 1 as [|w ws Hw _ IH]; [reflexivity|].
  destruct ws as [|w' ws']; [exact Hw|].
  change (Py.join_space (w :: w' :: ws'))
    with (w ++ " " ++ Py.join_space (w' :: ws'))%string.
  rewrite !digit_free_app, Hw, IH. reflexivity.
Qed.

Lemma digit_free_normalize (text : string) :
  no_digit_byte text = true -> no_digit_byte (_normalize text) = true.
Proof.
  intros H. unfold _normalize, Py.split.
  apply digit_free_join_space, digit_free_split_words; [reflexivity|].
  rewrite digit_free_lower. exact H.
Qed.

(** Dimensions need digits: in a request in ASCII without a digit no
    keyword has a named value, the normalised request holds no number, and
    each of the six primitive shapes gets its default dimensions (a box of
    side 10, a cylinder of radius 5 and depth 10, a sphere of radius 5, a
    cone of radius 5 and height 10, a torus of radius 5 and tube 1.5, a
    plane of size 10). *)
Theorem default_params_without_digits :
  forall (text : string),
    digit_free text = true ->
    (forall keywords, _extract_named_value text keywords = None) /\
    _extract_numbers (_normalize text) = [] /\
    _default_params_for_type "box" text (_extract_numbers (_normalize text))
    = Ok [("width", PNum 10); ("depth", PNum 10); ("height", PNum 10)] /\
    _default_params_for_type "cylinder" text (_extract_numbers (_normalize text))
    = Ok [("radius", PNum 5); ("depth", PNum 10)] /\
    _default_params_for_type "sphere" text (_extract_numbers (_normalize text))
    = Ok [("radius", PNum 5)] /\
    _default_params_for_type "cone" text (_extract_numbers (_normalize text))
    = Ok [("radius", PNum 5); ("height", PNum 10)] /\
    _default_params_for_type "torus" text (_extract_numbers (_normalize text))
    = Ok [("radius", PNum 5); ("tube", PNum 1.5)] /\
    _default_params_for_type "plane" text (_extract_numbers (_normalize text))
    = Ok [("size", PNum 10)].
Proof.
  intros text H. unfold digit_free in H. apply andb_true_iff in H.
  destruct H as [_ H].
  assert (N : forall keywords, _extract_named_value text keywords = None).
  { intros keywords. apply extract_named_value_digit_free. exact H. }
  assert (E : _extract_numbers (_normalize text) = []).
  { unfold _extract_numbers, Re.findall, Re.finditer.
    rewrite finditer_number_digit_free
      by (apply digit_free_normalize; exact H).
    reflexivity. }
  split; [exact N|]. split; [exact E|]. rewrite E.
  unfold _default_params_for_type, param_value.
  repeat split; cbn [String.eqb Ascii.eqb Bool.eqb]; rewrite ?N; reflexivity.
Qed.

Lemma default_params_without_digits_witness :
  _default_params_for_type "sphere" "add a blue sphere"
    (_extract_numbers (_normalize "add a blue sphere"))
  = Ok [("radius", PNum 5)].
Proof.
  apply (default_params_without_digits "add a blue sphere").
  vm_compute. reflexivity.
Defined.


Ltac split_param_values :=
  repeat match goal with
         | |- context [let (_, _) := ?p in _] => destruct p
         | H : context [let (_, _) := ?p in _] |- _ => destruct p
         end.

(** Every type but [assembly] gets its parameters. *)
Lemma default_params_returns (ty text : string) (numbers : list float) :
  ty <> "assembly" ->
  exists params, _default_params_for_type ty text numbers = Ok params.
Proof.
  intros T. unfold _default_params_for_type.
  do 6 (match goal with
        | |- context [if String.eqb ty ?name then _ else _] =>
            destruct (String.eqb ty name);
            [split_param_values; eexists; reflexivity|]
        end).
  destruct (String.eqb ty "assembly") eqn:A.
  - apply String.eqb_eq in A. contradiction.
  - eexists. reflexivity.
Qed.

(** The parameters of a new object raise for one request only: a
    robot hand (an [assembly] whose text names no bicycle) whose number of
    fingers [int] cannot convert, as a run of digits too long for a finite
    float.  The error is the one of [int]. *)
Theorem default_params_raise_only_for_robot_hand :
  forall (ty text : string) (numbers : list float) (e : exn),
    _default_params_for_type ty text numbers = Raise e ->
    ty = "assembly" /\
    Py.contains (Py.lower text) "bicycle" = false /\
    Py.contains (Py.lower text) "bike" = false /\
    int_of (float_or (_extract_named_value text ["fingers"; "finger"]) 5)
    = Raise e.
Proof.
  intros ty text numbers e H. unfold _default_params_for_type in H.
  do 6 (match type of H with
        | context [if String.eqb ty ?name then _ else _] =>
            destruct (String.eqb ty name);
            [split_param_values; discriminate H|]
        end).
  destruct (String.eqb ty "assembly") eqn:A; [|discriminate H].
  apply String.eqb_eq in A. cbv zeta in H.
  destruct (Py.contains (Py.lower text) "bicycle"
            || Py.contains (Py.lower text) "bike") eqn:B; [discriminate H|].
  apply orb_false_iff in B. destruct B as [B1 B2].
  unfold bind in H.
  destruct (int_of (float_or (_extract_named_value text ["fingers"; "finger"]) 5))
    as [count|e'] eqn:I; [discriminate H|].
  injection H as ->. repeat split; assumption.
Qed.

Lemma default_params_raise_only_for_robot_hand_witness :
  int_of (float_or
            (_extract_named_value
               ("a gripper with 1000000000000000000000000000000000000000000"
                ++ "0000000000000000000000000000000000000000000000000000000"
                ++ "0000000000000000000000000000000000000000000000000000000"
                ++ "0000000000000000000000000000000000000000000000000000000"
                ++ "0000000000000000000000000000000000000000000000000000000"
                ++ "0000000000000000000000000000000000000000000000000000000"
                ++ " fingers")
               ["fingers"; "finger"]) 5)
  = Raise OverflowError.
Proof.
  apply (default_params_raise_only_for_robot_hand "assembly" _ []).
  vm_compute. reflexivity.
Defined.

Lemma detect_object_type_known (text : string) :
  In (_detect_object_type text)
     ["cylinder"; "sphere"; "cone"; "torus"; "plane"; "box"].
Proof.
  unfold _detect_object_type.
  destruct (find _ _) as [candidate|] eqn:F.
  - apply find_some in F. apply F.
  - simpl. tauto.
Qed.

Lemma new_object_type_known (text : string) :
  In (new_object_type text)
     ["cylinder"; "sphere"; "cone"; "torus"; "plane"; "box"; "assembly"].
Proof.
  unfold new_object_type.
  match goal with |- context [if ?b then _ else _] => destruct b end.
  - simpl. tauto.
  - pose proof (detect_object_type_known text) as D. simpl in D. simpl. tauto.
Qed.

Lemma generate_id_fresh (base : string) (spec : spec_t) :
  exists n,
    1 <= n /\
    _generate_id base (Some spec) = candidate_id base n /\
    ~ In (candidate_id base n) (spec_ids spec) /\
    (forall k, 1 <= k < n -> In (candidate_id base k) (spec_ids spec)).
Proof.
  destruct (generate_id_smallest base (Some spec)) as [n [N [E [F L]]]].
  exists n. split; [exact N|]. split; [exact E|]. split.
  - intros I. apply F. apply In_existing_ids. split; [exact I|].
    apply candidate_id_nonempty.
  - intros k K. apply (In_existing_ids spec). apply L. exact K.
Qed.

(** The colors of the table are not empty, so a color found in a text
    is not. *)
Lemma color_from_text_nonempty (text color : string) :
  _color_from_text text = Some color -> color <> "".
Proof.
  unfold _color_from_text. intros H.
  destruct (find _ colors_longest_first) as [kv|] eqn:F; [|discriminate H].
  injection H as <-. apply find_some in F. destruct F as [F _].
  apply (Permutation_in _ colors_longest_first_perm) in F.
  assert (T : forallb (fun kv : string * string =>
                         negb (String.eqb (snd kv) "")) COLOR_KEYWORDS = true)
    by reflexivity.
  rewrite forallb_forall in T. specialize (T kv F).
  apply negb_true_iff in T. apply String.eqb_neq. exact T.
Qed.

(** A new object: when [_build_new_object] returns, the object has
    one of the seven types, the transform of a new object, an id made of
    the short name of its type and the smallest number from 1 on that
    gives an id no object of the scene has, and as parameters exactly
    those [_default_params_for_type] gives for the type, the text and the
    numbers, with the key [color] set to the color of the text when it
    names one (every other key as it was).  It raises only for an
    [assembly]. *)
Theorem build_new_object_fresh_and_default :
  forall (text : string) (spec : spec_t) (numbers : list float),
    match _build_new_object text spec numbers with
    | Ok obj =>
        let ty := new_object_type text in
        let base := get (lookup ty base_names) "obj" in
        In ty ["cylinder"; "sphere"; "cone"; "torus"; "plane"; "box";
               "assembly"] /\
        obj_type obj = Some ty /\
        obj_transform obj = Some _default_transform /\
        (exists n,
            1 <= n /\
            obj_id obj = Some (candidate_id base n) /\
            ~ In (candidate_id base n) (spec_ids spec) /\
            (forall k, 1 <= k < n -> In (candidate_id base k) (spec_ids spec))) /\
        (exists params,
            _default_params_for_type ty text numbers = Ok params /\
            match _color_from_text text with
            | Some color =>
                params_of obj = dict_set "color" (PStr color) params /\
                lookup "color" (params_of obj) = Some (PStr color) /\
                (forall key, key <> "color" ->
                             lookup key (params_of obj) = lookup key params)
            | None => params_of obj = params
            end)
    | Raise _ => new_object_type text = "assembly"
    end.
Proof.
  intros text spec numbers. unfold _build_new_object.
  destruct (_default_params_for_type (new_object_type text) text numbers)
    as [params|e] eqn:E; unfold bind.
  - cbv zeta. split; [apply new_object_type_known|].
    split; [reflexivity|]. split; [reflexivity|]. split.
    + destruct (generate_id_fresh
                  (get (lookup (new_object_type text) base_names) "obj") spec)
        as [n [N [G [F L]]]].
      exists n. split; [exact N|]. split; [|split; assumption].
      cbn [obj_id]. rewrite G. reflexivity.
    + exists params. split; [reflexivity|].
      unfold params_of. cbn [obj_params get].
      destruct (_color_from_text text) as [color|] eqn:C; [|reflexivity].
      pose proof (color_from_text_nonempty text color C) as Hc.
      apply String.eqb_neq in Hc. rewrite Hc.
      split; [reflexivity|]. split.
      * apply lookup_dict_set_same.
      * intros key K. apply lookup_dict_set_other. exact K.
  - destruct (string_dec (new_object_type text) "assembly") as [A|A];
      [exact A|].
    destruct (default_params_returns (new_object_type text) text numbers A)
      as [params P].
    rewrite P in E. discriminate E.
Qed.


(** ** Replacing an object *)

Lemma nth_error_update_nth {A : Type} (f : A -> A) (l : list A) :
  forall i j,
    nth_error (update_nth i f l) j
    = if (j =? i)%nat then option_map f (nth_error l j) else nth_error l j.
Proof.
  induction l as [|a l IH]; intros i j.
  - destruct i, j; simpl; try reflexivity; destruct (j =? i)%nat; reflexivity.
  - destruct i as [|i], j as [|j]; simpl; try reflexivity. apply IH.
Qed.

Lemma update_nth_twice {A : Type} (f g : A -> A) (l : list A) :
  forall i, update_nth i f (update_nth i g l)
            = update_nth i (fun a => f (g a)) l.
Proof.
  induction l as [|a l IH]; intros [|i]; simpl; try reflexivity.
  rewrite IH. reflexivity.
Qed.

Lemma map_update_nth_same {A B : Type} (h : A -> B) (f : A -> A) (l : list A) :
  forall i, (forall a, nth_error l i = Some a -> h (f a) = h a) ->
            map h (update_nth i f l) = map h l.
Proof.
  induction l as [|a l IH]; intros [|i] H; simpl; try reflexivity.
  - rewrite (H a eq_refl). reflexivity.
  - rewrite IH; [reflexivity|]. intros b Hb. apply H. exact Hb.
Qed.

(** With ids that tell the objects apart, [index] finds the target. *)
Lemma index_of_unique (same : object -> object -> bool) (target : object) :
  (forall a b, same a b = true -> obj_id a = obj_id b) ->
  forall objs idx pos,
    pos <= idx ->
    (forall j o, j < idx - pos -> nth_error objs j = Some o ->
                 obj_id o <> obj_id target) ->
    index_of same target objs idx pos = idx.
Proof.
  intros Hsame. induction objs as [|a objs IH]; intros idx pos Hle H; simpl.
  - reflexivity.
  - destruct (pos =? idx)%nat eqn:E; [reflexivity|].
    apply Nat.eqb_neq in E.
    destruct (same a target) eqn:Same.
    + exfalso. apply (H 0 a); [lia|reflexivity|]. apply Hsame. exact Same.
    + apply IH; [lia|]. intros j o Hj Ho. apply (H (S j) o); [lia|exact Ho].
Qed.

Lemma detect_object_type_nonempty (text : string) :
  String.eqb (_detect_object_type text) "" = false.
Proof.
  pose proof (detect_object_type_known text) as D. simpl in D.
  destruct D as [<-|[<-|[<-|[<-|[<-|[<-|[]]]]]]]; reflexivity.
Qed.

Lemma detect_object_type_returns (text : string) (numbers : list float) :
  exists params,
    _default_params_for_type (_detect_object_type text) text numbers
    = Ok params.
Proof.
  apply default_params_returns.
  pose proof (detect_object_type_known text) as D. simpl in D.
  destruct D as [<-|[<-|[<-|[<-|[<-|[<-|[]]]]]]]; discriminate.
Qed.

(** Replace swaps the type in place.  In a scene whose ids tell the
    objects apart, replacing a target by the type the text names changes
    nothing and answers False when that is the type the target has; else
    it answers True and puts one new object in the target's place: of the
    new type, with the target's repaired transform, the target's id if it
    has one (a fresh id of the new type's name otherwise), and the color
    the text names or else the target's. *)
Theorem replace_object_in_place :
  forall (same : object -> object -> bool) (idx : nat) (old : object)
         (spec : spec_t) (objs : list object) (text : string)
         (numbers : list float),
    (forall a b, same a b = true -> obj_id a = obj_id b) ->
    objects spec = Some objs ->
    nth_error objs idx = Some old ->
    NoDup (map obj_id objs) ->
    let new_type := _detect_object_type text in
    if String.eqb new_type (get (obj_type old) "")
    then _replace_object same (idx, old) spec text numbers = Ok (spec, false)
    else
      exists replacement,
        _replace_object same (idx, old) spec text numbers
        = Ok (mkSpec (Some (replace_nth idx replacement objs)), true) /\
        obj_type replacement = Some new_type /\
        obj_transform replacement = obj_transform (_ensure_transform old) /\
        (forall i, obj_id old = Some i -> i <> "" ->
                   obj_id replacement = Some i) /\
        (obj_id old = None \/ obj_id old = Some "" ->
         exists n, obj_id replacement = Some (candidate_id new_type n) /\
                   ~ In (candidate_id new_type n) (spec_ids spec)) /\
        (forall c, _color_from_text text = Some c -> c <> "" ->
                   lookup "color" (params_of replacement) = Some (PStr c)) /\
        (forall v, _color_from_text text = None ->
                   lookup "color" (params_of old) = Some v ->
                   pval_truthy v = true ->
                   lookup "color" (params_of replacement) = Some v).
Proof.
  intros same idx old spec objs text numbers Hsame Hobjs Hnth Hdup new_type.
  subst new_type. unfold _replace_object. cbv beta iota zeta.
  rewrite detect_object_type_nonempty.
  destruct (String.eqb (_detect_object_type text) (get (obj_type old) ""));
    [reflexivity|].
  destruct (detect_object_type_returns text numbers) as [params P].
  rewrite P. unfold bind. rewrite Hobjs.
  assert (Hlt : idx < List.length objs).
  { apply nth_error_Some. rewrite Hnth. discriminate. }
  apply Nat.ltb_lt in Hlt. rewrite Hlt. cbn [negb]. cbv zeta.
  set (repaired := _ensure_transform old).
  set (objs' := replace_nth idx repaired objs).
  assert (Hids : map obj_id objs' = map obj_id objs).
  { unfold objs', replace_nth. apply map_update_nth_same.
    intros a Ha. rewrite Hnth in Ha. injection Ha as <-. reflexivity. }
  assert (Hindex : index_of same repaired objs' idx 0 = idx).
  { apply index_of_unique; [exact Hsame|lia|].
    intros j o Hj Ho Heq.
    assert (Hj' : nth_error (map obj_id objs) j = Some (obj_id o)).
    { rewrite <- Hids. apply map_nth_error. exact Ho. }
    assert (Hi' : nth_error (map obj_id objs) idx = Some (obj_id old)).
    { apply map_nth_error. exact Hnth. }
    assert (J : j = idx).
    { apply (proj1 (NoDup_nth_error (map obj_id objs)) Hdup).
      - apply nth_error_Some. rewrite Hj'. discriminate.
      - rewrite Hj', Hi', Heq. reflexivity. }
    lia. }
  rewrite Hindex.
  assert (Hspec_ids : spec_ids (mkSpec (Some objs')) = spec_ids spec).
  { unfold spec_ids. cbn [objects get]. rewrite Hobjs. cbn [get].
    rewrite <- (map_map obj_id (fun i => get i "")),
            <- (map_map obj_id (fun i => get i "") objs), Hids.
    reflexivity. }
  assert (Htwice : forall new_obj, replace_nth idx new_obj objs'
                                   = replace_nth idx new_obj objs).
  { intros new_obj. unfold objs', replace_nth. rewrite update_nth_twice.
    reflexivity. }
  rewrite Htwice. eexists. split; [reflexivity|].
  split; [reflexivity|]. split; [reflexivity|]. split.
  { intros i Hi Hne. cbn [obj_id]. rewrite Hi.
    apply String.eqb_neq in Hne. rewrite Hne. reflexivity. }
  split.
  { intros Hnone.
    destruct (generate_id_fresh (_detect_object_type text)
                                (mkSpec (Some objs')))
      as [n [_ [G [F _]]]].
    exists n. rewrite Hspec_ids in F. split; [|exact F].
    cbn [obj_id]. destruct Hnone as [-> | ->];
      [|rewrite String.eqb_refl]; rewrite G; reflexivity. }
  split.
  { intros c C Hne. rewrite C. apply String.eqb_neq in Hne. rewrite Hne.
    unfold params_of at 1. cbn [obj_params get pval_truthy].
    rewrite Hne. cbn [negb]. apply lookup_dict_set_same. }
  { intros v C L T. rewrite C, L, T.
    unfold params_of at 1. cbn [obj_params get].
    apply lookup_dict_set_same. }
Qed.


Lemma object_eq_same_id (a b : object) :
  object_eq a b = true -> obj_id a = obj_id b.
Proof.
  unfold object_eq. intros H.
  apply andb_true_iff in H. destruct H as [H _].
  apply andb_true_iff in H. destruct H as [H _].
  apply andb_true_iff in H. destruct H as [H _].
  destruct (obj_id a) as [i|], (obj_id b) as [j|]; simpl in H;
    try discriminate H; [|reflexivity].
  apply String.eqb_eq in H. rewrite H. reflexivity.
Qed.

Lemma replace_object_in_place_witness :
  let box :=
    mkObject (Some "box1") (Some "box")
             (Some [("width", PNum 10); ("color", PStr "#ff4b5c")]) None in
  let cyl := mkObject (Some "cyl1") (Some "cylinder") None None in
  exists replacement,
    _replace_object object_eq (0, box) (mkSpec (Some [box; cyl]))
                    "replace the box with a sphere" []
    = Ok (mkSpec (Some [replacement; cyl]), true) /\
    obj_type replacement = Some "sphere" /\
    obj_id replacement = Some "box1" /\
    lookup "color" (params_of replacement) = Some (PStr "#ff4b5c").
Proof.
  intros box cyl.
  assert (D : NoDup (map obj_id [box; cyl])).
  { repeat constructor; simpl; intuition discriminate. }
  pose proof (replace_object_in_place object_eq 0 box
                (mkSpec (Some [box; cyl])) [box; cyl]
                "replace the box with a sphere" []
                object_eq_same_id eq_refl eq_refl D) as P.
  change (exists replacement,
            _replace_object object_eq (0, box) (mkSpec (Some [box; cyl]))
                            "replace the box with a sphere" []
            = Ok (mkSpec (Some (replace_nth 0 replacement [box; cyl])), true) /\
            obj_type replacement = Some "sphere" /\
            obj_transform replacement = obj_transform (_ensure_transform box) /\
            (forall i, obj_id box = Some i -> i <> "" ->
                       obj_id replacement = Some i) /\
            (obj_id box = None \/ obj_id box = Some "" ->
             exists n, obj_id replacement = Some (candidate_id "sphere" n) /\
                       ~ In (candidate_id "sphere" n)
                            (spec_ids (mkSpec (Some [box; cyl])))) /\
            (forall c, _color_from_text "replace the box with a sphere" = Some c ->
                       c <> "" ->
                       lookup "color" (params_of replacement) = Some (PStr c)) /\
            (forall v, _color_from_text "replace the box with a sphere" = None ->
                       lookup "color" (params_of box) = Some v ->
                       pval_truthy v = true ->
                       lookup "color" (params_of replacement) = Some v)) in P.
  destruct P as [replacement [E [T [_ [I [_ [_ C]]]]]]].
  exists replacement. split; [exact E|]. split; [exact T|]. split.
  - apply (I "box1"); [reflexivity|discriminate].
  - apply (C (PStr "#ff4b5c")); reflexivity.
Defined.


(** ** Cloning *)

Lemma identity_map (g : object -> object) (l : list object) :
  (forall obj, identity_of (g obj) = identity_of obj) ->
  map identity_of (map g l) = map identity_of l.
Proof.
  intros H. rewrite map_map. apply map_ext. exact H.
Qed.

Lemma color_change_identity (l : list object) (text : string) :
  map identity_of (fst (_apply_color_change l text)) = map identity_of l.
Proof.
  unfold _apply_color_change.
  destruct (rev (_color_mentions text)) as [|[span color] rest];
    [reflexivity|].
  cbn [fst]. apply identity_map. intros obj. unfold recolor.
  destruct (color_differs (get (obj_params obj) []) color); reflexivity.
Qed.

Lemma dimension_change_identity (l : list object) (text : string)
    (numbers : list float) (sized : list object * bool) :
  _apply_dimension_change l text numbers = Ok sized ->
  map identity_of (fst sized) = map identity_of l.
Proof.
  intros H. unfold _apply_dimension_change in H. cbv zeta in H.
  apply (dimension_loop_changed _ _ _ l _ _ _ _ _
           (Forall2_refl_list _ l dimension_changed_refl)) in H.
  induction H as [|a b l l' [I [T _]] _ IH]; [reflexivity|].
  simpl. rewrite IH. unfold identity_of. rewrite I, T. reflexivity.
Qed.

Lemma directional_move_identity (l : list object) (text : string)
    (numbers : list float) :
  map identity_of (fst (_apply_directional_move l text numbers))
  = map identity_of l.
Proof.
  unfold _apply_directional_move. cbv zeta.
  destruct (negb (Py.contains_any (Py.lower text) MOVE_WORDS));
    [reflexivity|].
  destruct (_extract_position_triplet (Py.lower text)) as [absolute|];
    cbn [fst]; apply identity_map; intros obj.
  - reflexivity.
  - destruct (move_object_shape (Py.lower text) (hd 1.0%float numbers) obj)
      as [p [_ E]].
    rewrite E. reflexivity.
Qed.

Lemma rotation_change_identity (l : list object) (text : string)
    (numbers : list float) :
  map identity_of (fst (_apply_rotation_change l text numbers))
  = map identity_of l.
Proof.
  unfold _apply_rotation_change. cbv zeta.
  destruct (negb (rotation_triggered (Py.lower text))); [reflexivity|].
  cbn [fst]. apply identity_map. intros obj. reflexivity.
Qed.

Lemma scale_change_identity (l : list object) (text : string)
    (numbers : list float) :
  map identity_of (fst (_apply_scale_change l text numbers))
  = map identity_of l.
Proof.
  destruct (apply_scale_change_shape l text numbers) as [g [E [K _]]].
  rewrite E. apply identity_map. intros obj.
  destruct (K obj) as [I [T _]]. unfold identity_of. rewrite I, T.
  reflexivity.
Qed.

(** The clone step, with its intermediate names spelled out. *)
Lemma clone_targets_unfold (targets : list target) (spec : spec_t)
    (lowered : string) (numbers : list float) :
  bind (_apply_dimension_change
          (fst (_apply_color_change
                  (map (fun t => _duplicate_object (snd t) spec) targets)
                  lowered))
          lowered numbers)
       (fun sized =>
          Ok (mkSpec (Some (get (objects spec) []
                ++ fst (_apply_scale_change
                     (fst (_apply_rotation_change
                        (fst (_apply_directional_move (fst sized)
                                                     lowered numbers))
                        lowered numbers))
                     lowered numbers)))))
  = clone_targets targets spec lowered numbers.
Proof.
  exact (eq_refl
           (bind (_apply_dimension_change
                    (fst (_apply_color_change
                            (map (fun t => _duplicate_object (snd t) spec)
                                 targets)
                            lowered))
                    lowered numbers)
                 (fun sized =>
                    Ok (mkSpec (Some (get (objects spec) []
                          ++ fst (_apply_scale_change
                               (fst (_apply_rotation_change
                                  (fst (_apply_directional_move (fst sized)
                                                               lowered numbers))
                                  lowered numbers))
                               lowered numbers))))))).
Qed.

(** Cloning in [run_local]: when the clone step returns, the scene
    is the scene before it followed by one clone per target, in the order
    of the targets; a clone has the type of its target and the id that
    [_generate_id] gives for that type in the scene before the step.  So
    the id of a clone is non-empty and is the id of no object that was in
    the scene, but the clones of two targets of one type carry one and the
    same id. *)
Theorem clone_targets_ids :
  forall (targets : list target) (spec : spec_t) (lowered : string)
         (numbers : list float) (after : spec_t),
    clone_targets targets spec lowered numbers = Ok after ->
    exists clones,
      objects after = Some (get (objects spec) [] ++ clones) /\
      map obj_id clones
      = map (fun t => Some (_generate_id (type_or_obj (snd t)) (Some spec)))
            targets /\
      map obj_type clones = map (fun t => obj_type (snd t)) targets /\
      (forall clone, In clone clones ->
         exists new_id, obj_id clone = Some new_id /\ new_id <> "" /\
                        ~ In new_id (spec_ids spec)) /\
      (forall i j a b,
         nth_error targets i = Some a -> nth_error targets j = Some b ->
         type_or_obj (snd a) = type_or_obj (snd b) ->
         nth_error (map obj_id clones) i = nth_error (map obj_id clones) j).
Proof.
  intros targets spec lowered numbers after H.
  rewrite <- clone_targets_unfold in H.
  destruct (_apply_dimension_change _ lowered numbers) as [sized|e] eqn:D;
    [|discriminate H].
  cbn [bind] in H. injection H as <-.
  match goal with
  | |- context [Some (_ ++ ?c)] => set (clones := c)
  end.
  assert (I : map identity_of clones
              = map identity_of
                    (map (fun t => _duplicate_object (snd t) spec) targets)).
  { unfold clones.
    rewrite scale_change_identity, rotation_change_identity,
            directional_move_identity.
    rewrite (dimension_change_identity _ _ _ _ D).
    apply color_change_identity. }
  assert (Ids : map obj_id clones
                = map (fun t => Some (_generate_id (type_or_obj (snd t))
                                                   (Some spec)))
                      targets).
  { transitivity (map fst (map identity_of clones));
      [rewrite map_map; reflexivity|].
    rewrite I, !map_map. apply map_ext. intros t. reflexivity. }
  assert (Types : map obj_type clones
                  = map (fun t => obj_type (snd t)) targets).
  { transitivity (map snd (map identity_of clones));
      [rewrite map_map; reflexivity|].
    rewrite I, !map_map. apply map_ext. intros t. reflexivity. }
  exists clones. split; [reflexivity|]. split; [exact Ids|].
  split; [exact Types|]. split.
  - intros clone Hin.
    apply (in_map obj_id) in Hin. rewrite Ids in Hin.
    apply in_map_iff in Hin. destruct Hin as [t [E _]].
    exists (_generate_id (type_or_obj (snd t)) (Some spec)).
    split; [symmetry; exact E|].
    destruct (generate_id_fresh (type_or_obj (snd t)) spec)
      as [n [_ [G [F _]]]].
    rewrite G. split; [apply candidate_id_nonempty|exact F].
  - intros i j a b Ha Hb T. rewrite Ids.
    rewrite (map_nth_error _ _ _ Ha), (map_nth_error _ _ _ Hb), T.
    reflexivity.
Qed.

Lemma clone_targets_ids_witness :
  let box1 := mkObject (Some "box1") (Some "box")
                       (Some [("width", PNum 10)]) None in
  let box2 := mkObject (Some "box2") (Some "box")
                       (Some [("width", PNum 4)]) None in
  exists after clones,
    clone_targets [(0, box1); (1, box2)] (mkSpec (Some [box1; box2]))
                  "copy the boxes" [] = Ok after /\
    objects after = Some ([box1; box2] ++ clones) /\
    map obj_id clones = [Some "box3"; Some "box3"].
Proof.
  intros box1 box2.
  eassert (H : clone_targets [(0, box1); (1, box2)]
                             (mkSpec (Some [box1; box2]))
                             "copy the boxes" [] = Ok _).
  { vm_compute. reflexivity. }
  destruct (clone_targets_ids _ _ _ _ _ H) as [clones [E [I _]]].
  eexists. exists clones. split; [exact H|]. split; [exact E|].
  rewrite I. vm_compute. reflexivity.
Defined.


(** ** The specification check *)

Lemma forallb_or_empty {A : Type} (f : A -> bool) (l : list A) :
  (List.length l =? 0)%nat || forallb f l = forallb f l.
Proof. destruct l; simpl; [reflexivity|reflexivity]. Qed.

Lemma forallb_snoc {A : Type} (f : A -> bool) (l : list A) (a : A) :
  forallb f (l ++ [a]) = forallb f l && f a.
Proof. rewrite forallb_app. simpl. rewrite andb_true_r. reflexivity. Qed.

(** Advisory warnings added in a loop leave the verdict as it was. *)
Lemma fold_advisory {B : Type} (keep : B -> bool) (warn : B -> message) :
  (forall b, advisory (warn b) = true) ->
  forall (l : list B) (ws : list message),
    forallb advisory
      (fold_left (fun ws b => if keep b then ws ++ [warn b] else ws) l ws)
    = forallb advisory ws.
Proof.
  intros H. induction l as [|b l IH]; intros ws; simpl; [reflexivity|].
  rewrite IH. destruct (keep b); [|reflexivity].
  rewrite forallb_snoc, H. apply andb_true_r.
Qed.

(** The verdict of [validate_specification]: a specification is
    invalid exactly when its smallest dimension (of those given in mm) is
    below 0.5, or is below 1 while the largest is above 1000, or when it
    speaks of attaching, connecting or joining without naming a boolean
    or a union.  The other warnings (a very large dimension, a thin wall,
    a large fillet, no material) never make it invalid; the text comes
    back as it was. *)
Theorem validate_specification_verdict :
  forall (spec_text : string),
    let numbers :=
      map float_of_numeral (findall_group millimetres_re spec_text) in
    let low := Py.lower spec_text in
    valid (validate_specification spec_text)
    = negb
        (match numbers with
         | [] => false
         | first :: rest =>
             (min_of first rest <? 0.5)%float
             || ((min_of first rest <? 1)%float
                 && (1000 <? max_of first rest)%float)
         end
         || ((Py.contains low "attach" || Py.contains low "connect"
              || Py.contains low "join")
             && (negb (Py.contains low "boolean")
                 && negb (Py.contains low "union")))) /\
    enhanced (validate_specification spec_text) = spec_text.
Proof.
  intros spec_text numbers low. split; [|reflexivity].
  unfold validate_specification. fold numbers. fold low.
  cbv zeta. cbn [valid]. rewrite forallb_or_empty.
  set (attached := Py.contains low "attach" || Py.contains low "connect"
                   || Py.contains low "join").
  set (loose := negb (Py.contains low "boolean")
                && negb (Py.contains low "union")).
  assert (M : forall ws,
             forallb advisory
               (if negb (Py.contains_any low materials)
                then ws ++ [no_material] else ws)
             = forallb advisory ws).
  { intros ws. destruct (negb (Py.contains_any low materials));
      [|reflexivity].
    rewrite forallb_snoc. apply andb_true_r. }
  assert (B : forall ws,
             forallb advisory
               (if attached
                then if loose then ws ++ [no_boolean] else ws
                else ws)
             = forallb advisory ws && negb (attached && loose)).
  { intros ws. destruct attached, loose; simpl;
      rewrite ?forallb_snoc, ?andb_true_r; reflexivity. }
  rewrite M, B.
  destruct numbers as [|first rest].
  - rewrite (fold_advisory
               (fun thickness => (float_of_numeral thickness <? 1.5)%float)
               (fun thickness => thin_wall (float_of_numeral thickness)))
      by reflexivity.
    reflexivity.
  - rewrite (fold_advisory
               (fun fillet =>
                  (max_of first rest * 0.3 <? float_of_numeral fillet)%float)
               (fun fillet => large_fillet (float_of_numeral fillet)))
      by reflexivity.
    rewrite (fold_advisory
               (fun thickness => (float_of_numeral thickness <? 1.5)%float)
               (fun thickness => thin_wall (float_of_numeral thickness)))
      by reflexivity.
    destruct (min_of first rest <? 0.5)%float,
             (5000 <? max_of first rest)%float,
             ((min_of first rest <? 1)%float
              && (1000 <? max_of first rest)%float);
      cbn [app]; rewrite ?forallb_snoc; cbn [forallb];
      destruct (attached && loose); reflexivity.
Qed.
